(** * litmusdaily: the serverless handlers, embedded and verified

    The handlers under [api/] (market snapshot, top-100 coins, personal
    data, the daily rotating metric, market mood, ETF flows, and the podcast
    feed) are embedded as pure functions of an explicit per-invocation
    environment (clock readings and upstream replies) and of the
    module-level cache slot, which is threaded through as state.

    Conventions of the embedding:
    - A JavaScript number is [NaN], an infinity or a finite rational, the
      exact value of the double.  Module [Double] gives the arithmetic of
      IEEE 754 doubles on them (every result rounded to nearest, ties to
      even); it is used where the code computes with fractions: the market
      mood, open interest, stablecoin supply, ETF flows and the client's
      market-cap format.  The operations of [JS] are exact; they are used
      on whole numbers (cache age, durations, audio time), where doubles are
      exact too, and for the funding-rate average, which therefore agrees
      with the code only as long as no operation of it rounds.  The sign of
      zero is not kept.
    - JavaScript strings are Rocq strings; each character stands for one code
      unit of the 8-bit range, and case mapping acts on the letters A-Z and
      a-z, which is what JavaScript does on ASCII strings.
    - An upstream JSON document is a record of optional fields.  [None]
      stands for JSON [null]; a missing key behaves the same under [||]
      and [?.].  A number of a document is the value of the parsed double.
    - Where a handler raises on a parsed body that is not of the expected
      shape, the body is a [Body]: the document, or [Unusable] with the
      message of the [TypeError].
    - The object given to [res.json] is a finite map from keys to values.
    - Services of the JavaScript runtime that depend on the engine ([Date]
      parsing and printing, [Number] on strings, printing of fractional
      numbers by a template literal) are taken from the environment of the
      invocation.
    - [console.error] / [console.log] and the response headers are not part
      of the model. *)

From Stdlib Require Import ZArith QArith Qround Qabs Qminmax Qpower String Ascii List Lia Lqa DecimalString.
From stdpp Require Import base option gmap strings list.

Set Warnings "-register-all".
Local Open Scope Z_scope.

(** ** JavaScript values *)

Module JS.

(** *** Exceptions *)

Inductive Exc (A : Type) : Type :=
| Ok (a : A)
| Throw (msg : string).
Arguments Ok {A} a.
Arguments Throw {A} msg.

#[export] Instance exc_ret : MRet Exc := fun _ a => Ok a.
#[export] Instance exc_bind : MBind Exc := fun _ _ f m =>
  match m with
  | Ok a => f a
  | Throw msg => Throw msg
  end.

(** [try { m } catch (error) { h error.message }] *)
Definition try_catch {A} (m : Exc A) (h : string -> A) : A :=
  match m with
  | Ok a => a
  | Throw msg => h msg
  end.

Definition succeeded {A} (m : Exc A) : bool :=
  match m with
  | Ok _ => true
  | Throw _ => false
  end.

(** *** Numbers *)

Inductive num : Type :=
| NaN
| Inf (neg : bool)
| Fin (q : Q).

Definition Qis0 (q : Q) : bool := Qeq_bool q 0.
Definition Qneg (q : Q) : bool := negb (Qle_bool 0 q).

Definition of_Z (z : Z) : num := Fin (inject_Z z).

Definition add (a b : num) : num :=
  match a, b with
  | NaN, _ | _, NaN => NaN
  | Inf s, Inf t => if Bool.eqb s t then Inf s else NaN
  | Inf s, Fin _ | Fin _, Inf s => Inf s
  | Fin x, Fin y => Fin (Qred (x + y))
  end.

Definition neg (a : num) : num :=
  match a with
  | NaN => NaN
  | Inf s => Inf (negb s)
  | Fin x => Fin (Qred (- x))
  end.

Definition sub (a b : num) : num := add a (neg b).

Definition mul (a b : num) : num :=
  match a, b with
  | NaN, _ | _, NaN => NaN
  | Inf s, Inf t => Inf (xorb s t)
  | Inf s, Fin x | Fin x, Inf s => if Qis0 x then NaN else Inf (xorb s (Qneg x))
  | Fin x, Fin y => Fin (Qred (x * y))
  end.

Definition div (a b : num) : num :=
  match a, b with
  | NaN, _ | _, NaN => NaN
  | Inf _, Inf _ => NaN
  | Inf s, Fin y => Inf (xorb s (Qneg y))
  | Fin _, Inf _ => Fin 0
  | Fin x, Fin y =>
      if Qis0 y then (if Qis0 x then NaN else Inf (Qneg x))
      else Fin (Qred (x / y))
  end.

(** [a > b]; every comparison with [NaN] is false. *)
Definition gt (a b : num) : bool :=
  match a, b with
  | NaN, _ | _, NaN => false
  | Inf s, Inf t => negb s && t
  | Inf s, Fin _ => negb s
  | Fin _, Inf t => t
  | Fin x, Fin y => negb (Qle_bool x y)
  end.

(** [a >= b] *)
Definition ge (a b : num) : bool :=
  match a, b with
  | NaN, _ | _, NaN => false
  | Inf s, Inf t => negb s || t
  | Inf s, Fin _ => negb s
  | Fin _, Inf t => t
  | Fin x, Fin y => Qle_bool y x
  end.

Definition abs (a : num) : num :=
  match a with
  | NaN => NaN
  | Inf _ => Inf false
  | Fin x => Fin (Qred (Qabs x))
  end.

(** [Math.round]: the nearest integer, ties towards plus infinity. *)
Definition Qround_half_up (q : Q) : Z := Qfloor (q + (1 # 2)).

Definition round (a : num) : num :=
  match a with
  | Fin x => of_Z (Qround_half_up x)
  | _ => a
  end.

(** [Math.floor] *)
Definition floor (a : num) : num :=
  match a with
  | Fin x => of_Z (Qfloor x)
  | _ => a
  end.

(** [a % b]: the remainder has the sign of [a]. *)
Definition rem (a b : num) : num :=
  match a, b with
  | NaN, _ | _, NaN | Inf _, _ => NaN
  | Fin x, Inf _ => Fin x
  | Fin x, Fin y =>
      if Qis0 y then NaN
      else
        let q := (x / y)%Q in
        Fin (Qred (x - y * inject_Z (Z.quot (Qnum q) (Zpos (Qden q)))))
  end.

(** Truthiness of a number: [0] and [NaN] are falsy. *)
Definition truthy_num (a : num) : bool :=
  match a with
  | NaN => false
  | Inf _ => true
  | Fin x => negb (Qis0 x)
  end.

(** [x || 0] for an optional numeric field of an upstream document. *)
Definition or0 (o : option Q) : Q :=
  match o with
  | Some q => if Qis0 q then 0%Q else q
  | None => 0%Q
  end.

(** *** Strings of numbers *)

Definition string_of_Z (z : Z) : string := NilZero.string_of_int (Z.to_int z).

Fixpoint zeros (n : nat) : string :=
  match n with
  | O => EmptyString
  | S n' => String "0" (zeros n')
  end.

(** [s] filled up with zeros on the left to the width [n] *)
Definition pad_left (n : nat) (s : string) : string :=
  zeros (n - String.length s) +:+ s.

(** [x.toFixed(d)] on a finite number: the decimal with [d] fractional
    digits nearest to [x], ties away from zero.  (Magnitudes of 1e21 and
    more, which JavaScript prints in exponent form, are outside the model.) *)
Definition Q_toFixed (d : nat) (x : Q) : string :=
  let scale := 10 ^ Z.of_nat d in
  let n := Qround_half_up (Qabs x * inject_Z scale) in
  let sign := if Qneg x then "-" else EmptyString in
  let whole := string_of_Z (n / scale) in
  match d with
  | O => sign +:+ whole
  | _ => sign +:+ whole +:+ "." +:+ pad_left d (string_of_Z (n mod scale))
  end.

Definition toFixed (d : nat) (a : num) : string :=
  match a with
  | NaN => "NaN"
  | Inf s => if s then "-Infinity" else "Infinity"
  | Fin x => Q_toFixed d x
  end.

(** [parseFloat(x.toFixed(d))] *)
Definition Q_round_to (d : nat) (x : Q) : Q :=
  let scale := 10 ^ Z.of_nat d in
  let n := Qround_half_up (Qabs x * inject_Z scale) in
  Qred ((if Qneg x then - inject_Z n else inject_Z n) / inject_Z scale).

(** *** Values handed to [res.json] *)

Inductive val : Type :=
| VUndef
| VNull
| VBool (b : bool)
| VNum (x : num)
| VStr (s : string)
| VArr (l : list val)
| VObj (m : gmap string val).

Abbreviation Obj := (gmap string val).

(** An object literal [{ k1: v1, k2: v2, ... }]. *)
Definition obj (l : list (string * val)) : Obj := list_to_map (reverse l).

Arguments obj : simpl never.

Definition VQ (q : Q) : val := VNum (Fin q).
Definition VZ (z : Z) : val := VNum (of_Z z).

(** A field of an upstream document passed through unchanged. *)
Definition opt_str (o : option string) : val :=
  match o with
  | Some s => VStr s
  | None => VNull
  end.

Definition opt_num (o : option Q) : val :=
  match o with
  | Some q => VQ q
  | None => VNull
  end.

End JS.
Import JS.

(** ** The arithmetic of doubles *)

Module Double.

(** IEEE 754 binary64 with rounding to nearest, ties to even: the arithmetic
    of JavaScript numbers.  A finite double is a rational [m * 2^s] with
    [|m| < 2^53] and [s >= -1074]; a result of [2^1024] or more in magnitude
    is an infinity.  The sign of zero is not kept. *)

Definition pow2 (k : Z) : Q := Qpower 2 k.

(** [floor (log2 q)] for [q > 0] *)
Definition ilog2 (q : Q) : Z :=
  let k := Z.log2 (Qnum q) - Z.log2 (Zpos (Qden q)) in
  if Qle_bool (pow2 k) q then k else k - 1.

(** The nearest integer, ties to the even one. *)
Definition rne (x : Q) : Z :=
  let f := Qfloor x in
  match Qcompare (x - inject_Z f) (1 # 2) with
  | Lt => f
  | Gt => f + 1
  | Eq => if Z.even f then f else f + 1
  end.

(** The exponent of the unit in the last place at [q > 0]: 53 bits of
    precision, down to the subnormal numbers. *)
Definition ulp_exp (q : Q) : Z := Z.max (ilog2 q - 52) (-1074).

(** [q > 0] rounded to the grid of its binade. *)
Definition nearest (q : Q) : Q :=
  let s := ulp_exp q in (inject_Z (rne (q / pow2 s)) * pow2 s)%Q.

(** The double nearest to [q]: what a decimal literal or a JSON number
    denotes, and what an exact result is rounded to. *)
Definition of_Q (q : Q) : num :=
  if Qis0 q then Fin 0
  else
    let r := nearest (Qabs q) in
    if Qle_bool (pow2 1024) r then Inf (Qneg q)
    else Fin (Qred (if Qneg q then - r else r)).

Definition rnd (a : num) : num :=
  match a with
  | Fin q => of_Q q
  | _ => a
  end.

(** [a + b], [a - b], [a * b], [a / b] *)
Definition add (a b : num) : num := rnd (JS.add a b).
Definition sub (a b : num) : num := rnd (JS.sub a b).
Definition mul (a b : num) : num := rnd (JS.mul a b).
Definition div (a b : num) : num := rnd (JS.div a b).

(** [x || 0] for a number [x] of a parsed document. *)
Definition read (o : option Q) : num :=
  match o with
  | Some q => of_Q q
  | None => Fin 0
  end.

End Double.

(** ** Strings and regular expressions *)

Module Str.

Definition code (a : ascii) : N := N_of_ascii a.

Definition between (lo hi : N) (a : ascii) : bool :=
  ((lo <=? code a) && (code a <=? hi))%N.

(** The double quotation mark. *)
Definition dquote : ascii := ascii_of_N 34.

Definition is_digit : ascii -> bool := between 48 57.
Definition is_lower : ascii -> bool := between 97 122.
Definition is_upper : ascii -> bool := between 65 90.
Definition is_ascii : ascii -> bool := between 0 127.

(** The white space of [trim] and of the class [\s] (8-bit range): tab, line
    feed, vertical tab, form feed, carriage return, space, no-break space. *)
Definition is_ws (a : ascii) : bool :=
  between 9 13 a || (code a =? 32)%N || (code a =? 160)%N.

Definition lower (a : ascii) : ascii :=
  if is_upper a then ascii_of_N (code a + 32) else a.
Definition upper (a : ascii) : ascii :=
  if is_lower a then ascii_of_N (code a - 32) else a.

Fixpoint map (f : ascii -> ascii) (s : string) : string :=
  match s with
  | EmptyString => EmptyString
  | String a s' => String (f a) (map f s')
  end.

(** [toLowerCase], [toUpperCase] (letters A-Z, a-z) *)
Definition toLowerCase : string -> string := map lower.
Definition toUpperCase : string -> string := map upper.

(** [p] is a prefix of [s]: the rest of [s].  With [fold], letters are
    compared without regard to case. *)
Fixpoint drop_prefix (fold : bool) (p s : string) : option string :=
  match p, s with
  | EmptyString, _ => Some s
  | String a p', String b s' =>
      if (if fold then Ascii.eqb (lower a) (lower b) else Ascii.eqb a b)
      then drop_prefix fold p' s'
      else None
  | String _ _, EmptyString => None
  end.

(** [s.split(sep)] for a non-empty separator. *)
Fixpoint split_go (sep : string) (skip : nat) (cur : string) (s : string)
  : list string :=
  match s with
  | EmptyString => [String.rev cur]
  | String a s' =>
      match skip with
      | S k => split_go sep k cur s'
      | O =>
          match drop_prefix false sep s with
          | Some _ =>
              String.rev cur
                :: split_go sep (Nat.pred (String.length sep)) EmptyString s'
          | None => split_go sep O (String a cur) s'
          end
      end
  end.

Definition split (sep s : string) : list string :=
  split_go sep O EmptyString s.

(** [s.split(sep)\[0\]] *)
Definition split0 (sep s : string) : string :=
  List.hd EmptyString (split sep s).

Fixpoint trimStart (s : string) : string :=
  match s with
  | EmptyString => EmptyString
  | String a s' => if is_ws a then trimStart s' else s
  end.

Definition trim (s : string) : string :=
  String.rev (trimStart (String.rev (trimStart s))).

(** [s.substring(0, n)] *)
Definition take (n : nat) (s : string) : string := String.substring 0 n s.

(** Truthiness of a string-or-null: [null] and [''] are falsy. *)
Definition truthy (o : option string) : bool :=
  match o with
  | Some (String _ _) => true
  | _ => false
  end.

(** [a || b] on strings-or-null, for a string [b]. *)
Definition or_else (o : option string) (d : string) : string :=
  match o with
  | Some (String a s) => String a s
  | _ => d
  end.

(** [a || b] where [b] may be [null] as well. *)
Definition or_opt (o : option string) (d : option string) : option string :=
  if truthy o then o else d.

(** The value of a string of decimal digits. *)
Fixpoint digits_value (acc : Z) (s : string) : Z :=
  match s with
  | EmptyString => acc
  | String a s' => digits_value (10 * acc + Z.of_N (code a - 48)) s'
  end.

Fixpoint all (P : ascii -> bool) (s : string) : bool :=
  match s with
  | EmptyString => true
  | String a s' => P a && all P s'
  end.

(** The longest prefix of characters satisfying [P]. *)
Fixpoint span (P : ascii -> bool) (s : string) : string :=
  match s with
  | EmptyString => EmptyString
  | String a s' => if P a then String a (span P s') else EmptyString
  end.

Definition hex_digit (a : ascii) : option Z :=
  if is_digit a then Some (Z.of_N (code a - 48))
  else if between 97 102 a then Some (Z.of_N (code a - 87))
  else if between 65 70 a then Some (Z.of_N (code a - 55))
  else None.

Fixpoint hex_value (acc : Z) (s : string) : Z :=
  match s with
  | EmptyString => acc
  | String a s' => hex_value (16 * acc + default 0 (hex_digit a)) s'
  end.

(** [parseInt(s)] without a radix; [None] is [NaN]. *)
Definition parseInt (s : string) : option Z :=
  let s := trimStart s in
  let '(sign, s) :=
    match s with
    | String "-" s' => (-1, s')
    | String "+" s' => (1, s')
    | _ => (1, s)
    end in
  match s with
  | String "0" (String x s') =>
      if (Ascii.eqb x "x" || Ascii.eqb x "X")%bool then
        match span (fun a => bool_decide (is_Some (hex_digit a))) s' with
        | EmptyString => None
        | ds => Some (sign * hex_value 0 ds)
        end
      else
        Some (sign * digits_value 0 (span is_digit s))
  | _ =>
      match span is_digit s with
      | EmptyString => None
      | ds => Some (sign * digits_value 0 ds)
      end
  end.

End Str.

Module Regex.

(** Character classes that occur in the source. *)
Inductive cls : Type :=
| NoneOf (cs : list ascii)     (* [^...] *)
| AnyOf (cs : list ascii)      (* [...] *)
| Space                        (* \s *)
| NotLowerAlnum.               (* [^a-z0-9] *)

Definition mem (a : ascii) (cs : list ascii) : bool :=
  existsb (Ascii.eqb a) cs.

Definition in_cls (c : cls) (a : ascii) : bool :=
  match c with
  | NoneOf cs => negb (mem a cs)
  | AnyOf cs => mem a cs
  | Space => Str.is_ws a
  | NotLowerAlnum => negb (Str.is_lower a || Str.is_digit a)
  end.

(** A pattern is a sequence of atoms; [Open] and [Close] delimit its one
    capture group. *)
Inductive atom : Type :=
| Lit (s : string)
| One (c : cls)
| Many (c : cls)      (* c*  *)
| Few (c : cls)       (* c*? *)
| Open
| Close.

Record regex : Type := {
  icase : bool;
  atoms : list atom
}.

(** Backtracking match of [r] at the start of [s].  [start] is the input at
    the opening of the group, [cap] the text captured so far; the result is
    the capture and the input left after the match. *)
Fixpoint run (ic : bool) (r : list atom) (s : string)
    (start : string) (cap : option string) : option (option string * string) :=
  match r with
  | [] => Some (cap, s)
  | Lit l :: r' =>
      match Str.drop_prefix ic l s with
      | Some s' => run ic r' s' start cap
      | None => None
      end
  | One c :: r' =>
      match s with
      | String a s' => if in_cls c a then run ic r' s' start cap else None
      | EmptyString => None
      end
  | Many c :: r' =>
      (fix many (s : string) : option (option string * string) :=
         match s with
         | String a s' =>
             if in_cls c a then
               match many s' with
               | Some m => Some m
               | None => run ic r' s start cap
               end
             else run ic r' s start cap
         | EmptyString => run ic r' s start cap
         end) s
  | Few c :: r' =>
      (fix few (s : string) : option (option string * string) :=
         match run ic r' s start cap with
         | Some m => Some m
         | None =>
             match s with
             | String a s' => if in_cls c a then few s' else None
             | EmptyString => None
             end
         end) s
  | Open :: r' => run ic r' s s cap
  | Close :: r' =>
      run ic r' s start
        (Some (Str.take (String.length start - String.length s) start))
  end.

Definition match_here (re : regex) (s : string)
  : option (option string * string) :=
  run (icase re) (atoms re) s EmptyString None.

(** The leftmost match: [s.match(re)]. *)
Fixpoint search (re : regex) (s : string) : option (option string * string) :=
  match match_here re s with
  | Some m => Some m
  | None =>
      match s with
      | EmptyString => None
      | String _ s' => search re s'
      end
  end.

(** [s.match(re)\[1\]], or [None] when there is no match. *)
Definition group1 (re : regex) (s : string) : option string :=
  match search re s with
  | Some (cap, _) => Some (default EmptyString cap)
  | None => None
  end.

(** [re.test(s)] *)
Definition test (re : regex) (s : string) : bool :=
  bool_decide (is_Some (search re s)).

(** [s.replace(re, rep)] for a pattern with the [g] flag. *)
Fixpoint replace_go (re : regex) (rep : string) (skip : nat) (s : string)
  : string :=
  match s with
  | EmptyString =>
      match skip, match_here re EmptyString with
      | O, Some _ => rep
      | _, _ => EmptyString
      end
  | String a s' =>
      match skip with
      | S k => replace_go re rep k s'
      | O =>
          match match_here re s with
          | Some (_, rest) =>
              match (String.length s - String.length rest)%nat with
              | O => rep +:+ String a (replace_go re rep O s')
              | S k => rep +:+ replace_go re rep k s'
              end
          | None => String a (replace_go re rep O s')
          end
      end
  end.

Definition replace (re : regex) (rep : string) (s : string) : string :=
  replace_go re rep O s.

(** [/text/g] *)
Definition literal (l : string) : regex :=
  {| icase := false; atoms := [Lit l] |}.

End Regex.

(** ** HTTP: upstream replies, responses, and the shape of a handler *)

Module Http.

(** What one [fetch] call yields in this invocation.  [payload] is the
    outcome of [response.json()] (or [response.text()]). *)
Inductive Reply (A : Type) : Type :=
| Rejected (msg : string)
| Answered (code : Z) (payload : Exc A).
Arguments Rejected {A} msg.
Arguments Answered {A} code payload.

(** A parsed body as the code that uses it meets it: a document of the
    expected shape, or a value on which that code raises a [TypeError] with
    message [msg] ([null]; something that is no array where an array is
    expected; an array with a [null] entry). *)
Inductive Body (A : Type) : Type :=
| Doc (doc : A)
| Unusable (msg : string).
Arguments Doc {A} doc.
Arguments Unusable {A} msg.

(** The first use of a parsed body. *)
Definition use {A} (b : Body A) : Exc A :=
  match b with
  | Doc doc => Ok doc
  | Unusable msg => Throw msg
  end.

(** [response.ok] *)
Definition ok (code : Z) : bool := (200 <=? code) && (code <=? 299).

(** The request is answered with an ok status and a body of the expected
    shape. *)
Definition usable {A} (r : Reply (Body A)) : bool :=
  match r with
  | Answered code (Ok (Doc _)) => ok code
  | _ => false
  end.

(** [res.status(code).json(body)]; [body = None] is [res.status(code).end()]. *)
Record Response : Type := {
  status : Z;
  body : option Obj
}.

Definition json (code : Z) (b : Obj) : Response :=
  {| status := code; body := Some b |}.

Definition field (r : Response) (k : string) : option val :=
  body r ≫= (fun b => b !! k).

(** The result of one invocation: the response, the cache slot afterwards
    and the upstream URLs that were requested. *)
Record Outcome (S : Type) : Type := {
  response : Response;
  next : S;
  contacted : list string
}.
Arguments response {S} _.
Arguments next {S} _.
Arguments contacted {S} _.

(** [data.map(f)] where [f] may raise: the first exception wins. *)
Fixpoint map_exc {A B} (f : A -> Exc B) (l : list A) : Exc (list B) :=
  match l with
  | [] => Ok []
  | x :: l' => y ← f x; ys ← map_exc f l'; Ok (y :: ys)
  end.

(** [cache.data && (now - cache.timestamp) < CACHE_DURATION] *)
Definition fresh_data (data : option Obj) (timestamp now duration : Z)
  : option Obj :=
  d ← data;
  if now - timestamp <? duration then Some d else None.

(** [Math.round((now - cache.timestamp) / 1000)] *)
Definition cacheAge (now timestamp : Z) : val :=
  VZ (Qround_half_up (inject_Z (now - timestamp) / 1000)).

(** [{ ...d, cached: true, cacheAge }] *)
Definition hit_body (d : Obj) (age : val) : Obj :=
  <["cacheAge" := age]> (<["cached" := VBool true]> d).

(** [{ ...d, cached: true, stale: true, cacheAge,
       error: 'Using stale data due to API error' }] *)
Definition stale_body (d : Obj) (age : val) : Obj :=
  <["error" := VStr "Using stale data due to API error"]>
    (<["cacheAge" := age]>
       (<["stale" := VBool true]> (<["cached" := VBool true]> d))).

(** [{ ...freshData, cached: false }] *)
Definition fresh_body (d : Obj) : Obj := <["cached" := VBool false]> d.

Arguments hit_body : simpl never.
Arguments stale_body : simpl never.
Arguments fresh_body : simpl never.
Arguments cacheAge : simpl never.

End Http.
Import Http.

(** ** CoinGecko documents *)

Module CoinGecko.

(** [/simple/price] *)
Record Quote : Type := {
  usd : option Q;
  usd_24h_change : option Q;
  usd_market_cap : option Q
}.

Record SimplePrice : Type := {
  bitcoin : option Quote;
  ethereum : option Quote
}.

(** [/global]; the per-currency and per-coin tables are maps. *)
Record GlobalData : Type := {
  total_market_cap : option (gmap string Q);
  total_volume : option (gmap string Q);
  market_cap_change_percentage_24h_usd : option Q;
  market_cap_percentage : option (gmap string Q);
  active_cryptocurrencies : option Q;
  markets : option Q
}.

Record Global : Type := { data : option GlobalData }.

(** [{}] *)
Definition no_global : GlobalData :=
  {| total_market_cap := None; total_volume := None;
     market_cap_change_percentage_24h_usd := None;
     market_cap_percentage := None; active_cryptocurrencies := None;
     markets := None |}.

(** [/coins/markets] *)
Record Sparkline : Type := { price : option (list Q) }.

Record Coin : Type := {
  id : option string;
  symbol : option string;
  name : option string;
  image : option string;
  current_price : option Q;
  market_cap : option Q;
  market_cap_rank : option Q;
  total_volume_ : option Q;              (* the coin's [total_volume] *)
  price_change_percentage_24h : option Q;
  market_cap_change_percentage_24h : option Q;
  price_change_percentage_1h_in_currency : option Q;
  price_change_percentage_24h_in_currency : option Q;
  price_change_percentage_7d_in_currency : option Q;
  price_change_percentage_14d_in_currency : option Q;
  price_change_percentage_30d_in_currency : option Q;
  price_change_percentage_90d_in_currency : option Q;
  price_change_percentage_1y_in_currency : option Q;
  sparkline_in_7d : option Sparkline;
  ath : option Q;
  ath_date : option string;
  ath_change_percentage : option Q;
  circulating_supply : option Q;
  total_supply : option Q;
  max_supply : option Q
}.

Definition global_url : string := "https://api.coingecko.com/api/v3/global".

End CoinGecko.

(** ** Market snapshot ([api/market-cache.js]) *)

Module MarketCache.

Record Cache : Type := {
  data : option Obj;
  timestamp : Z
}.

(** [let cache = { data: null, timestamp: 0 }] *)
Definition cache0 : Cache := {| data := None; timestamp := 0 |}.

Definition CACHE_DURATION : Z := 5 * 60 * 1000.

(** One invocation: [now] is [Date.now()] at entry, [iso] is
    [new Date().toISOString()], [now_fallback] is the [Date.now()] inside
    [getFallbackData]. *)
Record Env : Type := {
  now : Z;
  iso : string;
  now_fallback : Z;
  prices : Reply (Body CoinGecko.SimplePrice);
  global : Reply (Body CoinGecko.Global)
}.

Definition prices_url : string :=
  "https://api.coingecko.com/api/v3/simple/price?ids=bitcoin,ethereum&vs_currencies=usd&include_24hr_change=true&include_market_cap=true".

Definition quote (q : option CoinGecko.Quote) : val :=
  VObj (obj [("price", VQ (or0 (q ≫= CoinGecko.usd)));
             ("change24h", VQ (or0 (q ≫= CoinGecko.usd_24h_change)));
             ("marketCap", VQ (or0 (q ≫= CoinGecko.usd_market_cap)))]).

Definition fetchPrices (r : Reply (Body CoinGecko.SimplePrice)) : Exc Obj :=
  match r with
  | Rejected msg => Throw msg
  | Answered code payload =>
      if negb (ok code)
      then Throw ("CoinGecko price API failed: " +:+ string_of_Z code)
      else
        body ← payload;
        data ← use body;
        Ok (obj [("btc", quote (CoinGecko.bitcoin data));
                 ("eth", quote (CoinGecko.ethereum data))])
  end.

Definition fetchGlobalData (r : Reply (Body CoinGecko.Global)) : Exc val :=
  match r with
  | Rejected msg => Throw msg
  | Answered code payload =>
      if negb (ok code)
      then Throw ("CoinGecko global API failed: " +:+ string_of_Z code)
      else
        body ← payload;
        data ← use body;
        let global := default CoinGecko.no_global (CoinGecko.data data) in
        Ok (VObj (obj [
          ("totalMarketCap",
            VQ (or0 (CoinGecko.total_market_cap global ≫= (.!! "usd"))));
          ("totalVolume24h",
            VQ (or0 (CoinGecko.total_volume global ≫= (.!! "usd"))));
          ("marketCapChange24h",
            VQ (or0 (CoinGecko.market_cap_change_percentage_24h_usd global)));
          ("btcDominance",
            VQ (or0 (CoinGecko.market_cap_percentage global ≫= (.!! "btc"))));
          ("ethDominance",
            VQ (or0 (CoinGecko.market_cap_percentage global ≫= (.!! "eth"))));
          ("activeCryptos",
            VQ (or0 (CoinGecko.active_cryptocurrencies global)))]))
  end.

Definition getFallbackData (e : Env) : Obj :=
  obj [("btc", VObj (obj [("price", VZ 97500);
                          ("change24h", VZ 0);
                          ("marketCap", VZ 1920000000000)]));
       ("eth", VObj (obj [("price", VZ 3650);
                          ("change24h", VZ 0);
                          ("marketCap", VZ 440000000000)]));
       ("market", VObj (obj [("totalMarketCap", VZ 3500000000000);
                             ("totalVolume24h", VZ 150000000000);
                             ("marketCapChange24h", VZ 0);
                             ("btcDominance", VQ (548 # 10));
                             ("ethDominance", VQ (125 # 10));
                             ("activeCryptos", VZ 10000)]));
       ("updated", VStr (iso e));
       ("updatedTimestamp", VZ (now_fallback e));
       ("cached", VBool false);
       ("fallback", VBool true)].

(** [Promise.all([fetchPrices(), fetchGlobalData()])]: both requests are
    issued; the result is the pair, or the rejection (only logged). *)
Definition fetchBoth (e : Env) : Exc (Obj * val) :=
  priceData ← fetchPrices (prices e);
  globalData ← fetchGlobalData (global e);
  Ok (priceData, globalData).

(** The [freshData] object of the handler. *)
Definition freshData (e : Env) (priceData : Obj) (globalData : val) : Obj :=
  obj [("btc", default VUndef (priceData !! "btc"));
       ("eth", default VUndef (priceData !! "eth"));
       ("market", globalData);
       ("updated", VStr (iso e));
       ("updatedTimestamp", VZ (now e))].

Definition handler (e : Env) (cache : Cache) : Outcome Cache :=
  let now := now e in
  match fresh_data (data cache) (timestamp cache) now CACHE_DURATION with
  | Some d =>
      (* Return cached data if fresh *)
      {| response := json 200
           (hit_body d (cacheAge now (timestamp cache)));
         next := cache;
         contacted := [] |}
  | None =>
      match fetchBoth e with
      | Ok (priceData, globalData) =>
          let freshData := freshData e priceData globalData in
          {| response := json 200 (fresh_body freshData);
             next := {| data := Some freshData; timestamp := now |};
             contacted := [prices_url; CoinGecko.global_url] |}
      | Throw _ =>
          {| response :=
               match data cache with
               | Some d =>
                   (* Return stale cache if available *)
                   json 200
                     (stale_body d (cacheAge now (timestamp cache)))
               | None =>
                   (* No cache available - return fallback *)
                   json 200 (getFallbackData e)
               end;
             next := cache;
             contacted := [prices_url; CoinGecko.global_url] |}
      end
  end.

End MarketCache.

(** ** Top-100 coins (Top 100 Coins Cache) *)

Module CoinsCache.

Record Cache : Type := {
  data : option Obj;
  timestamp : Z
}.

Definition cache0 : Cache := {| data := None; timestamp := 0 |}.

Definition CACHE_DURATION : Z := 15 * 60 * 1000.

Record Env : Type := {
  now : Z;
  iso : string;
  coins : Reply (Body (list CoinGecko.Coin))
}.

Definition coins_url : string :=
  "https://api.coingecko.com/api/v3/coins/markets?vs_currency=usd&order=market_cap_desc&per_page=100&page=1&sparkline=false&price_change_percentage=24h%2C7d%2C30d".

(** [coin.symbol.toUpperCase()] raises a [TypeError] without a symbol. *)
Definition symbol_upper (coin : CoinGecko.Coin) : Exc val :=
  match CoinGecko.symbol coin with
  | Some s => Ok (VStr (Str.toUpperCase s))
  | None => Throw "Cannot read properties of null (reading 'toUpperCase')"
  end.

Definition standardize (coin : CoinGecko.Coin) : Exc val :=
  symbol ← symbol_upper coin;
  Ok (VObj (obj [
    ("id", opt_str (CoinGecko.id coin));
    ("symbol", symbol);
    ("name", opt_str (CoinGecko.name coin));
    ("image", opt_str (CoinGecko.image coin));
    ("price", opt_num (CoinGecko.current_price coin));
    ("marketCap", opt_num (CoinGecko.market_cap coin));
    ("rank", opt_num (CoinGecko.market_cap_rank coin));
    ("volume24h", opt_num (CoinGecko.total_volume_ coin));
    ("change24h", VQ (or0 (CoinGecko.price_change_percentage_24h coin)));
    ("change7d",
      VQ (or0 (CoinGecko.price_change_percentage_7d_in_currency coin)));
    ("change30d",
      VQ (or0 (CoinGecko.price_change_percentage_30d_in_currency coin)));
    ("ath", opt_num (CoinGecko.ath coin));
    ("athDate", opt_str (CoinGecko.ath_date coin));
    ("athChangePercent", opt_num (CoinGecko.ath_change_percentage coin))])).

Definition fetchTop100Coins (r : Reply (Body (list CoinGecko.Coin)))
  : Exc (list val) :=
  match r with
  | Rejected msg => Throw msg
  | Answered code payload =>
      if negb (ok code)
      then Throw ("CoinGecko API failed: " +:+ string_of_Z code)
      else
        body ← payload;
        data ← use body;
        map_exc standardize data
  end.

(** The [freshData] object of the handler. *)
Definition freshData (e : Env) (coins : list val) : Obj :=
  obj [("coins", VArr coins);
       ("count", VZ (Z.of_nat (length coins)));
       ("updated", VStr (iso e));
       ("updatedTimestamp", VZ (now e))].

Definition handler (e : Env) (cache : Cache) : Outcome Cache :=
  let now := now e in
  match fresh_data (data cache) (timestamp cache) now CACHE_DURATION with
  | Some d =>
      {| response := json 200
           (hit_body d (cacheAge now (timestamp cache)));
         next := cache;
         contacted := [] |}
  | None =>
      match fetchTop100Coins (coins e) with
      | Ok coins =>
          let freshData := freshData e coins in
          {| response := json 200 (fresh_body freshData);
             next := {| data := Some freshData; timestamp := now |};
             contacted := [coins_url] |}
      | Throw _ =>
          {| response :=
               match data cache with
               | Some d =>
                   json 200
                     (stale_body d (cacheAge now (timestamp cache)))
               | None =>
                   (* No cache - return error *)
                   json 500
                     (obj [("error", VStr "Failed to fetch coin data");
                           ("coins", VArr []);
                           ("count", VZ 0)])
               end;
             next := cache;
             contacted := [coins_url] |}
      end
  end.

End CoinsCache.

(** ** Personal data (Personal Data Cache) *)

Module PersonalCache.

Record Cache : Type := {
  data : option Obj;
  timestamp : Z;
  date : option string
}.

Definition cache0 : Cache :=
  {| data := None; timestamp := 0; date := None |}.

(** [iso_entry] is the [new Date().toISOString()] that yields [today],
    [iso] the one that stamps fresh data. *)
Record Env : Type := {
  now : Z;
  iso_entry : string;
  iso : string;
  coins : Reply (Body (list CoinGecko.Coin));
  global : Reply (Body CoinGecko.Global)
}.

Definition coins_url : string :=
  "https://api.coingecko.com/api/v3/coins/markets?vs_currency=usd&order=market_cap_desc&per_page=100&page=1&sparkline=true&price_change_percentage=1h%2C24h%2C7d%2C14d%2C30d%2C90d%2C1y".

Definition extend (coin : CoinGecko.Coin) : Exc val :=
  symbol ← CoinsCache.symbol_upper coin;
  Ok (VObj (obj [
    ("id", opt_str (CoinGecko.id coin));
    ("symbol", symbol);
    ("name", opt_str (CoinGecko.name coin));
    ("image", opt_str (CoinGecko.image coin));
    ("price", opt_num (CoinGecko.current_price coin));
    ("marketCap", opt_num (CoinGecko.market_cap coin));
    ("rank", opt_num (CoinGecko.market_cap_rank coin));
    ("volume24h", opt_num (CoinGecko.total_volume_ coin));
    ("change1h",
      VQ (or0 (CoinGecko.price_change_percentage_1h_in_currency coin)));
    ("change24h",
      VQ (or0 (CoinGecko.price_change_percentage_24h_in_currency coin)));
    ("change7d",
      VQ (or0 (CoinGecko.price_change_percentage_7d_in_currency coin)));
    ("change14d",
      VQ (or0 (CoinGecko.price_change_percentage_14d_in_currency coin)));
    ("change30d",
      VQ (or0 (CoinGecko.price_change_percentage_30d_in_currency coin)));
    ("change90d",
      VQ (or0 (CoinGecko.price_change_percentage_90d_in_currency coin)));
    ("change1y",
      VQ (or0 (CoinGecko.price_change_percentage_1y_in_currency coin)));
    ("sparkline7d",
      VArr (VQ <$> default []
              (CoinGecko.sparkline_in_7d coin ≫= CoinGecko.price)));
    ("ath", opt_num (CoinGecko.ath coin));
    ("athDate", opt_str (CoinGecko.ath_date coin));
    ("athChangePercent", opt_num (CoinGecko.ath_change_percentage coin));
    ("circulatingSupply", opt_num (CoinGecko.circulating_supply coin));
    ("totalSupply", opt_num (CoinGecko.total_supply coin));
    ("maxSupply", opt_num (CoinGecko.max_supply coin))])).

Definition fetchCoinsWithHistory (r : Reply (Body (list CoinGecko.Coin)))
  : Exc (list val) :=
  match r with
  | Rejected msg => Throw msg
  | Answered code payload =>
      if negb (ok code)
      then Throw ("CoinGecko coins API failed: " +:+ string_of_Z code)
      else
        body ← payload;
        data ← use body;
        map_exc extend data
  end.

Definition fetchMarketHistory (r : Reply (Body CoinGecko.Global)) : Exc val :=
  match r with
  | Rejected msg => Throw msg
  | Answered code payload =>
      if negb (ok code)
      then Throw ("CoinGecko global API failed: " +:+ string_of_Z code)
      else
        body ← payload;
        data ← use body;
        let global := default CoinGecko.no_global (CoinGecko.data data) in
        let share (k : string) : val :=
          VQ (or0 (CoinGecko.market_cap_percentage global ≫= (.!! k))) in
        Ok (VObj (obj [
          ("totalMarketCap",
            VQ (or0 (CoinGecko.total_market_cap global ≫= (.!! "usd"))));
          ("totalVolume24h",
            VQ (or0 (CoinGecko.total_volume global ≫= (.!! "usd"))));
          ("marketCapChange24h",
            VQ (or0 (CoinGecko.market_cap_change_percentage_24h_usd global)));
          ("btcDominance", share "btc");
          ("ethDominance", share "eth");
          ("activeCryptos",
            VQ (or0 (CoinGecko.active_cryptocurrencies global)));
          ("markets", VQ (or0 (CoinGecko.markets global)));
          ("dominance",
            VObj (obj [("btc", share "btc"); ("eth", share "eth");
                       ("usdt", share "usdt"); ("bnb", share "bnb");
                       ("sol", share "sol"); ("xrp", share "xrp")]))]))
  end.

Definition fetchBoth (e : Env) : Exc (list val * val) :=
  coins ← fetchCoinsWithHistory (coins e);
  marketHistory ← fetchMarketHistory (global e);
  Ok (coins, marketHistory).

(** [cache.data && cache.date === today] *)
Definition same_day (cache : Cache) (today : string) : option Obj :=
  d ← data cache;
  if bool_decide (date cache = Some today) then Some d else None.

Definition handler (e : Env) (cache : Cache) : Outcome Cache :=
  let now := now e in
  let today := Str.split0 "T" (iso_entry e) in
  match same_day cache today with
  | Some d =>
      {| response := json 200
           (hit_body d (cacheAge now (timestamp cache)));
         next := cache;
         contacted := [] |}
  | None =>
      match fetchBoth e with
      | Ok (coins, marketHistory) =>
          let freshData :=
            obj [("coins", VArr coins);
                 ("market", marketHistory);
                 ("updated", VStr (iso e));
                 ("updatedTimestamp", VZ now);
                 ("dataDate", VStr today)] in
          {| response := json 200 (fresh_body freshData);
             next := {| data := Some freshData; timestamp := now;
                        date := Some today |};
             contacted := [coins_url; CoinGecko.global_url] |}
      | Throw _ =>
          {| response :=
               match data cache with
               | Some d =>
                   json 200
                     (stale_body d (cacheAge now (timestamp cache)))
               | None =>
                   json 500
                     (obj [("error", VStr "Failed to fetch personal data");
                           ("coins", VArr []);
                           ("market", VObj ∅)])
               end;
             next := cache;
             contacted := [coins_url; CoinGecko.global_url] |}
      end
  end.

End PersonalCache.

(** ** The Number: the daily rotating metric *)

Module TheNumber.

(** *** Upstream documents *)

(** alternative.me [/fng/] *)
Record FngEntry : Type := {
  value : option string;
  value_classification : option string;
  timestamp : option string
}.

Record Fng : Type := { fng_data : option (list FngEntry) }.

(** CoinGlass [/public/v2/funding] *)
Record Exchange : Type := { rate : option Q }.

Record FundingEntry : Type := {
  funding_symbol : option string;
  uMarginList : option (list Exchange)
}.

Record Funding : Type := { funding_data : option (list FundingEntry) }.

(** CoinGlass [/public/v2/open_interest] *)
Record OIEntry : Type := {
  oi_symbol : option string;
  openInterest : option Q;
  h24Change : option Q
}.

Record OpenInterest : Type := { oi_data : option (list OIEntry) }.

(** One invocation: [dayOfWeek] is [new Date().getUTCDay()], [iso] is the
    [new Date().toISOString()] of the response, [isoOfMillis] prints a valid
    time value, and there is one reply per upstream. *)
Record Env : Type := {
  dayOfWeek : Z;
  iso : string;
  isoOfMillis : Z -> string;
  fng : Reply Fng;
  global : Reply CoinGecko.Global;
  funding : Reply Funding;
  open_interest : Reply OpenInterest;
  stablecoins : Reply (list CoinGecko.Coin)
}.

Definition fng_url : string := "https://api.alternative.me/fng/?limit=180".
Definition funding_url : string :=
  "https://open-api.coinglass.com/public/v2/funding".
Definition open_interest_url : string :=
  "https://open-api.coinglass.com/public/v2/open_interest".
Definition stablecoins_url : string :=
  "https://api.coingecko.com/api/v3/coins/markets?vs_currency=usd&category=stablecoins&order=market_cap_desc&per_page=10&page=1".

(** *** Integers that may be [NaN] (results of [parseInt]) *)

Definition parseInt (o : option string) : option Z :=
  s ← o; Str.parseInt s.

Definition int_num (i : option Z) : num :=
  match i with
  | Some z => of_Z z
  | None => NaN
  end.

Definition int_string (i : option Z) : string :=
  match i with
  | Some z => string_of_Z z
  | None => "NaN"
  end.

(** [i <= n] *)
Definition int_le (i : option Z) (n : Z) : bool :=
  match i with
  | Some z => z <=? n
  | None => false
  end.

Definition int_sub (a b : option Z) : option Z :=
  x ← a; y ← b; Some (x - y).

(** *** Monday: Fear & Greed *)

(** The indices [0, 7, 14, ...] of [data]. *)
Fixpoint every7 {A} (skip : nat) (l : list A) : list A :=
  match l with
  | [] => []
  | x :: l' =>
      match skip with
      | O => x :: every7 6 l'
      | S k => every7 k l'
      end
  end.

(** [new Date(t * 1000).toISOString()]: a [RangeError] unless the time
    value is a number of at most 8.64e15 in magnitude. *)
Definition date_of_seconds (e : Env) (t : option Z) : Exc string :=
  match t with
  | Some s =>
      if Z.abs (s * 1000) <=? 8640000000000000
      then Ok (isoOfMillis e (s * 1000))
      else Throw "Invalid time value"
  | None => Throw "Invalid time value"
  end.

Definition history_point (e : Env) (d : FngEntry) : Exc val :=
  date ← date_of_seconds e (parseInt (timestamp d));
  Ok (VObj (obj [("value", VNum (int_num (parseInt (value d))));
                 ("date", VStr date)])).

(** The interpretation and its context sentence. *)
Definition fearGreedReading (current : option Z) : string * string :=
  if int_le current 20 then
    ("bearish",
     "Extreme fear often precedes reversals - historically a buying opportunity")
  else if int_le current 40 then
    ("cautious", "Fear dominates - crowd is nervous, but not panicking")
  else if int_le current 60 then
    ("neutral", "Neither fear nor greed dominates - market in equilibrium")
  else if int_le current 80 then
    ("optimistic",
     "Greed is building - momentum favors bulls, but watch for overextension")
  else
    ("bullish",
     "Extreme greed - historically precedes corrections. Caution warranted").

Definition fearGreedChange (change : option Z) : val :=
  match change with
  | Some 0 => VNull
  | Some c =>
      VStr ((if 0 <? c then "+" +:+ string_of_Z c else string_of_Z c)
              +:+ " vs 30d ago")
  | None => VStr ("NaN" +:+ " vs 30d ago")
  end.

Definition getFallbackFearGreed : Obj :=
  obj [("metric", VStr "fear_greed");
       ("label", VStr "FEAR & GREED");
       ("value", VStr "65");
       ("numericValue", VZ 65);
       ("unit", VStr "/100");
       ("subtitle", VStr "Greed");
       ("context", VStr "Greed is building - momentum favors bulls, but watch for overextension");
       ("interpretation", VStr "optimistic");
       ("change", VNull);
       ("history", VArr []);
       ("historyLabel", VStr "6 months");
       ("source", VStr "fallback")].

Definition fearGreed_try (e : Env) : Exc Obj :=
  match fng e with
  | Rejected msg => Throw msg
  | Answered code payload =>
      if negb (ok code) then Throw "Fear & Greed API failed"
      else
        doc ← payload;
        let data := default [] (fng_data doc) in
        match data with
        | [] => Throw "No Fear & Greed data"
        | first :: _ =>
            let current := parseInt (value first) in
            let classification := value_classification first in
            history ← map_exc (history_point e) (take 26 (every7 0 data));
            let history := reverse history in
            let thirtyDaysAgo :=
              match data !! 29%nat with
              | Some d => parseInt (value d)
              | None => current
              end in
            let change := int_sub current thirtyDaysAgo in
            let reading := fearGreedReading current in
            let interpretation := reading.1 in
            let context := reading.2 in
            Ok (obj [("metric", VStr "fear_greed");
                     ("label", VStr "FEAR & GREED");
                     ("value", VStr (int_string current));
                     ("numericValue", VNum (int_num current));
                     ("unit", VStr "/100");
                     ("subtitle", opt_str classification);
                     ("context", VStr context);
                     ("interpretation", VStr interpretation);
                     ("change", fearGreedChange change);
                     ("history", VArr history);
                     ("historyLabel", VStr "6 months");
                     ("source", VStr "alternative.me")])
        end
  end.

Definition getFearAndGreed (e : Env) : Obj :=
  try_catch (fearGreed_try e) (fun _ => getFallbackFearGreed).

(** *** Tuesday: BTC dominance *)

Definition btcDominanceReading (dominance : Q) : string * string :=
  if Qle_bool 55 dominance then
    ("risk-off",
     "Capital favoring Bitcoin over alts - flight to quality, risk-off positioning")
  else if Qle_bool 50 dominance then
    ("balanced", "Healthy Bitcoin leadership - alts following, not leading")
  else if Qle_bool 45 dominance then
    ("risk-on", "Capital rotating to alts - risk appetite increasing")
  else
    ("alt-season",
     "Alt season signals - historically unsustainable, late-cycle behavior").

Definition btcDominance_try (e : Env) : Exc Obj :=
  match global e with
  | Rejected msg => Throw msg
  | Answered code payload =>
      if negb (ok code) then Throw "CoinGecko API failed"
      else
        doc ← payload;
        let share (k : string) : Q :=
          or0 ((CoinGecko.data doc ≫= CoinGecko.market_cap_percentage)
                 ≫= (.!! k)) in
        let dominance := share "btc" in
        let ethDominance := share "eth" in
        let reading := btcDominanceReading dominance in
        let interpretation := reading.1 in
        let context := reading.2 in
        Ok (obj [("metric", VStr "btc_dominance");
                 ("label", VStr "BTC DOMINANCE");
                 ("value", VStr (Q_toFixed 1 dominance));
                 ("numericValue", VQ dominance);
                 ("unit", VStr "%");
                 ("subtitle",
                   VStr ("ETH: " +:+ Q_toFixed 1 ethDominance +:+ "%"));
                 ("context", VStr context);
                 ("interpretation", VStr interpretation);
                 ("change", VNull);
                 ("history", VArr []);
                 ("historyLabel", VStr "6 months");
                 ("source", VStr "coingecko")])
  end.

Definition fallbackBTCDominance : Obj :=
  obj [("metric", VStr "btc_dominance");
       ("label", VStr "BTC DOMINANCE");
       ("value", VStr "52.0");
       ("numericValue", VZ 52);
       ("unit", VStr "%");
       ("subtitle", VStr "ETH: 18.5%");
       ("context", VStr "Healthy Bitcoin leadership - alts following, not leading");
       ("interpretation", VStr "balanced");
       ("change", VNull);
       ("history", VArr []);
       ("historyLabel", VStr "6 months");
       ("source", VStr "fallback")].

Definition getBTCDominance (e : Env) : Obj :=
  try_catch (btcDominance_try e) (fun _ => fallbackBTCDominance).

(** *** Wednesday: funding rates *)

Definition getFallbackFundingRates : Obj :=
  obj [("metric", VStr "funding_rates");
       ("label", VStr "FUNDING RATE");
       ("value", VStr "0.0100");
       ("numericValue", VQ (1 # 100));
       ("unit", VStr "%");
       ("subtitle", VStr "≈ 11% APR");
       ("context", VStr "Modest long bias - healthy bullish positioning");
       ("interpretation", VStr "bullish-bias");
       ("change", VNull);
       ("history", VArr []);
       ("historyLabel", VStr "30 days");
       ("source", VStr "fallback")].

(** [uMarginList?.reduce((sum, ex) => sum + (ex.rate || 0), 0)
      / (uMarginList?.length || 1)] *)
Definition averageRate (l : option (list Exchange)) : num :=
  match l with
  | Some exs =>
      div (Fin (Qred (foldl (fun sum ex => (sum + or0 (rate ex))%Q) 0%Q exs)))
          (of_Z (match exs with [] => 1 | _ => Z.of_nat (length exs) end))
  | None => NaN
  end.

(** [avgRate * 3 * 365] *)
Definition annualize (avgRate : num) : num :=
  mul (mul avgRate (of_Z 3)) (of_Z 365).

(** The thresholds [0.0003], [0.0001], [-0.0001] and [-0.0003] are the
    doubles these literals denote. *)
Definition fundingReading (avgRate : num) : string * string :=
  if gt avgRate (Double.of_Q (3 # 10000)) then
    ("crowded-long",
     "Longs paying heavily - crowded trade. Squeeze risk if price drops")
  else if gt avgRate (Double.of_Q (1 # 10000)) then
    ("bullish-bias", "Modest long bias - healthy bullish positioning")
  else if gt avgRate (Double.of_Q (- 1 # 10000)) then
    ("neutral", "Funding neutral - no strong directional bias in derivatives")
  else if gt avgRate (Double.of_Q (- 3 # 10000)) then
    ("bearish-bias", "Shorts paying - contrarian signal, potential squeeze setup")
  else
    ("crowded-short",
     "Extreme negative funding - shorts crowded, squeeze likely").

Definition fundingOf (btcData : FundingEntry) : Obj :=
  let avgRate := averageRate (uMarginList btcData) in
  let annualized := annualize avgRate in
  let displayRate := toFixed 4 (mul avgRate (of_Z 100)) in
  let reading := fundingReading avgRate in
  let interpretation := reading.1 in
  let context := reading.2 in
  obj [("metric", VStr "funding_rates");
       ("label", VStr "FUNDING RATE");
       ("value", VStr displayRate);
       ("numericValue", VNum (mul avgRate (of_Z 100)));
       ("unit", VStr "%");
       ("subtitle", VStr ("≈ " +:+ toFixed 0 annualized +:+ "% APR"));
       ("context", VStr context);
       ("interpretation", VStr interpretation);
       ("change", VNull);
       ("history", VArr []);
       ("historyLabel", VStr "30 days");
       ("source", VStr "coinglass")].

Definition funding_try (e : Env) : Exc Obj :=
  match funding e with
  | Rejected msg => Throw msg
  | Answered code payload =>
      if negb (ok code) then Ok getFallbackFundingRates
      else
        doc ← payload;
        (* json.data?.find(d => d.symbol === 'BTC') *)
        match funding_data doc ≫=
                List.find (fun d => bool_decide (funding_symbol d = Some "BTC"))
        with
        | None => Ok getFallbackFundingRates
        | Some btcData => Ok (fundingOf btcData)
        end
  end.

Definition getFundingRates (e : Env) : Obj :=
  try_catch (funding_try e) (fun _ => getFallbackFundingRates).

(** *** Thursday: open interest *)

Definition getFallbackOpenInterest : Obj :=
  obj [("metric", VStr "open_interest");
       ("label", VStr "OPEN INTEREST");
       ("value", VStr "18.5");
       ("numericValue", VQ (185 # 10));
       ("unit", VStr "B");
       ("subtitle", VStr "+2.3% 24h");
       ("context", VStr "Healthy leverage levels - normal market structure");
       ("interpretation", VStr "normal");
       ("change", VNull);
       ("history", VArr []);
       ("historyLabel", VStr "6 months");
       ("source", VStr "fallback")].

Definition billion : Q := 1000000000.

Definition openInterestReading (totalOI : num) : string * string :=
  if gt totalOI (Fin (20 * billion)) then
    ("elevated-risk",
     "Leverage extended - high OI means violent moves possible on liquidations")
  else if gt totalOI (Fin (15 * billion)) then
    ("normal", "Healthy leverage levels - normal market structure")
  else
    ("low-leverage",
     "Low leverage - market less prone to cascading liquidations").

(** [parseFloat(x.toFixed(d))]: the double nearest to the decimal printed. *)
Definition parseFixed (d : nat) (a : num) : num :=
  match a with
  | Fin x => Double.of_Q (Q_round_to d x)
  | _ => a
  end.

Definition openInterestOf (btcData : OIEntry) : Obj :=
  let totalOI := Double.read (openInterest btcData) in
  let inBillions := Double.div totalOI (Fin billion) in
  let displayValue := toFixed 1 inBillions in
  let change24h := Double.read (h24Change btcData) in
  let reading := openInterestReading totalOI in
  let interpretation := reading.1 in
  let context := reading.2 in
  obj [("metric", VStr "open_interest");
       ("label", VStr "OPEN INTEREST");
       ("value", VStr displayValue);
       ("numericValue", VNum (parseFixed 1 inBillions));
       ("unit", VStr "B");
       ("subtitle",
         VStr ((if ge change24h (of_Z 0) then "+" else EmptyString)
                 +:+ toFixed 1 change24h +:+ "% 24h"));
       ("context", VStr context);
       ("interpretation", VStr interpretation);
       ("change", VNull);
       ("history", VArr []);
       ("historyLabel", VStr "6 months");
       ("source", VStr "coinglass")].

Definition openInterest_try (e : Env) : Exc Obj :=
  match open_interest e with
  | Rejected msg => Throw msg
  | Answered code payload =>
      if negb (ok code) then Ok getFallbackOpenInterest
      else
        doc ← payload;
        match oi_data doc ≫=
                List.find (fun d => bool_decide (oi_symbol d = Some "BTC"))
        with
        | None => Ok getFallbackOpenInterest
        | Some btcData => Ok (openInterestOf btcData)
        end
  end.

Definition getOpenInterest (e : Env) : Obj :=
  try_catch (openInterest_try e) (fun _ => getFallbackOpenInterest).

(** *** Friday and the weekend: stablecoin supply *)

Definition fallbackStablecoinSupply : Obj :=
  obj [("metric", VStr "stablecoin_supply");
       ("label", VStr "STABLECOIN SUPPLY");
       ("value", VStr "150");
       ("numericValue", VZ 150);
       ("unit", VStr "B");
       ("subtitle", VStr "USDT: $83B · USDC: $42B");
       ("context", VStr "Dry powder stable - capital waiting on sidelines for opportunity");
       ("interpretation", VStr "neutral");
       ("change", VNull);
       ("history", VArr []);
       ("historyLabel", VStr "12 months");
       ("source", VStr "fallback")].

Definition stablecoinReading (avgChange : num) : string * string :=
  if gt avgChange (Fin (1 # 2)) then
    ("accumulating",
     "Fresh capital entering - stablecoin minting signals buying preparation")
  else if gt avgChange (Fin (- 1 # 2)) then
    ("neutral",
     "Dry powder stable - capital waiting on sidelines for opportunity")
  else
    ("deploying", "Stablecoins converting to crypto - capital being deployed").

(** [coin ? (coin.market_cap / 1e9).toFixed(0) : '?'], for a coin whose
    [market_cap] key is present ([null] divides as zero). *)
Definition capInBillions (coin : option CoinGecko.Coin) : string :=
  match coin with
  | Some c =>
      toFixed 0 (Double.div (Double.read (CoinGecko.market_cap c)) (Fin billion))
  | None => "?"
  end.

Definition stablecoinChange (avgChange : num) : val :=
  if match avgChange with Fin q => Qis0 q | _ => false end
  then VNull
  else VStr ((if ge avgChange (Fin 0) then "+" else EmptyString)
               +:+ toFixed 2 avgChange +:+ "% 24h").

(** [coins.reduce((sum, coin) => sum + (coin.market_cap || 0), 0)] *)
Definition totalSupply (coins : list CoinGecko.Coin) : num :=
  foldl (fun sum coin => Double.add sum (Double.read (CoinGecko.market_cap coin)))
        (of_Z 0) coins.

(** [coins.reduce((sum, c) => sum + (c.market_cap_change_percentage_24h || 0), 0)
      / coins.length] *)
Definition averageChange (coins : list CoinGecko.Coin) : num :=
  Double.div
    (foldl (fun sum c =>
              Double.add sum
                (Double.read (CoinGecko.market_cap_change_percentage_24h c)))
           (of_Z 0) coins)
    (of_Z (Z.of_nat (length coins))).

Definition stablecoinOf (coins : list CoinGecko.Coin) : Obj :=
  let totalSupply := totalSupply coins in
  let inBillions := Double.div totalSupply (Fin billion) in
  let displayValue := toFixed 0 inBillions in
  let usdt :=
    List.find (fun c => bool_decide (CoinGecko.symbol c = Some "usdt")) coins in
  let usdc :=
    List.find (fun c => bool_decide (CoinGecko.symbol c = Some "usdc")) coins in
  let usdtCap := capInBillions usdt in
  let usdcCap := capInBillions usdc in
  let avgChange := averageChange coins in
  let reading := stablecoinReading avgChange in
  let interpretation := reading.1 in
  let context := reading.2 in
  obj [("metric", VStr "stablecoin_supply");
       ("label", VStr "STABLECOIN SUPPLY");
       ("value", VStr displayValue);
       ("numericValue", VNum (parseFixed 0 inBillions));
       ("unit", VStr "B");
       ("subtitle",
         VStr ("USDT: $" +:+ usdtCap +:+ "B · USDC: $" +:+ usdcCap +:+ "B"));
       ("context", VStr context);
       ("interpretation", VStr interpretation);
       ("change", stablecoinChange avgChange);
       ("history", VArr []);
       ("historyLabel", VStr "12 months");
       ("source", VStr "coingecko")].

Definition stablecoin_try (e : Env) : Exc Obj :=
  match stablecoins e with
  | Rejected msg => Throw msg
  | Answered code payload =>
      if negb (ok code) then Throw "CoinGecko stablecoin API failed"
      else
        coins ← payload;
        Ok (stablecoinOf coins)
  end.

Definition getStablecoinSupply (e : Env) : Obj :=
  try_catch (stablecoin_try e) (fun _ => fallbackStablecoinSupply).

(** *** The handler *)

Inductive Metric : Type :=
| fear_greed
| btc_dominance
| funding_rates
| open_interest_
| stablecoin_supply.

(** The [switch (dayOfWeek)] of the handler. *)
Definition selector (dayOfWeek : Z) : Metric :=
  match dayOfWeek with
  | 1 => fear_greed
  | 2 => btc_dominance
  | 3 => funding_rates
  | 4 => open_interest_
  | 5 | 6 | 0 | _ => stablecoin_supply
  end.

Definition fetcher (m : Metric) : Env -> Obj :=
  match m with
  | fear_greed => getFearAndGreed
  | btc_dominance => getBTCDominance
  | funding_rates => getFundingRates
  | open_interest_ => getOpenInterest
  | stablecoin_supply => getStablecoinSupply
  end.

Definition url_of (m : Metric) : string :=
  match m with
  | fear_greed => fng_url
  | btc_dominance => CoinGecko.global_url
  | funding_rates => funding_url
  | open_interest_ => open_interest_url
  | stablecoin_supply => stablecoins_url
  end.

(** The tag each fetcher puts in the [metric] field. *)
Definition tag (m : Metric) : string :=
  match m with
  | fear_greed => "fear_greed"
  | btc_dominance => "btc_dominance"
  | funding_rates => "funding_rates"
  | open_interest_ => "open_interest"
  | stablecoin_supply => "stablecoin_supply"
  end.

(** The fallback payload of each fetcher. *)
Definition fallback_of (m : Metric) : Obj :=
  match m with
  | fear_greed => getFallbackFearGreed
  | btc_dominance => fallbackBTCDominance
  | funding_rates => getFallbackFundingRates
  | open_interest_ => getFallbackOpenInterest
  | stablecoin_supply => fallbackStablecoinSupply
  end.

(** The keys of the object every fetcher returns. *)
Definition metric_keys : gset string :=
  list_to_set ["metric"; "label"; "value"; "numericValue"; "unit"; "subtitle";
               "context"; "interpretation"; "change"; "history";
               "historyLabel"; "source"].

(** The payload of the handler's own [catch] block. *)
Definition handlerFallback (message : string) : Obj :=
  obj [("metric", VStr "stablecoin_supply");
       ("label", VStr "STABLECOIN SUPPLY");
       ("value", VStr "$150B");
       ("numericValue", VZ 150);
       ("unit", VStr "B");
       ("context", VStr "Dry powder on the sidelines");
       ("interpretation", VStr "neutral");
       ("change", VNull);
       ("history", VArr []);
       ("source", VStr "fallback");
       ("error", VStr message)].

(** The handler keeps no cache slot: its state is [unit]. *)
Definition handler (e : Env) (_ : unit) : Outcome unit :=
  let dayOfWeek := dayOfWeek e in
  {| response :=
       try_catch
         (data ← Ok (fetcher (selector dayOfWeek) e);
          Ok (json 200
                (<["updated" := VStr (iso e)]>
                   (<["dayOfWeek" := VZ dayOfWeek]> data))))
         (fun message => json 200 (handlerFallback message));
     next := tt;
     contacted := [url_of (selector dayOfWeek)] |}.

End TheNumber.

(** ** Market mood *)

Module MarketMood.

(** [data/mood-history.json] *)
Record Point : Type := {
  breadth : Q;
  mv : Q
}.

Record History : Type := {
  hourly : list Point;
  daily : list Point
}.

(** [history_file] is [None] when reading or parsing the file raises (the
    handler then works with an empty history).  [history_unusable] is
    [Some msg] when the file parses to a value on which the handler's use of
    the history raises a [TypeError] with message [msg] (the file holds
    [null], or one of its lists has a [null] entry); [history_file] is not
    looked at in that case. *)
Record Env : Type := {
  method : string;
  iso : string;
  global : Reply (Body CoinGecko.Global);
  coins : Reply (Body (list CoinGecko.Coin));
  history_file : option History;
  history_unusable : option string
}.

Definition coins_url : string :=
  "https://api.coingecko.com/api/v3/coins/markets?vs_currency=usd&order=market_cap_desc&per_page=100&page=1&sparkline=false&price_change_percentage=24h".

(** [totalVolume24h > 0 ? totalMarketCap / totalVolume24h : 20] *)
Definition mvRatio (totalMarketCap totalVolume24h : num) : num :=
  if gt totalVolume24h (of_Z 0)
  then Double.div totalMarketCap totalVolume24h
  else of_Z 20.

Definition point (p : num * num) : val :=
  VObj (obj [("breadth", VNum p.1); ("mv", VNum p.2)]).

Definition of_history (p : Point) : num * num :=
  (Double.of_Q (breadth p), Double.of_Q (mv p)).

Definition sum (l : list num) : num := foldl Double.add (of_Z 0) l.

(** [Math.round(x * 10) / 10] *)
Definition round1 (x : num) : num :=
  Double.div (round (Double.mul x (of_Z 10))) (of_Z 10).

Definition half : num := Fin (1 # 2).

(** [globalData.data?.total_market_cap?.usd || 0] *)
Definition totalMarketCap (globalData : CoinGecko.Global) : num :=
  Double.read ((CoinGecko.data globalData ≫= CoinGecko.total_market_cap)
                 ≫= (.!! "usd")).

(** [globalData.data?.total_volume?.usd || 0] *)
Definition totalVolume24h (globalData : CoinGecko.Global) : num :=
  Double.read ((CoinGecko.data globalData ≫= CoinGecko.total_volume)
                 ≫= (.!! "usd")).

(** The body of the [try] block once both documents are there. *)
Definition mood (e : Env) (globalData : CoinGecko.Global)
    (coins : list CoinGecko.Coin) : Obj :=
  let greenCoins :=
    length (filter
      (fun c => gt (Double.read (CoinGecko.price_change_percentage_24h c))
                   (of_Z 0) = true)
      coins) in
  let breadth :=
    Double.mul
      (Double.div (of_Z (Z.of_nat greenCoins)) (of_Z (Z.of_nat (length coins))))
      (of_Z 100) in
  let totalMarketCap := totalMarketCap globalData in
  let totalVolume24h := totalVolume24h globalData in
  let mvRatio24h := mvRatio totalMarketCap totalVolume24h in
  let history :=
    default {| hourly := []; daily := [] |} (history_file e) in
  let trail24h :=
    match hourly history with
    | [] => [(breadth, mvRatio24h)]
    | ps => of_history <$> ps
    end in
  let trail24h :=
    match last trail24h with
    | Some lastPoint =>
        if gt (abs (Double.sub lastPoint.1 breadth)) half
           || gt (abs (Double.sub lastPoint.2 mvRatio24h)) half
        then trail24h ++ [(breadth, mvRatio24h)]
        else trail24h
    | None => trail24h ++ [(breadth, mvRatio24h)]
    end in
  let trail7d := of_history <$> daily history in
  let mvRatio7d :=
    match trail7d with
    | [] => mvRatio24h
    | _ =>
        Double.div (sum (snd <$> trail7d)) (of_Z (Z.of_nat (length trail7d)))
    end in
  let breadthAvg24h :=
    Double.div (sum (fst <$> trail24h)) (of_Z (Z.of_nat (length trail24h))) in
  obj [("success", VBool true);
       ("lastUpdated", VStr (iso e));
       ("breadth", VNum (round1 breadth));
       ("breadthAvg24h", VNum (round1 breadthAvg24h));
       ("mvRatio24h", VNum (round1 mvRatio24h));
       ("mvRatio7d", VNum (round1 mvRatio7d));
       ("trail", VArr (point <$> trail24h));
       ("trail7d", VArr (point <$> trail7d));
       ("mvRange", VObj (obj [("low", VZ 10); ("high", VZ 45)]));
       ("dataPoints",
         VObj (obj [("hourly", VZ (Z.of_nat (length trail24h)));
                    ("daily", VZ (Z.of_nat (length trail7d)))]));
       ("raw",
         VObj (obj [("totalMarketCap", VNum totalMarketCap);
                    ("totalVolume24h", VNum totalVolume24h);
                    ("greenCoins", VZ (Z.of_nat greenCoins));
                    ("totalCoins", VZ (Z.of_nat (length coins)))]))].

Definition moodFallback (message : string) : Obj :=
  obj [("success", VBool false);
       ("error", VStr message);
       ("breadth", VZ 55);
       ("breadthAvg24h", VZ 52);
       ("mvRatio24h", VZ 22);
       ("mvRatio7d", VZ 25);
       ("trail", VArr [point (of_Z 55, of_Z 22)]);
       ("trail7d", VArr []);
       ("mvRange", VObj (obj [("low", VZ 10); ("high", VZ 45)]))].

(** One awaited request of the [try] block: the parsed body, or the
    exception raised on a rejected request, a non-ok status or a body that
    cannot be parsed. *)
Definition request {A} (r : Reply A) (failure : string) : Exc A :=
  match r with
  | Rejected msg => Throw msg
  | Answered code payload => if negb (ok code) then Throw failure else payload
  end.

(** The use of the history, from [history.hourly] on. *)
Definition use_history (e : Env) : Exc unit :=
  match history_unusable e with
  | Some msg => Throw msg
  | None => Ok tt
  end.

(** The handler.  Both bodies are parsed before either is used; the coin
    list is used first ([coins.filter]), then the global document
    ([globalData.data]), then the history. *)
Definition handler (e : Env) (_ : unit) : Outcome unit :=
  if bool_decide (method e = "OPTIONS") then
    {| response := {| status := 200; body := None |};
       next := tt;
       contacted := [] |}
  else
    match request (global e) "Failed to fetch global data" with
    | Throw message =>
        {| response := json 200 (moodFallback message);
           next := tt;
           contacted := [CoinGecko.global_url] |}
    | Ok globalBody =>
        {| response :=
             try_catch
               (coinsBody ← request (coins e) "Failed to fetch coins data";
                coins ← use coinsBody;
                globalData ← use globalBody;
                _ ← use_history e;
                Ok (json 200 (mood e globalData coins)))
               (fun message => json 200 (moodFallback message));
           next := tt;
           contacted := [CoinGecko.global_url; coins_url] |}
    end.

End MarketMood.

(** ** ETF flows *)

Module EtfFlows.

(** SoSoValue document *)
Record Day : Type := {
  netInflow : option Q;
  net_inflow : option Q;
  amount : option Q
}.

Record Flows : Type := {
  dailyNetInflow : option Q;
  daily_net_inflow : option Q;
  historicalFlows : option (list Day);
  flows_history : option (list Day)
}.

(** [apiKey] is [process.env.SOSOVALUE_API_KEY]. *)
Record Env : Type := {
  apiKey : option string;
  iso : string;
  flows : Reply (Body Flows)
}.

Definition flows_url : string :=
  "https://api.sosovalue.com/etf/us-btc-spot/flows".

(** [a || b] on optional numbers *)
Definition or_num (a b : option Q) : option Q :=
  match a with
  | Some q => if Qis0 q then b else a
  | None => b
  end.

Definition day_obj (name : string) (amount : Q) : val :=
  VObj (obj [("day", VStr name); ("amount", VQ amount)]).

Definition mockWeek : list val :=
  [day_obj "Mon" 215; day_obj "Tue" 380; day_obj "Wed" (-120);
   day_obj "Thu" 290; day_obj "Fri" 438].

Definition getMockData (e : Env) : Obj :=
  obj [("yesterday", VObj (obj [("amount", VZ 438); ("date", VStr "Yesterday")]));
       ("week", VArr mockWeek);
       ("insight", VStr "Third consecutive day of net inflows");
       ("source", VStr "mock");
       ("updated", VStr (iso e))].

(** [count] walks the week from its last day backwards. *)
Fixpoint countConsecutive_from (rev_week : list Q) (isInflow : bool) : nat :=
  match rev_week with
  | [] => O
  | amount :: rest =>
      let dayIsInflow := negb (Qle_bool (or0 (Some amount)) 0) in
      if Bool.eqb dayIsInflow isInflow
      then S (countConsecutive_from rest isInflow)
      else O
  end.

Definition countConsecutive (week : list Q) (isInflow : bool) : nat :=
  countConsecutive_from (reverse week) isInflow.

(** [week.reduce((sum, d) => sum + (d.amount || 0), 0)] *)
Definition weekTotal (week : list Q) : num :=
  foldl (fun sum d => Double.add sum (Double.of_Q (or0 (Some d))))
        (of_Z 0) week.

(** The insight; a rounded total is printed with [toFixed 0], which gives
    the digits of a whole number below 1e21. *)
Definition generateInsight (yesterday : num) (week : list Q) : string :=
  let isInflow := gt yesterday (of_Z 0) in
  let consecutiveDays := countConsecutive week isInflow in
  let weekTotal := weekTotal week in
  if (3 <=? consecutiveDays)%nat then
    string_of_Z (Z.of_nat consecutiveDays) +:+ " consecutive days of net "
      +:+ (if isInflow then "inflows" else "outflows")
  else if gt (abs yesterday) (of_Z 400) then
    "Significant " +:+ (if isInflow then "institutional buying" else "redemptions")
      +:+ " yesterday"
  else if gt weekTotal (of_Z 500) then
    "Strong weekly accumulation: +$"
      +:+ toFixed 0 (round weekTotal) +:+ "M net"
  else if gt (of_Z (-500)) weekTotal then
    "Weekly outflows signal caution: -$"
      +:+ toFixed 0 (abs (round weekTotal)) +:+ "M"
  else
    if isInflow then "Steady institutional interest continues"
    else "Mixed signals from institutional flows".

(** [weekData.slice(-5)] *)
Definition last5 {A} (l : list A) : list A := drop (length l - 5) l.

Definition day_names : list string := ["Mon"; "Tue"; "Wed"; "Thu"; "Fri"].

(** The body of the [try] block of [transformSoSoValueData]. *)
Definition transformed (e : Env) (data : Flows) : Obj :=
  let yesterday :=
    Double.of_Q (or0 (or_num (dailyNetInflow data) (daily_net_inflow data))) in
  let weekData :=
    match historicalFlows data with
    | Some l => l
    | None => default [] (flows_history data)
    end in
  let amounts :=
    (fun day => or0 (or_num (or_num (netInflow day) (net_inflow day))
                            (amount day)))
      <$> last5 weekData in
  let week := zip_with day_obj day_names amounts in
  let insight := generateInsight yesterday amounts in
  obj [("yesterday",
         VObj (obj [("amount",
                      VNum (round (Double.div yesterday (of_Z 1000000))));
                    ("date", VStr "Yesterday")]));
       ("week", VArr (match week with [] => mockWeek | _ => week end));
       ("insight", VStr insight);
       ("source", VStr "sosovalue");
       ("updated", VStr (iso e))].

(** [transformSoSoValueData(data)]: a [TypeError] raised on the parsed body
    is caught inside the function, which then returns the mock data. *)
Definition transformSoSoValueData (e : Env) (body : Body Flows) : Obj :=
  try_catch (data ← use body; Ok (transformed e data))
            (fun _ => getMockData e).

Definition handler (e : Env) (_ : unit) : Outcome unit :=
  if negb (Str.truthy (apiKey e)) then
    {| response := json 200 (getMockData e); next := tt; contacted := [] |}
  else
    {| response :=
         match flows e with
         | Rejected _ => json 200 (getMockData e)
         | Answered code payload =>
             if negb (ok code) then json 200 (getMockData e)
             else
               match payload with
               | Ok data => json 200 (transformSoSoValueData e data)
               | Throw _ => json 200 (getMockData e)
               end
         end;
       next := tt;
       contacted := [flows_url] |}.

End EtfFlows.

(** ** The podcast feed ([/api/breakdown]) *)

Module Breakdown.

Definition RSS_URL : string := "https://feeds.megaphone.fm/NLWLLC2118417614".

(** One invocation.  Three services of the JavaScript runtime are taken
    from the environment: [dateISO s] is [new Date(s).toISOString()] ([None]:
    the date is invalid and a [RangeError] is raised), [Number] converts a
    string to a number and [numberString] prints a number. *)
Record Env : Type := {
  iso : string;
  feed : Reply string;
  dateISO : string -> option string;
  Number : string -> num;
  numberString : num -> string
}.

Definition quotes : list ascii := [Str.dquote; "'"%char].

(** The pattern for a tag with a CDATA section, case-insensitive: the
    opening tag with any attributes, the CDATA opener, the shortest run of
    characters other than a closing bracket (the group), the CDATA closer
    and the closing tag. *)
Definition cdataRegex (tagName : string) : Regex.regex :=
  {| Regex.icase := true;
     Regex.atoms :=
       [Regex.Lit ("<" +:+ tagName);
        Regex.Many (Regex.NoneOf [">"%char]);
        Regex.Lit "><![CDATA[";
        Regex.Open;
        Regex.Few (Regex.NoneOf ["]"%char]);
        Regex.Close;
        Regex.Lit ("]]></" +:+ tagName +:+ ">")] |}.

(** The pattern for a plain tag, case-insensitive: the opening tag with any
    attributes, a run of characters other than [<] (the group) and the
    closing tag. *)
Definition tagRegex (tagName : string) : Regex.regex :=
  {| Regex.icase := true;
     Regex.atoms :=
       [Regex.Lit ("<" +:+ tagName);
        Regex.Many (Regex.NoneOf [">"%char]);
        Regex.Lit ">";
        Regex.Open;
        Regex.Many (Regex.NoneOf ["<"%char]);
        Regex.Close;
        Regex.Lit ("</" +:+ tagName +:+ ">")] |}.

(** The pattern for an attribute, case-insensitive: the tag name, a run of
    characters other than [>], the attribute name and [=], a quotation mark
    of either kind, a run of characters other than quotation marks (the
    group) and a quotation mark. *)
Definition attributeRegex (tagName attrName : string) : Regex.regex :=
  {| Regex.icase := true;
     Regex.atoms :=
       [Regex.Lit ("<" +:+ tagName);
        Regex.Many (Regex.NoneOf [">"%char]);
        Regex.Lit (attrName +:+ "=");
        Regex.One (Regex.AnyOf quotes);
        Regex.Open;
        Regex.Many (Regex.NoneOf quotes);
        Regex.Close;
        Regex.One (Regex.AnyOf quotes)] |}.

Definition extractTag (xml tagName : string) (fromChannel : bool)
  : option string :=
  (* For channel-level tags, only look before the first <item> *)
  let searchContent :=
    if fromChannel then Str.split0 "<item>" xml else xml in
  (* Try CDATA first *)
  match Regex.group1 (cdataRegex tagName) searchContent with
  | Some m => Some (Str.trim m)
  | None =>
      (* Try regular tag *)
      match Regex.group1 (tagRegex tagName) searchContent with
      | Some m => Some (Str.trim m)
      | None => None
      end
  end.

(** The function has three parameters; the whole of [xml] is searched. *)
Definition extractAttribute (xml tagName attrName : string) : option string :=
  Regex.group1 (attributeRegex tagName attrName) xml.

Definition cleanTitle (title : string) : string :=
  Str.trim
    (Regex.replace (Regex.literal "&apos;") "'"
    (Regex.replace (Regex.literal "&#39;") "'"
    (Regex.replace (Regex.literal "&quot;") (String Str.dquote EmptyString)
    (Regex.replace (Regex.literal "&gt;") ">"
    (Regex.replace (Regex.literal "&lt;") "<"
    (Regex.replace (Regex.literal "&amp;") "&" title)))))).

Definition anyTag : Regex.regex :=
  {| Regex.icase := false;
     Regex.atoms :=
       [Regex.Lit "<"; Regex.Many (Regex.NoneOf [">"%char]); Regex.Lit ">"] |}.

Definition spaces : Regex.regex :=
  {| Regex.icase := false;
     Regex.atoms := [Regex.One Regex.Space; Regex.Many Regex.Space] |}.

Definition cleanDescription (desc : string) : string :=
  Str.trim
    (Regex.replace spaces " "
    (Regex.replace (Regex.literal "&nbsp;") " "
    (Regex.replace (Regex.literal "&#39;") "'"
    (Regex.replace (Regex.literal "&quot;") (String Str.dquote EmptyString)
    (Regex.replace (Regex.literal "&gt;") ">"
    (Regex.replace (Regex.literal "&lt;") "<"
    (Regex.replace (Regex.literal "&amp;") "&"
    (Regex.replace anyTag EmptyString desc)))))))).

Definition parseDurationToSeconds (e : Env) (duration : option string) : num :=
  match duration with
  | None | Some EmptyString => of_Z 0
  | Some duration =>
      (* If just a number, assume seconds *)
      if Str.all Str.is_digit duration then of_Z (Str.digits_value 0 duration)
      else
        (* Parse HH:MM:SS or MM:SS *)
        match Number e <$> Str.split ":" duration with
        | [h; m; s] => add (add (mul h (of_Z 3600)) (mul m (of_Z 60))) s
        | [m; s] => add (mul m (of_Z 60)) s
        | _ => of_Z 0
        end
  end.

Definition padStart2 (s : string) : string :=
  match s with
  | EmptyString => "00"
  | String a EmptyString => String "0" (String a EmptyString)
  | _ => s
  end.

Definition formatDuration (e : Env) (seconds : num) : string :=
  if negb (truthy_num seconds) then EmptyString
  else
    let mins := floor (div seconds (of_Z 60)) in
    let secs := rem seconds (of_Z 60) in
    numberString e mins +:+ ":" +:+ padStart2 (numberString e secs).

Definition notLowerAlnums : Regex.regex :=
  {| Regex.icase := false;
     Regex.atoms :=
       [Regex.One Regex.NotLowerAlnum; Regex.Many Regex.NotLowerAlnum] |}.

Definition generateId (title : string) : string :=
  Str.take 50 (Regex.replace notLowerAlnums "-" (Str.toLowerCase title)).

(** [endIndex > -1 ? item.substring(0, endIndex) : item] *)
Definition itemContent (item : string) : string :=
  match String.index 0 "</item>" item with
  | Some endIndex => Str.take endIndex item
  | None => item
  end.

(** The body of the [for] loop: [None] when the item has no audio URL and
    is skipped, the episode otherwise. *)
Definition episode (e : Env) (item : string) : Exc (option val) :=
  let itemContent := itemContent item in
  let title := Str.or_else (extractTag itemContent "title" false)
                           "Untitled Episode" in
  let pubDate := extractTag itemContent "pubDate" false in
  let description :=
    cleanDescription
      (Str.or_else
         (Str.or_opt (extractTag itemContent "description" false)
                     (extractTag itemContent "itunes:summary" false))
         EmptyString) in
  let duration := extractTag itemContent "itunes:duration" false in
  let audioUrl := extractAttribute itemContent "enclosure" "url" in
  let imageUrl := extractAttribute itemContent "itunes:image" "href" in
  let guid := extractTag itemContent "guid" false in
  if Str.truthy audioUrl then
    pubDateISO ←
      (if Str.truthy pubDate then
         match dateISO e (default EmptyString pubDate) with
         | Some s => Ok (VStr s)
         | None => Throw "Invalid time value"
         end
       else Ok VNull);
    Ok (Some (VObj (obj [
      ("id", VStr (Str.or_else guid (generateId title)));
      ("title", VStr (cleanTitle title));
      ("pubDate", if Str.truthy pubDate then opt_str pubDate else VNull);
      ("pubDateISO", pubDateISO);
      ("durationRaw", opt_str duration);
      ("durationSec", VNum (parseDurationToSeconds e duration));
      ("durationFormatted",
        VStr (formatDuration e (parseDurationToSeconds e duration)));
      ("audioUrl", opt_str audioUrl);
      ("imageUrl", if Str.truthy imageUrl then opt_str imageUrl else VNull);
      ("summary", VStr (Str.take 300 description))])))
  else Ok None.

Fixpoint episodes (e : Env) (items : list string) : Exc (list val) :=
  match items with
  | [] => Ok []
  | item :: rest =>
      ep ← episode e item;
      eps ← episodes e rest;
      Ok (match ep with Some v => v :: eps | None => eps end)
  end.

Definition parseRSS (e : Env) (xml : string) : Exc (list val) :=
  (* Split by <item> tags *)
  let items := tail (Str.split "<item>" xml) in
  episodes e items.

Definition parseShowMetadata (xml : string) : Obj :=
  obj [("title", VStr (Str.or_else (extractTag xml "title" true) "The Breakdown"));
       ("description",
         VStr (Str.or_else (extractTag xml "description" true) EmptyString));
       ("image",
         VStr (Str.or_else
                 (Str.or_opt (extractAttribute xml "itunes:image" "href")
                             (extractTag xml "url" true))
                 "https://megaphone.imgix.net/podcasts/bcb63e62-d56f-11eb-9e47-43b3c17dbba3/image/The_Breakdown_Show_Art.jpg"));
       ("author", VStr (Str.or_else (extractTag xml "itunes:author" true) "NLW"));
       ("links",
         VObj (obj [
           ("apple", VStr "https://podcasts.apple.com/us/podcast/the-breakdown/id1438693620");
           ("spotify", VStr "https://open.spotify.com/show/538vuul1PuorUDwgkVYO6u");
           ("website", VStr "https://blockworks.co/podcast/thebreakdown")]))].

(** An episode has an audio URL that is a non-empty string. *)
Definition has_audio (ep : val) : Prop :=
  exists (m : Obj) (u : string),
    ep = VObj m /\ m !! "audioUrl" = Some (VStr u) /\ u <> EmptyString.

Definition feed_text (e : Env) : Exc string :=
  match feed e with
  | Rejected msg => Throw msg
  | Answered code payload =>
      if negb (ok code) then Throw ("RSS fetch failed: " +:+ string_of_Z code)
      else payload
  end.

Definition handler (e : Env) (_ : unit) : Outcome unit :=
  {| response :=
       try_catch
         (xmlText ← feed_text e;
          episodes ← parseRSS e xmlText;
          let showData := parseShowMetadata xmlText in
          Ok (json 200
                (obj [("success", VBool true);
                      ("lastUpdated", VStr (iso e));
                      ("show", VObj showData);
                      ("episodes", VArr (take 5 episodes));
                      ("latest", VZ 0)])))
         (fun message =>
            json 500
              (obj [("success", VBool false);
                    ("error", VStr "Failed to fetch podcast feed");
                    ("message", VStr message);
                    ("lastUpdated", VStr (iso e))]));
     next := tt;
     contacted := [RSS_URL] |}.

End Breakdown.

(** ** The endpoints side by side, and the properties asked of them *)

Module Api.

(** A request handler with its cache slot.  [clock e] is the time at which
    the invocation [e] arrives (milliseconds); [upstream_ok e] says that the
    upstream requests of [e] deliver what the handler needs to build a fresh
    payload. *)
Record Endpoint : Type := {
  env : Type;
  state : Type;
  cold : state;
  run : env -> state -> Outcome state;
  clock : env -> Z;
  upstream_ok : env -> bool
}.

Definition market : Endpoint :=
  {| env := MarketCache.Env;
     state := MarketCache.Cache;
     cold := MarketCache.cache0;
     run := MarketCache.handler;
     clock := MarketCache.now;
     upstream_ok := fun e => succeeded (MarketCache.fetchBoth e) |}.

Definition coins : Endpoint :=
  {| env := CoinsCache.Env;
     state := CoinsCache.Cache;
     cold := CoinsCache.cache0;
     run := CoinsCache.handler;
     clock := CoinsCache.now;
     upstream_ok := fun e =>
       succeeded (CoinsCache.fetchTop100Coins (CoinsCache.coins e)) |}.

Definition personal : Endpoint :=
  {| env := PersonalCache.Env;
     state := PersonalCache.Cache;
     cold := PersonalCache.cache0;
     run := PersonalCache.handler;
     clock := PersonalCache.now;
     upstream_ok := fun e => succeeded (PersonalCache.fetchBoth e) |}.

(** The request for the metric of the day is answered with an ok status and
    a readable body. *)
Definition delivered {A} (r : Reply A) : bool :=
  match r with
  | Rejected _ => false
  | Answered code payload => ok code && succeeded payload
  end.

Definition metric_delivered (e : TheNumber.Env) : bool :=
  match TheNumber.selector (TheNumber.dayOfWeek e) with
  | TheNumber.fear_greed => delivered (TheNumber.fng e)
  | TheNumber.btc_dominance => delivered (TheNumber.global e)
  | TheNumber.funding_rates => delivered (TheNumber.funding e)
  | TheNumber.open_interest_ => delivered (TheNumber.open_interest e)
  | TheNumber.stablecoin_supply => delivered (TheNumber.stablecoins e)
  end.

(** The daily metric reads no clock of its own: an invocation is paired
    with its arrival time. *)
Definition daily : Endpoint :=
  {| env := Z * TheNumber.Env;
     state := unit;
     cold := tt;
     run := fun e => TheNumber.handler e.2;
     clock := fst;
     upstream_ok := fun e => metric_delivered e.2 |}.

Definition mood : Endpoint :=
  {| env := Z * MarketMood.Env;
     state := unit;
     cold := tt;
     run := fun e => MarketMood.handler e.2;
     clock := fst;
     upstream_ok := fun e =>
       usable (MarketMood.global e.2) && usable (MarketMood.coins e.2) |}.

Definition etf : Endpoint :=
  {| env := Z * EtfFlows.Env;
     state := unit;
     cold := tt;
     run := fun e => EtfFlows.handler e.2;
     clock := fst;
     upstream_ok := fun e => usable (EtfFlows.flows e.2) |}.

Definition podcast : Endpoint :=
  {| env := Z * Breakdown.Env;
     state := unit;
     cold := tt;
     run := fun e => Breakdown.handler e.2;
     clock := fst;
     upstream_ok := fun e => delivered (Breakdown.feed e.2) |}.

(** The status of the response to [e] in state [s]. *)
Definition status_of (E : Endpoint) (e : env E) (s : state E) : Z :=
  status (response (run E e s)).

(** No invocation is answered with a 5xx status. *)
Definition never_5xx (E : Endpoint) : Prop :=
  forall (e : env E) (s : state E), status_of E e s < 500.

(** A call within [window] of a call that fetched successfully is served
    from the cache: no upstream request, [cached = true], and every field
    other than the cache marks [cached] and [cacheAge] as in the first
    response. *)
Definition serves_cached_within (E : Endpoint) (window : Z) : Prop :=
  forall (s : state E) (e1 e2 : env E),
    contacted (run E e1 s) <> [] ->
    upstream_ok E e1 = true ->
    clock E e1 <= clock E e2 < clock E e1 + window ->
    let o1 := run E e1 s in
    let o2 := run E e2 (next o1) in
    contacted o2 = [] /\
    field (response o2) "cached" = Some (VBool true) /\
    forall k : string,
      k <> "cacheAge" -> k <> "cached" ->
      field (response o2) k = field (response o1) k.

(** From a cold start with a failing upstream the response is the payload
    [documented], field for field except [updated], it is marked
    [source = "fallback"], it has the keys of the response [normal] to a
    successful call, and the status is 200. *)
Definition answers_with_fallback (E : Endpoint)
    (documented : env E -> Obj) : Prop :=
  forall e : env E,
    upstream_ok E e = false ->
    let r := response (run E e (cold E)) in
    status r = 200 /\
    (forall k : string, k <> "updated" -> field r k = documented e !! k) /\
    field r "source" = Some (VStr "fallback") /\
    forall (e' : env E) (normal : Obj),
      upstream_ok E e' = true ->
      body (response (run E e' (cold E))) = Some normal ->
      forall k : string, is_Some (field r k) <-> is_Some (normal !! k).

End Api.

(** ** Sample invocations *)

Module Sample.

Definition midnight : string := "2025-01-06T00:00:00.000Z".

Definition prices_doc : CoinGecko.SimplePrice :=
  {| CoinGecko.bitcoin :=
       Some {| CoinGecko.usd := Some 97000%Q;
               CoinGecko.usd_24h_change := Some (3 # 2);
               CoinGecko.usd_market_cap := Some 1900000000000%Q |};
     CoinGecko.ethereum :=
       Some {| CoinGecko.usd := Some 3600%Q;
               CoinGecko.usd_24h_change := None;
               CoinGecko.usd_market_cap := Some 430000000000%Q |} |}.

Definition global_doc : CoinGecko.Global :=
  {| CoinGecko.data :=
       Some {| CoinGecko.total_market_cap := Some {["usd" := 3400000000000%Q]};
               CoinGecko.total_volume := Some {["usd" := 140000000000%Q]};
               CoinGecko.market_cap_change_percentage_24h_usd := Some (1 # 2);
               CoinGecko.market_cap_percentage :=
                 Some (<["eth" := (25 # 2)%Q]> {["btc" := 55%Q]});
               CoinGecko.active_cryptocurrencies := Some 10000%Q;
               CoinGecko.markets := Some 1200%Q |} |}.

(** The market snapshot at time [t] with both upstreams answering. *)
Definition market_up (t : Z) : MarketCache.Env :=
  {| MarketCache.now := t;
     MarketCache.iso := midnight;
     MarketCache.now_fallback := t;
     MarketCache.prices := Answered 200 (Ok (Doc prices_doc));
     MarketCache.global := Answered 200 (Ok (Doc global_doc)) |}.

(** The market snapshot at time [t] with the upstream out of service. *)
Definition market_down (t : Z) : MarketCache.Env :=
  {| MarketCache.now := t;
     MarketCache.iso := midnight;
     MarketCache.now_fallback := t;
     MarketCache.prices := Answered 503 (Throw "Unexpected token");
     MarketCache.global := Rejected "fetch failed" |}.

Definition bitcoin : CoinGecko.Coin :=
  {| CoinGecko.id := Some "bitcoin";
     CoinGecko.symbol := Some "btc";
     CoinGecko.name := Some "Bitcoin";
     CoinGecko.image := None;
     CoinGecko.current_price := Some 97000%Q;
     CoinGecko.market_cap := Some 1900000000000%Q;
     CoinGecko.market_cap_rank := Some 1%Q;
     CoinGecko.total_volume_ := Some 40000000000%Q;
     CoinGecko.price_change_percentage_24h := Some (3 # 2);
     CoinGecko.market_cap_change_percentage_24h := Some (3 # 2);
     CoinGecko.price_change_percentage_1h_in_currency := None;
     CoinGecko.price_change_percentage_24h_in_currency := Some (3 # 2);
     CoinGecko.price_change_percentage_7d_in_currency := Some (-2)%Q;
     CoinGecko.price_change_percentage_14d_in_currency := None;
     CoinGecko.price_change_percentage_30d_in_currency := Some 10%Q;
     CoinGecko.price_change_percentage_90d_in_currency := None;
     CoinGecko.price_change_percentage_1y_in_currency := None;
     CoinGecko.sparkline_in_7d := None;
     CoinGecko.ath := Some 108000%Q;
     CoinGecko.ath_date := Some "2024-12-17T15:02:41.429Z";
     CoinGecko.ath_change_percentage := Some (-10)%Q;
     CoinGecko.circulating_supply := Some 19800000%Q;
     CoinGecko.total_supply := Some 21000000%Q;
     CoinGecko.max_supply := Some 21000000%Q |}.

(** The top-100 endpoint at time [t] with the upstream answering. *)
Definition coins_up (t : Z) : CoinsCache.Env :=
  {| CoinsCache.now := t;
     CoinsCache.iso := midnight;
     CoinsCache.coins := Answered 200 (Ok (Doc [bitcoin])) |}.

Definition coins_down (t : Z) : CoinsCache.Env :=
  {| CoinsCache.now := t;
     CoinsCache.iso := midnight;
     CoinsCache.coins := Answered 429 (Throw "Unexpected token") |}.

(** The personal-data endpoint at time [t] with the upstream out of
    service. *)
Definition personal_down (t : Z) : PersonalCache.Env :=
  {| PersonalCache.now := t;
     PersonalCache.iso_entry := midnight;
     PersonalCache.iso := midnight;
     PersonalCache.coins := Rejected "fetch failed";
     PersonalCache.global := Rejected "fetch failed" |}.

(** CoinGlass funding: one exchange quoting the 8-hour rate [r] for BTC. *)
Definition funding_doc (r : Q) : TheNumber.Funding :=
  {| TheNumber.funding_data :=
       Some [ {| TheNumber.funding_symbol := Some "BTC";
                 TheNumber.uMarginList :=
                   Some [ {| TheNumber.rate := Some r |} ] |} ] |}.

(** The daily metric on day [d] with CoinGlass funding answering at rate [r]
    and every other upstream out of service. *)
Definition daily_env (d : Z) (r : Q) : TheNumber.Env :=
  {| TheNumber.dayOfWeek := d;
     TheNumber.iso := midnight;
     TheNumber.isoOfMillis := fun _ => midnight;
     TheNumber.fng := Rejected "fetch failed";
     TheNumber.global := Answered 503 (Throw "Unexpected token");
     TheNumber.funding := Answered 200 (Ok (funding_doc r));
     TheNumber.open_interest := Rejected "fetch failed";
     TheNumber.stablecoins := Rejected "fetch failed" |}.

Definition wednesday : TheNumber.Env := daily_env 3 (1 # 10000).

(** A feed whose channel has a title and no artwork, with one episode that
    has artwork and audio and a second item without an enclosure. *)
Definition feed_xml : string :=
  "<rss><channel><title>Show</title><item><title>Ep 1 &amp; more</title><itunes:image href='http://e/ep.jpg'/><enclosure url='http://e/a.mp3' type='audio/mpeg'/><guid>g1</guid></item><item><title><![CDATA[ Ep 2 ]]></title></item></channel></rss>".

(** The same channel with an episode that has no artwork. *)
Definition feed_xml_plain : string :=
  "<rss><channel><title>Show</title><item><title>Ep 1</title><enclosure url='http://e/a.mp3'/></item></channel></rss>".

Definition podcast_env (xml : string) : Breakdown.Env :=
  {| Breakdown.iso := midnight;
     Breakdown.feed := Answered 200 (Ok xml);
     Breakdown.dateISO := fun _ => None;
     Breakdown.Number := fun _ => NaN;
     Breakdown.numberString := fun _ => "NaN" |}.

End Sample.

(** ** The client renderer's formatting helpers ([app.js], [personal.js]) *)

Module Client.

(** [truncate(text, maxLength)] *)
Definition truncate (text : option string) (maxLength : nat) : string :=
  match text with
  | None | Some EmptyString => EmptyString
  | Some text =>
      if (String.length text <=? maxLength)%nat then text
      else Str.trim (Str.take maxLength text) +:+ "..."
  end.



(** [formatChange(change)] *)
Definition formatChange (change : Q) : string :=
  (if Qle_bool 0 change then "+" else EmptyString)
    +:+ Q_toFixed 1 change +:+ "%".

(** [percentToX(pct)] of the portfolio chart, for a finite [pct] *)
Definition percentToX (pct : Q) : Q :=
  let min := (- 20)%Q in
  let max := 40%Q in
  let x := (((pct - min) / (max - min)) * 100)%Q in
  Qmax 2 (Qmin 98 x).

(** [getRelativeTime(date)] for a valid [date]: [now] and [date] are the two
    time values in milliseconds, [localeDate] is
    [date.toLocaleDateString('en-US', { month: 'short', day: 'numeric' })]. *)
Definition getRelativeTime (now date : Z) (localeDate : string) : string :=
  let diffMs := now - date in
  let diffMins := diffMs / 60000 in
  if diffMins <? 2 then "just now"
  else if diffMins <? 60 then string_of_Z diffMins +:+ " m ago"
  else
    let diffHours := diffMins / 60 in
    if diffHours <? 24 then string_of_Z diffHours +:+ " h ago"
    else
      let diffDays := diffHours / 24 in
      if diffDays =? 1 then "yesterday"
      else if diffDays <? 7 then string_of_Z diffDays +:+ " d ago"
      else localeDate.



(** [getZoneFromTitle(title)] *)
Definition getZoneFromTitle (title : option string) : string :=
  match title with
  | None | Some EmptyString => EmptyString
  | Some title =>
      Regex.replace Breakdown.spaces "-" (Str.toLowerCase title)
  end.

End Client.

(** ** More sample invocations *)

Module Cases.

(** The personal-data endpoint at time [t] on the day of [stamp], with both
    upstreams answering. *)
Definition personal_up (t : Z) (stamp : string) : PersonalCache.Env :=
  {| PersonalCache.now := t;
     PersonalCache.iso_entry := stamp;
     PersonalCache.iso := stamp;
     PersonalCache.coins := Answered 200 (Ok (Doc [Sample.bitcoin]));
     PersonalCache.global := Answered 200 (Ok (Doc Sample.global_doc)) |}.

(** A coin whose record has no [symbol]. *)
Definition nameless : CoinGecko.Coin :=
  {| CoinGecko.id := Some "mystery";
     CoinGecko.symbol := None;
     CoinGecko.name := None;
     CoinGecko.image := None;
     CoinGecko.current_price := Some 1%Q;
     CoinGecko.market_cap := None;
     CoinGecko.market_cap_rank := None;
     CoinGecko.total_volume_ := None;
     CoinGecko.price_change_percentage_24h := None;
     CoinGecko.market_cap_change_percentage_24h := None;
     CoinGecko.price_change_percentage_1h_in_currency := None;
     CoinGecko.price_change_percentage_24h_in_currency := None;
     CoinGecko.price_change_percentage_7d_in_currency := None;
     CoinGecko.price_change_percentage_14d_in_currency := None;
     CoinGecko.price_change_percentage_30d_in_currency := None;
     CoinGecko.price_change_percentage_90d_in_currency := None;
     CoinGecko.price_change_percentage_1y_in_currency := None;
     CoinGecko.sparkline_in_7d := None;
     CoinGecko.ath := None;
     CoinGecko.ath_date := None;
     CoinGecko.ath_change_percentage := None;
     CoinGecko.circulating_supply := None;
     CoinGecko.total_supply := None;
     CoinGecko.max_supply := None |}.

(** The top-100 endpoint with a delivered list in which one coin has no
    symbol. *)
Definition coins_malformed (t : Z) : CoinsCache.Env :=
  {| CoinsCache.now := t;
     CoinsCache.iso := Sample.midnight;
     CoinsCache.coins := Answered 200 (Ok (Doc [Sample.bitcoin; nameless])) |}.

(** A global document that reports a market cap and no volume. *)
Definition global_quiet : CoinGecko.Global :=
  {| CoinGecko.data :=
       Some {| CoinGecko.total_market_cap := Some {["usd" := 3400000000000%Q]};
               CoinGecko.total_volume := None;
               CoinGecko.market_cap_change_percentage_24h_usd := None;
               CoinGecko.market_cap_percentage := None;
               CoinGecko.active_cryptocurrencies := None;
               CoinGecko.markets := None |} |}.

(** The market mood with both upstreams delivering and no history file. *)
Definition mood_up (doc : CoinGecko.Global) : MarketMood.Env :=
  {| MarketMood.method := "GET";
     MarketMood.iso := Sample.midnight;
     MarketMood.global := Answered 200 (Ok (Doc doc));
     MarketMood.coins := Answered 200 (Ok (Doc [Sample.bitcoin]));
     MarketMood.history_file := None;
     MarketMood.history_unusable := None |}.

(** One day of the Fear & Greed series. *)
Definition fng_entry (v stamp : string) : TheNumber.FngEntry :=
  {| TheNumber.value := Some v;
     TheNumber.value_classification := Some "Neutral";
     TheNumber.timestamp := Some stamp |}.

(** The daily metric on a Monday with alternative.me delivering [series]. *)
Definition monday (series : list TheNumber.FngEntry) : TheNumber.Env :=
  {| TheNumber.dayOfWeek := 1;
     TheNumber.iso := Sample.midnight;
     TheNumber.isoOfMillis := fun _ => Sample.midnight;
     TheNumber.fng :=
       Answered 200 (Ok {| TheNumber.fng_data := Some series |});
     TheNumber.global := Rejected "fetch failed";
     TheNumber.funding := Rejected "fetch failed";
     TheNumber.open_interest := Rejected "fetch failed";
     TheNumber.stablecoins := Rejected "fetch failed" |}.

(** A coin of which only the symbol, the cap and the 24-hour change of the
    cap are known. *)
Definition stable (symbol : string) (cap change : Q) : CoinGecko.Coin :=
  {| CoinGecko.id := None;
     CoinGecko.symbol := Some symbol;
     CoinGecko.name := None;
     CoinGecko.image := None;
     CoinGecko.current_price := None;
     CoinGecko.market_cap := Some cap;
     CoinGecko.market_cap_rank := None;
     CoinGecko.total_volume_ := None;
     CoinGecko.price_change_percentage_24h := None;
     CoinGecko.market_cap_change_percentage_24h := Some change;
     CoinGecko.price_change_percentage_1h_in_currency := None;
     CoinGecko.price_change_percentage_24h_in_currency := None;
     CoinGecko.price_change_percentage_7d_in_currency := None;
     CoinGecko.price_change_percentage_14d_in_currency := None;
     CoinGecko.price_change_percentage_30d_in_currency := None;
     CoinGecko.price_change_percentage_90d_in_currency := None;
     CoinGecko.price_change_percentage_1y_in_currency := None;
     CoinGecko.sparkline_in_7d := None;
     CoinGecko.ath := None;
     CoinGecko.ath_date := None;
     CoinGecko.ath_change_percentage := None;
     CoinGecko.circulating_supply := None;
     CoinGecko.total_supply := None;
     CoinGecko.max_supply := None |}.

(** The daily metric on a Wednesday with CoinGlass delivering one BTC entry
    with the exchanges [exs]. *)
Definition wednesday (exs : option (list TheNumber.Exchange)) : TheNumber.Env :=
  {| TheNumber.dayOfWeek := 3;
     TheNumber.iso := Sample.midnight;
     TheNumber.isoOfMillis := fun _ => Sample.midnight;
     TheNumber.fng := Rejected "fetch failed";
     TheNumber.global := Rejected "fetch failed";
     TheNumber.funding :=
       Answered 200 (Ok {| TheNumber.funding_data :=
         Some [ {| TheNumber.funding_symbol := Some "BTC";
                   TheNumber.uMarginList := exs |} ] |});
     TheNumber.open_interest := Rejected "fetch failed";
     TheNumber.stablecoins := Rejected "fetch failed" |}.

(** On a Thursday, with one BTC entry of open interest. *)
Definition thursday (figure change : option Q) : TheNumber.Env :=
  {| TheNumber.dayOfWeek := 4;
     TheNumber.iso := Sample.midnight;
     TheNumber.isoOfMillis := fun _ => Sample.midnight;
     TheNumber.fng := Rejected "fetch failed";
     TheNumber.global := Rejected "fetch failed";
     TheNumber.funding := Rejected "fetch failed";
     TheNumber.open_interest :=
       Answered 200 (Ok {| TheNumber.oi_data :=
         Some [ {| TheNumber.oi_symbol := Some "BTC";
                   TheNumber.openInterest := figure;
                   TheNumber.h24Change := change |} ] |});
     TheNumber.stablecoins := Rejected "fetch failed" |}.

(** On a Friday, with CoinGecko delivering the stablecoins [coins]. *)
Definition friday (coins : list CoinGecko.Coin) : TheNumber.Env :=
  {| TheNumber.dayOfWeek := 5;
     TheNumber.iso := Sample.midnight;
     TheNumber.isoOfMillis := fun _ => Sample.midnight;
     TheNumber.fng := Rejected "fetch failed";
     TheNumber.global := Rejected "fetch failed";
     TheNumber.funding := Rejected "fetch failed";
     TheNumber.open_interest := Rejected "fetch failed";
     TheNumber.stablecoins := Answered 200 (Ok coins) |}.

(** The ETF flows with a key configured and SoSoValue answering 200 with
    the body [null]. *)
Definition etf_null (key : string) : EtfFlows.Env :=
  {| EtfFlows.apiKey := Some key;
     EtfFlows.iso := Sample.midnight;
     EtfFlows.flows :=
       Answered 200
         (Ok (Unusable "Cannot read properties of null (reading 'dailyNetInflow')")) |}.

End Cases.

(** ** Items of the podcast feed *)

Module Feed.

Import Breakdown.

(** An item that cannot make the parser raise: it is skipped for want of an
    audio URL, or it has no publication date, or its date can be printed. *)
Definition dated (e : Env) (item : string) : bool :=
  let pubDate := extractTag (itemContent item) "pubDate" false in
  negb (Str.truthy (extractAttribute (itemContent item) "enclosure" "url"))
  || negb (Str.truthy pubDate)
  || bool_decide (is_Some (dateISO e (default EmptyString pubDate))).

(** The characters of an identifier made by [generateId]. *)
Definition id_char (a : ascii) : bool :=
  Str.is_lower a || Str.is_digit a || Ascii.eqb a "-".

End Feed.

(** * Properties *)

Import Api.

(** ** Reading fields of the cache-aside responses *)

Lemma field_json (code : Z) (b : Obj) (k : string) :
  field (json code b) k = b !! k.
Proof. reflexivity. Qed.

Lemma field_of_body (r : Response) (b : Obj) (k : string) (v : val) :
  body r = Some b -> b !! k = Some v -> field r k = Some v.
Proof. intros Hb Hk. unfold field. rewrite Hb. exact Hk. Qed.

Lemma fresh_data_hit (d : Obj) (timestamp now duration : Z) :
  now - timestamp < duration ->
  fresh_data (Some d) timestamp now duration = Some d.
Proof.
  intros Hlt. unfold fresh_data. simpl.
  destruct (Z.ltb_spec (now - timestamp) duration); [reflexivity | lia].
Qed.

Lemma fresh_data_expired (d : option Obj) (timestamp now duration : Z) :
  duration <= now - timestamp ->
  fresh_data d timestamp now duration = None.
Proof.
  intros Hle. unfold fresh_data. destruct d as [d|]; simpl; [|reflexivity].
  destruct (Z.ltb_spec (now - timestamp) duration); [lia | reflexivity].
Qed.

Lemma fresh_data_is_data (d : option Obj) (timestamp now duration : Z) (x : Obj) :
  fresh_data d timestamp now duration = Some x -> d = Some x.
Proof.
  unfold fresh_data. destruct d as [d|]; simpl; [|discriminate].
  destruct (now - timestamp <? duration); [congruence | discriminate].
Qed.

(** The fields of a cache hit. *)
Lemma hit_cached (d : Obj) (age : val) :
  hit_body d age !! "cached" = Some (VBool true).
Proof.
  unfold hit_body. rewrite lookup_insert_ne by discriminate.
  apply lookup_insert_eq.
Qed.

Lemma hit_payload (d : Obj) (age : val) (k : string) :
  k <> "cacheAge" -> k <> "cached" -> hit_body d age !! k = d !! k.
Proof.
  intros H1 H2. unfold hit_body.
  rewrite !lookup_insert_ne by congruence. reflexivity.
Qed.

(** The fields of a stale answer. *)
Lemma stale_marks (d : Obj) (age : val) :
  stale_body d age !! "cached" = Some (VBool true) /\
  stale_body d age !! "stale" = Some (VBool true) /\
  stale_body d age !! "cacheAge" = Some age /\
  stale_body d age !! "error"
    = Some (VStr "Using stale data due to API error").
Proof.
  unfold stale_body. repeat split.
  - rewrite !lookup_insert_ne by discriminate. apply lookup_insert_eq.
  - rewrite !lookup_insert_ne by discriminate. apply lookup_insert_eq.
  - rewrite lookup_insert_ne by discriminate. apply lookup_insert_eq.
  - apply lookup_insert_eq.
Qed.

Lemma stale_payload (d : Obj) (age : val) (k : string) :
  k <> "cached" -> k <> "stale" -> k <> "cacheAge" -> k <> "error" ->
  stale_body d age !! k = d !! k.
Proof.
  intros H1 H2 H3 H4. unfold stale_body.
  rewrite !lookup_insert_ne by congruence. reflexivity.
Qed.

Lemma fresh_payload (d : Obj) (k : string) :
  k <> "cached" -> fresh_body d !! k = d !! k.
Proof.
  intros H. unfold fresh_body.
  rewrite lookup_insert_ne by congruence. reflexivity.
Qed.

(** ** The market snapshot, step by step *)

Section MarketSnapshot.

Import MarketCache.

Lemma market_hit (e : Env) (cache : Cache) (d : Obj) :
  fresh_data (data cache) (timestamp cache) (now e) CACHE_DURATION = Some d ->
  handler e cache =
    {| response := json 200 (hit_body d (cacheAge (now e) (timestamp cache)));
       next := cache;
       contacted := [] |}.
Proof. intros H. unfold handler. rewrite H. reflexivity. Qed.

Lemma market_fresh (e : Env) (cache : Cache) (p : Obj) (g : val) :
  fresh_data (data cache) (timestamp cache) (now e) CACHE_DURATION = None ->
  fetchBoth e = Ok (p, g) ->
  handler e cache =
    {| response := json 200 (fresh_body (freshData e p g));
       next := {| data := Some (freshData e p g); timestamp := now e |};
       contacted := [prices_url; CoinGecko.global_url] |}.
Proof. intros H1 H2. unfold handler. rewrite H1, H2. reflexivity. Qed.

Lemma market_failed (e : Env) (cache : Cache) (msg : string) :
  fresh_data (data cache) (timestamp cache) (now e) CACHE_DURATION = None ->
  fetchBoth e = Throw msg ->
  handler e cache =
    {| response :=
         match data cache with
         | Some d => json 200 (stale_body d (cacheAge (now e) (timestamp cache)))
         | None => json 200 (getFallbackData e)
         end;
       next := cache;
       contacted := [prices_url; CoinGecko.global_url] |}.
Proof. intros H1 H2. unfold handler. rewrite H1, H2. reflexivity. Qed.

(** A call whose fetch fails, or that is answered from the cache, leaves the
    cache slot as it was. *)
Lemma market_failed_keeps (e : Env) (cache : Cache) :
  succeeded (fetchBoth e) = false -> next (handler e cache) = cache.
Proof.
  intros Hf. unfold handler.
  destruct (fresh_data _ _ _ _); [reflexivity|].
  destruct (fetchBoth e) as [[p g]|msg]; [discriminate | reflexivity].
Qed.

Lemma market_failures_keep (es : list Env) (cache : Cache) :
  Forall (fun e => succeeded (fetchBoth e) = false) es ->
  foldl (fun c e => next (handler e c)) cache es = cache.
Proof.
  intros H. revert cache.
  induction H as [|e es He _ IH]; intros cache; simpl; [reflexivity|].
  rewrite market_failed_keeps by exact He. apply IH.
Qed.

End MarketSnapshot.

(** ** Stale data is preferred to the fallback *)

Lemma market_fallback_not_stale (e : MarketCache.Env) :
  MarketCache.getFallbackData e !! "stale" = None.
Proof. reflexivity. Qed.

(** C3.  Market snapshot: a call fetches successfully at [e0]; every later
    fetch fails; then a call [e] arriving once the 300-second window has
    passed (after any number of calls in between) is answered with status
    200 and the payload fetched at [e0], marked [cached = true],
    [stale = true] and with the error annotation.  It is not the fallback
    payload. *)
Theorem market_stale_after_window
    (cache : MarketCache.Cache) (e0 : MarketCache.Env)
    (between : list MarketCache.Env) (e : MarketCache.Env) :
  fresh_data (MarketCache.data cache) (MarketCache.timestamp cache)
             (MarketCache.now e0) MarketCache.CACHE_DURATION = None ->
  succeeded (MarketCache.fetchBoth e0) = true ->
  Forall (fun e' => succeeded (MarketCache.fetchBoth e') = false)
         (between ++ [e]) ->
  300 * 1000 <= MarketCache.now e - MarketCache.now e0 ->
  let first := MarketCache.handler e0 cache in
  let slot :=
    foldl (fun c e' => next (MarketCache.handler e' c)) (next first) between in
  let r := response (MarketCache.handler e slot) in
  status r = 200 /\
  field r "cached" = Some (VBool true) /\
  field r "stale" = Some (VBool true) /\
  field r "error" = Some (VStr "Using stale data due to API error") /\
  field r "cacheAge"
    = Some (cacheAge (MarketCache.now e) (MarketCache.now e0)) /\
  (forall k : string,
     k <> "cached" -> k <> "stale" -> k <> "cacheAge" -> k <> "error" ->
     field r k = field (response first) k) /\
  body r <> Some (MarketCache.getFallbackData e).
Proof.
  intros Hmiss Hok Hdown Hlate first slot r.
  apply Forall_app in Hdown as [Hbetween Hlast].
  apply Forall_inv in Hlast.
  destruct (MarketCache.fetchBoth e0) as [[p g]|msg0] eqn:Hfetch0;
    [clear Hok | discriminate].
  assert (Hfirst : first =
    {| response := json 200 (fresh_body (MarketCache.freshData e0 p g));
       next := {| MarketCache.data := Some (MarketCache.freshData e0 p g);
                  MarketCache.timestamp := MarketCache.now e0 |};
       contacted := [MarketCache.prices_url; CoinGecko.global_url] |})
    by (apply market_fresh; assumption).
  assert (Hslot : slot = next first)
    by (apply market_failures_keep; exact Hbetween).
  destruct (MarketCache.fetchBoth e) as [[p' g']|msg] eqn:Hfetch;
    [discriminate|].
  assert (Hr : r = json 200
            (stale_body (MarketCache.freshData e0 p g)
               (cacheAge (MarketCache.now e) (MarketCache.now e0)))).
  { subst r. rewrite Hslot, Hfirst. simpl.
    rewrite (market_failed _ _ msg); [reflexivity | | exact Hfetch].
    apply fresh_data_expired. simpl. unfold MarketCache.CACHE_DURATION. lia. }
  rewrite Hr, Hfirst. simpl.
  rewrite !field_json.
  destruct (stale_marks (MarketCache.freshData e0 p g)
              (cacheAge (MarketCache.now e) (MarketCache.now e0)))
    as (Hc & Hs & Ha & He).
  repeat split; try assumption.
  - intros k H1 H2 H3 H4. rewrite !field_json.
    rewrite stale_payload, fresh_payload by assumption. reflexivity.
  - intros Heq.
    apply (f_equal (fun b : option Obj => b ≫= (.!! "stale"))) in Heq.
    simpl in Heq.
    rewrite Hs, market_fallback_not_stale in Heq. discriminate.
Qed.

(** The scenario of C3: success at t = 0, failures afterwards, a call in the
    window at t = 100 s and the call of interest at t = 301 s. *)
Lemma market_stale_after_window_witness :
  let first := MarketCache.handler (Sample.market_up 0) MarketCache.cache0 in
  let slot := next (MarketCache.handler (Sample.market_down 100000) (next first)) in
  let r := response (MarketCache.handler (Sample.market_down 301000) slot) in
  field r "stale" = Some (VBool true) /\
  field r "cacheAge" = Some (VZ 301) /\
  field r "btc" = field (response first) "btc".
Proof.
  pose proof (market_stale_after_window MarketCache.cache0
                (Sample.market_up 0) [Sample.market_down 100000]
                (Sample.market_down 301000)) as H.
  simpl in H.
  destruct H as (_ & _ & Hs & _ & Ha & Hp & _).
  - reflexivity.
  - reflexivity.
  - repeat constructor.
  - vm_compute. discriminate.
  - split; [exact Hs|]. split; [exact Ha|].
    apply Hp; discriminate.
Defined.

(** ** The keys of an object literal *)

Lemma dom_obj (l : list (string * val)) :
  dom (obj l) = list_to_set (l.*1).
Proof.
  unfold obj. rewrite dom_list_to_map_L, fmap_reverse.
  apply set_eq. intros k. rewrite !elem_of_list_to_set, elem_of_reverse.
  reflexivity.
Qed.

Lemma lookup_outside (o : Obj) (k : string) : k ∉ dom o -> o !! k = None.
Proof. intros H. apply not_elem_of_dom. exact H. Qed.

Create HintDb fallbacks.
#[export] Hint Unfold TheNumber.getFallbackFearGreed
  TheNumber.fallbackBTCDominance TheNumber.getFallbackFundingRates
  TheNumber.getFallbackOpenInterest TheNumber.fallbackStablecoinSupply
  TheNumber.fundingOf TheNumber.openInterestOf TheNumber.stablecoinOf
  : fallbacks.

Ltac literal_keys :=
  simpl; autounfold with fallbacks; rewrite dom_obj; reflexivity.

(** ** The daily metric: what every answer looks like *)

Section DailyMetric.

Import TheNumber.

Lemma getFearAndGreed_keys (e : Env) : dom (getFearAndGreed e) = metric_keys.
Proof.
  unfold getFearAndGreed, fearGreed_try, try_catch.
  destruct (fng e) as [msg|code payload]; [literal_keys|].
  destruct (ok code); [|literal_keys].
  destruct payload as [doc|msg]; [|literal_keys]. simpl.
  destruct (default [] (fng_data doc)) as [|first rest]; [literal_keys|].
  destruct (map_exc _ _) as [history|msg]; simpl; literal_keys.
Qed.

Lemma getBTCDominance_keys (e : Env) : dom (getBTCDominance e) = metric_keys.
Proof.
  unfold getBTCDominance, btcDominance_try, try_catch.
  destruct (global e) as [msg|code payload]; [literal_keys|].
  destruct (ok code); [|literal_keys].
  destruct payload as [doc|msg]; literal_keys.
Qed.

Lemma getFundingRates_keys (e : Env) : dom (getFundingRates e) = metric_keys.
Proof.
  unfold getFundingRates, funding_try, try_catch.
  destruct (funding e) as [msg|code payload]; [literal_keys|].
  destruct (ok code); [|literal_keys].
  destruct payload as [doc|msg]; [|literal_keys]. simpl.
  destruct (funding_data doc ≫= _) as [btcData|]; literal_keys.
Qed.

Lemma getOpenInterest_keys (e : Env) : dom (getOpenInterest e) = metric_keys.
Proof.
  unfold getOpenInterest, openInterest_try, try_catch.
  destruct (open_interest e) as [msg|code payload]; [literal_keys|].
  destruct (ok code); [|literal_keys].
  destruct payload as [doc|msg]; [|literal_keys]. simpl.
  destruct (oi_data doc ≫= _) as [btcData|]; literal_keys.
Qed.

Lemma getStablecoinSupply_keys (e : Env) :
  dom (getStablecoinSupply e) = metric_keys.
Proof.
  unfold getStablecoinSupply, stablecoin_try, try_catch.
  destruct (stablecoins e) as [msg|code payload]; [literal_keys|].
  destruct (ok code); [|literal_keys].
  destruct payload as [doc|msg]; literal_keys.
Qed.

Lemma fetcher_keys (m : Metric) (e : Env) : dom (fetcher m e) = metric_keys.
Proof.
  destruct m; simpl.
  - apply getFearAndGreed_keys.
  - apply getBTCDominance_keys.
  - apply getFundingRates_keys.
  - apply getOpenInterest_keys.
  - apply getStablecoinSupply_keys.
Qed.

(** The response: always status 200, the payload of the day's fetcher with
    [dayOfWeek] and [updated] added. *)
Lemma daily_response (e : Env) (s : unit) :
  response (handler e s) =
    json 200
      (<["updated" := VStr (iso e)]>
         (<["dayOfWeek" := VZ (dayOfWeek e)]>
            (fetcher (selector (dayOfWeek e)) e))).
Proof. reflexivity. Qed.

Lemma TheNumber_status_200 (e : Env) (s : unit) :
  status (response (handler e s)) = 200.
Proof. reflexivity. Qed.

Lemma daily_field (e : Env) (s : unit) (k : string) :
  k <> "updated" -> k <> "dayOfWeek" ->
  field (response (handler e s)) k = fetcher (selector (dayOfWeek e)) e !! k.
Proof.
  intros H1 H2. rewrite daily_response, field_json.
  rewrite !lookup_insert_ne by congruence. reflexivity.
Qed.

Lemma daily_never_cached (e : Env) (s : unit) :
  field (response (handler e s)) "cached" = None.
Proof.
  rewrite daily_field by discriminate.
  apply lookup_outside. rewrite fetcher_keys. vm_compute. intros H.
  discriminate.
Qed.

End DailyMetric.

(** ** The top-100 coins, step by step *)

Section Top100.

Import CoinsCache.

Lemma coins_hit (e : Env) (cache : Cache) (d : Obj) :
  fresh_data (data cache) (timestamp cache) (now e) CACHE_DURATION = Some d ->
  handler e cache =
    {| response := json 200 (hit_body d (cacheAge (now e) (timestamp cache)));
       next := cache;
       contacted := [] |}.
Proof. intros H. unfold handler. rewrite H. reflexivity. Qed.

Lemma coins_fresh (e : Env) (cache : Cache) (l : list val) :
  fresh_data (data cache) (timestamp cache) (now e) CACHE_DURATION = None ->
  fetchTop100Coins (coins e) = Ok l ->
  handler e cache =
    {| response := json 200 (fresh_body (freshData e l));
       next := {| data := Some (freshData e l); timestamp := now e |};
       contacted := [coins_url] |}.
Proof. intros H1 H2. unfold handler. rewrite H1, H2. reflexivity. Qed.

End Top100.

(** ** A second call within the freshness window *)

Lemma market_serves_cached : serves_cached_within market (5 * 60 * 1000).
Proof.
  intros s e1 e2 Hwent Hok Hclock o1 o2.
  cbn [market env state run clock upstream_ok] in *.
  destruct (fresh_data (MarketCache.data s) (MarketCache.timestamp s)
              (MarketCache.now e1) MarketCache.CACHE_DURATION) as [d|] eqn:Hslot.
  { rewrite (market_hit _ _ _ Hslot) in Hwent. contradiction. }
  destruct (MarketCache.fetchBoth e1) as [[p g]|msg] eqn:Hfetch;
    [|discriminate].
  subst o2 o1. rewrite (market_fresh _ _ _ _ Hslot Hfetch).
  cbn [next response].
  rewrite (market_hit e2 _ (MarketCache.freshData e1 p g)).
  2:{ apply fresh_data_hit. cbn [MarketCache.timestamp].
      unfold MarketCache.CACHE_DURATION. lia. }
  cbn [contacted response]. rewrite field_json.
  split; [reflexivity|]. split; [apply hit_cached|].
  intros k H1 H2. rewrite !field_json, hit_payload, fresh_payload by assumption.
  reflexivity.
Qed.

Lemma coins_serves_cached : serves_cached_within coins (15 * 60 * 1000).
Proof.
  intros s e1 e2 Hwent Hok Hclock o1 o2.
  cbn [coins env state run clock upstream_ok] in *.
  destruct (fresh_data (CoinsCache.data s) (CoinsCache.timestamp s)
              (CoinsCache.now e1) CoinsCache.CACHE_DURATION) as [d|] eqn:Hslot.
  { rewrite (coins_hit _ _ _ Hslot) in Hwent. contradiction. }
  destruct (CoinsCache.fetchTop100Coins (CoinsCache.coins e1)) as [l|msg]
    eqn:Hfetch; [|discriminate].
  subst o2 o1. rewrite (coins_fresh _ _ _ Hslot Hfetch).
  cbn [next response].
  rewrite (coins_hit e2 _ (CoinsCache.freshData e1 l)).
  2:{ apply fresh_data_hit. cbn [CoinsCache.timestamp].
      unfold CoinsCache.CACHE_DURATION. lia. }
  cbn [contacted response]. rewrite field_json.
  split; [reflexivity|]. split; [apply hit_cached|].
  intros k H1 H2. rewrite !field_json, hit_payload, fresh_payload by assumption.
  reflexivity.
Qed.

(** C2, as the code has it.  A call within 5 minutes (market snapshot) or 15
    minutes (top-100 coins) of a call that fetched successfully makes no
    upstream request and returns [cached = true] with every field other than
    the cache marks [cached] and [cacheAge] as in the first response.  The
    daily-metric handler keeps no cache: every call requests the upstream of
    the day and no response carries a [cached] field. *)
Theorem cached_within_window :
  serves_cached_within market (5 * 60 * 1000) /\
  serves_cached_within coins (15 * 60 * 1000) /\
  forall (e : TheNumber.Env) (s : unit),
    contacted (TheNumber.handler e s)
      = [TheNumber.url_of (TheNumber.selector (TheNumber.dayOfWeek e))] /\
    field (response (TheNumber.handler e s)) "cached" = None.
Proof.
  split; [exact market_serves_cached|].
  split; [exact coins_serves_cached|].
  intros e s. split; [reflexivity | apply daily_never_cached].
Qed.

(** Market snapshot fetched at t = 0 and asked again one millisecond before
    the five minutes are over; top-100 coins likewise for fifteen minutes. *)
Lemma cached_within_window_witness :
  (let o1 := MarketCache.handler (Sample.market_up 0) MarketCache.cache0 in
   let o2 := MarketCache.handler (Sample.market_down 299999) (next o1) in
   contacted o2 = [] /\
   field (response o2) "cached" = Some (VBool true) /\
   field (response o2) "market" = field (response o1) "market") /\
  (let o1 := CoinsCache.handler (Sample.coins_up 0) CoinsCache.cache0 in
   let o2 := CoinsCache.handler (Sample.coins_down 899999) (next o1) in
   contacted o2 = [] /\
   field (response o2) "cached" = Some (VBool true) /\
   field (response o2) "coins" = field (response o1) "coins").
Proof.
  destruct cached_within_window as (Hmarket & Hcoins & _). split.
  - destruct (Hmarket MarketCache.cache0 (Sample.market_up 0)
                (Sample.market_down 299999)) as (H1 & H2 & H3).
    + discriminate.
    + reflexivity.
    + simpl. lia.
    + split; [exact H1|]. split; [exact H2|]. apply H3; discriminate.
  - destruct (Hcoins CoinsCache.cache0 (Sample.coins_up 0)
                (Sample.coins_down 899999)) as (H1 & H2 & H3).
    + discriminate.
    + reflexivity.
    + simpl. lia.
    + split; [exact H1|]. split; [exact H2|]. apply H3; discriminate.
Defined.

(** C2 fails for the daily metric: on a Wednesday with CoinGlass answering,
    a second call one second after the first requests the upstream again. *)
Lemma daily_not_cached : ~ serves_cached_within daily (24 * 60 * 60 * 1000).
Proof.
  intros H.
  destruct (H tt (0, Sample.wednesday) (1000, Sample.wednesday))
    as (Hnone & _).
  - discriminate.
  - reflexivity.
  - simpl. lia.
  - discriminate.
Qed.

(** ** Status codes *)

Lemma market_status (e : MarketCache.Env) (s : MarketCache.Cache) :
  status (response (MarketCache.handler e s)) = 200.
Proof.
  unfold MarketCache.handler.
  destruct (fresh_data _ _ _ _); [reflexivity|].
  destruct (MarketCache.fetchBoth e) as [[p g]|msg]; [reflexivity|].
  destruct (MarketCache.data s); reflexivity.
Qed.

Lemma mood_status (e : MarketMood.Env) (s : unit) :
  status (response (MarketMood.handler e s)) = 200.
Proof.
  unfold MarketMood.handler.
  destruct (bool_decide _); [reflexivity|].
  destruct (MarketMood.request (MarketMood.global e) _) as [doc|msg];
    [|reflexivity].
  cbn [response].
  destruct (MarketMood.request (MarketMood.coins e) _) as [[cs|msg]|msg];
    [|reflexivity|reflexivity].
  destruct doc as [doc|msg]; [|reflexivity].
  cbn [mbind exc_bind use]. destruct (MarketMood.use_history e); reflexivity.
Qed.

Lemma etf_status (e : EtfFlows.Env) (s : unit) :
  status (response (EtfFlows.handler e s)) = 200.
Proof.
  unfold EtfFlows.handler.
  destruct (negb _); [reflexivity|]. cbn [response].
  destruct (EtfFlows.flows e) as [msg|code payload]; [reflexivity|].
  destruct (negb (ok code)); [reflexivity|].
  destruct payload; reflexivity.
Qed.

Lemma coins_status (e : CoinsCache.Env) (s : CoinsCache.Cache) :
  status (response (CoinsCache.handler e s)) =
    match CoinsCache.data s, CoinsCache.fetchTop100Coins (CoinsCache.coins e) with
    | None, Throw _ => 500
    | _, _ => 200
    end.
Proof.
  unfold CoinsCache.handler.
  destruct (fresh_data _ _ _ _) as [d|] eqn:Hslot.
  - apply fresh_data_is_data in Hslot. rewrite Hslot. reflexivity.
  - destruct (CoinsCache.fetchTop100Coins _) as [l|msg];
      destruct (CoinsCache.data s); reflexivity.
Qed.

Lemma personal_status (e : PersonalCache.Env) (s : PersonalCache.Cache) :
  status (response (PersonalCache.handler e s)) =
    match PersonalCache.data s, PersonalCache.fetchBoth e with
    | None, Throw _ => 500
    | _, _ => 200
    end.
Proof.
  unfold PersonalCache.handler.
  destruct (PersonalCache.same_day _ _) as [d|] eqn:Hslot.
  - unfold PersonalCache.same_day in Hslot.
    destruct (PersonalCache.data s) as [d'|]; [reflexivity | discriminate].
  - destruct (PersonalCache.fetchBoth e) as [[l g]|msg];
      destruct (PersonalCache.data s); reflexivity.
Qed.

(** Fetching and parsing the feed, as the [try] block of the handler does. *)
Lemma podcast_status (e : Breakdown.Env) (s : unit) :
  status (response (Breakdown.handler e s)) =
    match Breakdown.feed_text e ≫= Breakdown.parseRSS e with
    | Ok _ => 200
    | Throw _ => 500
    end.
Proof.
  unfold Breakdown.handler. cbn [response].
  destruct (Breakdown.feed_text e) as [xml|msg]; [|reflexivity]. simpl.
  destruct (Breakdown.parseRSS e xml); reflexivity.
Qed.

(** The bodies that go with status 500. *)
Lemma coins_error_body (e : CoinsCache.Env) (s : CoinsCache.Cache) :
  status (response (CoinsCache.handler e s)) = 500 ->
  body (response (CoinsCache.handler e s))
  = Some (obj [("error", VStr "Failed to fetch coin data");
               ("coins", VArr []);
               ("count", VZ 0)]).
Proof.
  unfold CoinsCache.handler.
  destruct (fresh_data _ _ _ _); [discriminate|].
  destruct (CoinsCache.fetchTop100Coins _) as [l|msg]; [discriminate|].
  destruct (CoinsCache.data s); [discriminate | reflexivity].
Qed.

Lemma personal_error_body (e : PersonalCache.Env) (s : PersonalCache.Cache) :
  status (response (PersonalCache.handler e s)) = 500 ->
  body (response (PersonalCache.handler e s))
  = Some (obj [("error", VStr "Failed to fetch personal data");
               ("coins", VArr []);
               ("market", VObj ∅)]).
Proof.
  unfold PersonalCache.handler.
  destruct (PersonalCache.same_day _ _); [discriminate|].
  destruct (PersonalCache.fetchBoth e) as [[l g]|msg]; [discriminate|].
  destruct (PersonalCache.data s); [discriminate | reflexivity].
Qed.

Lemma podcast_error_body (e : Breakdown.Env) (s : unit) :
  status (response (Breakdown.handler e s)) = 500 ->
  exists message : string,
    body (response (Breakdown.handler e s))
    = Some (obj [("success", VBool false);
                 ("error", VStr "Failed to fetch podcast feed");
                 ("message", VStr message);
                 ("lastUpdated", VStr (Breakdown.iso e))]).
Proof.
  unfold Breakdown.handler. cbn [response].
  destruct (Breakdown.feed_text e) as [xml|msg]; simpl.
  - destruct (Breakdown.parseRSS e xml) as [all|msg]; simpl;
      [discriminate|]. intros _. exists msg. reflexivity.
  - intros _. exists msg. reflexivity.
Qed.

Lemma statuses_from_cold (e : MarketCache.Env) :
  succeeded (MarketCache.fetchBoth e) = false ->
  response (MarketCache.handler e MarketCache.cache0)
  = json 200 (MarketCache.getFallbackData e).
Proof.
  intros Hdown.
  destruct (MarketCache.fetchBoth e) as [[p g]|msg] eqn:Hfetch;
    [discriminate|].
  rewrite (market_failed _ _ msg); [reflexivity | reflexivity | exact Hfetch].
Qed.

(** C1, as the code has it.  The handlers that define a fallback payload
    (market snapshot, daily metric, market mood, ETF flows) never answer
    with a 5xx status, and the market snapshot with an empty cache and a
    failing upstream answers 200 with its fallback.  A 500 is returned by
    three handlers, each time with a body that carries an [error] field:
    top-100 coins and personal data, each exactly when its cache slot is
    empty and the fetch fails, and the podcast feed, exactly when fetching
    or parsing the feed fails.  No status other than 200 and 500 occurs
    there. *)
Theorem statuses_of_the_handlers :
  (never_5xx market /\ never_5xx daily /\ never_5xx mood /\ never_5xx etf) /\
  (forall e : MarketCache.Env,
     succeeded (MarketCache.fetchBoth e) = false ->
     response (MarketCache.handler e MarketCache.cache0)
       = json 200 (MarketCache.getFallbackData e)) /\
  (forall (e : CoinsCache.Env) (s : CoinsCache.Cache),
     (status_of coins e s = 500 <->
        CoinsCache.data s = None /\ upstream_ok coins e = false) /\
     (status_of coins e s = 200 \/ status_of coins e s = 500) /\
     (status_of coins e s = 500 ->
        field (response (run coins e s)) "error"
        = Some (VStr "Failed to fetch coin data"))) /\
  (forall (e : PersonalCache.Env) (s : PersonalCache.Cache),
     (status_of personal e s = 500 <->
        PersonalCache.data s = None /\ upstream_ok personal e = false) /\
     (status_of personal e s = 200 \/ status_of personal e s = 500) /\
     (status_of personal e s = 500 ->
        field (response (run personal e s)) "error"
        = Some (VStr "Failed to fetch personal data"))) /\
  (forall (e : Z * Breakdown.Env) (s : unit),
     (status_of podcast e s = 500 <->
        succeeded (Breakdown.feed_text e.2 ≫= Breakdown.parseRSS e.2) = false) /\
     (status_of podcast e s = 200 \/ status_of podcast e s = 500) /\
     (status_of podcast e s = 500 ->
        field (response (run podcast e s)) "error"
        = Some (VStr "Failed to fetch podcast feed"))).
Proof.
  split; [|split; [|split; [|split]]].
  - split; [|split; [|split]]; intros e s; unfold status_of.
    + change (run market) with MarketCache.handler.
      rewrite market_status. lia.
    + change (run daily e) with (TheNumber.handler e.2).
      rewrite TheNumber_status_200. lia.
    + change (run mood e) with (MarketMood.handler e.2).
      rewrite mood_status. lia.
    + change (run etf e) with (EtfFlows.handler e.2).
      rewrite etf_status. lia.
  - exact statuses_from_cold.
  - intros e s. unfold status_of. cbn [run coins upstream_ok].
    split; [|split].
    + rewrite coins_status.
      destruct (CoinsCache.data s), (CoinsCache.fetchTop100Coins _); simpl;
        (split; [intros H; try discriminate; auto
                | intros [H1 H2]; try discriminate; auto]).
    + rewrite coins_status.
      destruct (CoinsCache.data s),
        (CoinsCache.fetchTop100Coins (CoinsCache.coins e)); auto.
    + intros H. apply (field_of_body _ _ _ _ (coins_error_body e s H)).
      reflexivity.
  - intros e s. unfold status_of. cbn [run personal upstream_ok].
    split; [|split].
    + rewrite personal_status.
      destruct (PersonalCache.data s),
        (PersonalCache.fetchBoth e) as [[? ?]|]; simpl;
        (split; [intros H; try discriminate; auto
                | intros [H1 H2]; try discriminate; auto]).
    + rewrite personal_status.
      destruct (PersonalCache.data s),
        (PersonalCache.fetchBoth e) as [[? ?]|]; auto.
    + intros H. apply (field_of_body _ _ _ _ (personal_error_body e s H)).
      reflexivity.
  - intros e s. unfold status_of.
    change (run podcast e) with (Breakdown.handler e.2).
    split; [|split].
    + rewrite podcast_status.
      destruct (Breakdown.feed_text e.2 ≫= Breakdown.parseRSS e.2); simpl;
        (split; intros H; try discriminate; auto).
    + rewrite podcast_status.
      destruct (Breakdown.feed_text e.2 ≫= Breakdown.parseRSS e.2); auto.
    + intros H. destruct (podcast_error_body e.2 s H) as [message Hbody].
      apply (field_of_body _ _ _ _ Hbody). reflexivity.
Qed.

(** The market snapshot answers an empty cache and a failing upstream with
    its fallback payload and status 200. *)
Lemma statuses_of_the_handlers_witness :
  response (MarketCache.handler (Sample.market_down 0) MarketCache.cache0)
  = json 200 (MarketCache.getFallbackData (Sample.market_down 0)).
Proof.
  apply (proj1 (proj2 statuses_of_the_handlers)). reflexivity.
Defined.

(** C1 fails for the personal-data handler: with an empty cache and the
    upstream out of service it answers 500. *)
Lemma personal_answers_500 : ~ never_5xx personal.
Proof.
  intros H.
  specialize (H (Sample.personal_down 0) PersonalCache.cache0).
  vm_compute in H. discriminate.
Qed.

(** The podcast handler answers 500 as well when the feed cannot be
    fetched. *)
Lemma podcast_answers_500 (e : Breakdown.Env) (msg : string) :
  Breakdown.feed e = Rejected msg ->
  status (response (Breakdown.handler e tt)) = 500.
Proof.
  intros H. rewrite podcast_status. unfold Breakdown.feed_text.
  rewrite H. reflexivity.
Qed.

(** ** Fallback payloads *)

Lemma market_fallback_fields (e : MarketCache.Env) :
  MarketCache.getFallbackData e !! "fallback" = Some (VBool true) /\
  MarketCache.getFallbackData e !! "cached" = Some (VBool false) /\
  MarketCache.getFallbackData e !! "source" = None.
Proof. repeat split; reflexivity. Qed.

(** Only [updated] and [updatedTimestamp] of the market fallback depend on
    the invocation. *)
Lemma market_fallback_constant (e e' : MarketCache.Env) (k : string) :
  k <> "updated" -> k <> "updatedTimestamp" ->
  MarketCache.getFallbackData e !! k = MarketCache.getFallbackData e' !! k.
Proof.
  intros H1 H2. unfold MarketCache.getFallbackData, obj. simpl.
  rewrite !lookup_insert.
  repeat case_decide; try reflexivity; congruence.
Qed.

Lemma market_fallback_keys (e : MarketCache.Env) (p : Obj) (g : val) :
  dom (MarketCache.getFallbackData e)
  = dom (fresh_body (MarketCache.freshData e p g)) ∪ {["fallback"]}.
Proof.
  unfold fresh_body, MarketCache.getFallbackData, MarketCache.freshData.
  rewrite dom_insert_L, !dom_obj. reflexivity.
Qed.

Section DailyFallback.

Import TheNumber.

Lemma undelivered_throws {A} (r : Reply A) (failure : Exc Obj)
    (k : A -> Exc Obj) (fallback : Obj) :
  delivered r = false ->
  (failure = Ok fallback \/ exists msg, failure = Throw msg) ->
  try_catch
    match r with
    | Rejected msg => Throw msg
    | Answered code payload =>
        if negb (ok code) then failure else payload ≫= k
    end
    (fun _ => fallback) = fallback.
Proof.
  intros Hr Hf. destruct r as [msg|code payload]; [reflexivity|].
  simpl in Hr. destruct (ok code); simpl in *.
  - destruct payload; [discriminate | reflexivity].
  - destruct Hf as [->|[msg ->]]; reflexivity.
Qed.

(** When the request of the day is not delivered, the fetcher returns its
    fallback payload. *)
Lemma fetcher_fallback (e : Env) :
  metric_delivered e = false ->
  fetcher (selector (dayOfWeek e)) e = fallback_of (selector (dayOfWeek e)).
Proof.
  unfold metric_delivered.
  destruct (selector (dayOfWeek e)); intros H; simpl.
  - apply undelivered_throws; eauto.
  - apply undelivered_throws; eauto.
  - apply undelivered_throws; eauto.
  - apply undelivered_throws; eauto.
  - apply undelivered_throws; eauto.
Qed.

Lemma fallback_of_keys (m : Metric) : dom (fallback_of m) = metric_keys.
Proof. destruct m; reflexivity. Qed.

Lemma fallback_of_source (m : Metric) :
  fallback_of m !! "source" = Some (VStr "fallback").
Proof. destruct m; reflexivity. Qed.

(** The payload of the handler's own [catch] block is never sent: every
    response carries [dayOfWeek]. *)
Lemma daily_catch_unreachable (e : Env) (s : unit) (message : string) :
  body (response (handler e s)) <> Some (handlerFallback message).
Proof.
  rewrite daily_response. intros Heq.
  apply (f_equal (fun b : option Obj => b ≫= (.!! "dayOfWeek"))) in Heq.
  simpl in Heq.
  rewrite lookup_insert_ne, lookup_insert_eq in Heq by discriminate.
  discriminate.
Qed.

End DailyFallback.

(** C4, as the code has it.  Market snapshot: from an empty cache with a
    failing upstream the response is status 200 with exactly
    [getFallbackData()]: it is marked [fallback = true] and
    [cached = false], it has no [source] field, its keys are those of a
    normal response plus [fallback], and only [updated] and
    [updatedTimestamp] depend on the call.  Daily metric: when the request
    of the day is not delivered, the response is status 200 with the
    fallback payload of that day's metric, which has the keys of a normal
    response and [source = "fallback"], extended with [dayOfWeek] and
    [updated]. *)
Theorem fallback_payloads :
  (forall e : MarketCache.Env,
     succeeded (MarketCache.fetchBoth e) = false ->
     let r := response (MarketCache.handler e MarketCache.cache0) in
     status r = 200 /\
     body r = Some (MarketCache.getFallbackData e) /\
     field r "fallback" = Some (VBool true) /\
     field r "cached" = Some (VBool false) /\
     field r "source" = None) /\
  (forall (e e' : MarketCache.Env) (k : string),
     k <> "updated" -> k <> "updatedTimestamp" ->
     MarketCache.getFallbackData e !! k = MarketCache.getFallbackData e' !! k) /\
  (forall (e : MarketCache.Env) (p : Obj) (g : val),
     dom (MarketCache.getFallbackData e)
     = dom (fresh_body (MarketCache.freshData e p g)) ∪ {["fallback"]}) /\
  (forall (e : TheNumber.Env) (s : unit),
     metric_delivered e = false ->
     let m := TheNumber.selector (TheNumber.dayOfWeek e) in
     let r := response (TheNumber.handler e s) in
     status r = 200 /\
     body r = Some (<["updated" := VStr (TheNumber.iso e)]>
                      (<["dayOfWeek" := VZ (TheNumber.dayOfWeek e)]>
                         (TheNumber.fallback_of m))) /\
     field r "source" = Some (VStr "fallback")) /\
  (forall (m : TheNumber.Metric) (e : TheNumber.Env),
     dom (TheNumber.fallback_of m) = dom (TheNumber.fetcher m e)).
Proof.
  split; [|split; [|split; [|split]]].
  - intros e Hdown r.
    assert (Hr : r = json 200 (MarketCache.getFallbackData e))
      by (apply statuses_from_cold; exact Hdown).
    rewrite Hr. split; [reflexivity|]. split; [reflexivity|].
    rewrite !field_json. apply market_fallback_fields.
  - exact market_fallback_constant.
  - exact market_fallback_keys.
  - intros e s Hdown m r. subst r m.
    rewrite daily_response, (fetcher_fallback e Hdown).
    split; [reflexivity|]. split; [reflexivity|].
    rewrite field_json, !lookup_insert_ne by discriminate.
    apply fallback_of_source.
  - intros m e. rewrite fallback_of_keys, fetcher_keys. reflexivity.
Qed.

(** From a cold start, with the market upstream down and, on a Monday, the
    Fear & Greed index unreachable. *)
Lemma fallback_payloads_witness :
  field (response (MarketCache.handler (Sample.market_down 0)
                     MarketCache.cache0)) "fallback" = Some (VBool true) /\
  field (response (TheNumber.handler (Sample.daily_env 1 0) tt)) "value"
  = Some (VStr "65").
Proof.
  destruct fallback_payloads as (Hmarket & _ & _ & Hdaily & _). split.
  - destruct (Hmarket (Sample.market_down 0)) as (_ & _ & H & _);
      [reflexivity | exact H].
  - destruct (Hdaily (Sample.daily_env 1 0) tt) as (_ & H & _);
      [reflexivity|].
    unfold field. rewrite H. reflexivity.
Defined.

(** C4 fails for the market snapshot: its fallback is not marked
    [source = "fallback"]. *)
Lemma market_fallback_unmarked :
  ~ answers_with_fallback market MarketCache.getFallbackData.
Proof.
  intros H.
  destruct (H (Sample.market_down 0)) as (_ & _ & Hsource & _);
    [reflexivity|].
  vm_compute in Hsource. discriminate.
Qed.

(** ** Reading a field of an object literal *)

Ltac obj_field :=
  autounfold with fallbacks; unfold obj;
  cbn [reverse rev_append list_to_map foldr fst snd uncurry];
  rewrite ?lookup_insert_ne by discriminate;
  first [apply lookup_insert_eq | apply lookup_empty].

(** ** The selector of the daily metric *)

Section Selector.

Import TheNumber.

Lemma getFearAndGreed_metric (e : Env) :
  getFearAndGreed e !! "metric" = Some (VStr "fear_greed").
Proof.
  unfold getFearAndGreed, fearGreed_try, try_catch.
  destruct (fng e) as [msg|code payload]; [reflexivity|].
  destruct (ok code); [|reflexivity].
  destruct payload as [doc|msg]; [|reflexivity]. simpl.
  destruct (default [] (fng_data doc)) as [|first rest]; [reflexivity|].
  destruct (map_exc _ _) as [history|msg]; simpl; [obj_field | reflexivity].
Qed.

Lemma getBTCDominance_metric (e : Env) :
  getBTCDominance e !! "metric" = Some (VStr "btc_dominance").
Proof.
  unfold getBTCDominance, btcDominance_try, try_catch.
  destruct (global e) as [msg|code payload]; [reflexivity|].
  destruct (ok code); [|reflexivity].
  destruct payload as [doc|msg]; [|reflexivity]. simpl. obj_field.
Qed.

Lemma getFundingRates_metric (e : Env) :
  getFundingRates e !! "metric" = Some (VStr "funding_rates").
Proof.
  unfold getFundingRates, funding_try, try_catch.
  destruct (funding e) as [msg|code payload]; [reflexivity|].
  destruct (ok code); [|reflexivity].
  destruct payload as [doc|msg]; [|reflexivity]. simpl.
  destruct (funding_data doc ≫= _) as [btcData|]; [obj_field | reflexivity].
Qed.

Lemma getOpenInterest_metric (e : Env) :
  getOpenInterest e !! "metric" = Some (VStr "open_interest").
Proof.
  unfold getOpenInterest, openInterest_try, try_catch.
  destruct (open_interest e) as [msg|code payload]; [reflexivity|].
  destruct (ok code); [|reflexivity].
  destruct payload as [doc|msg]; [|reflexivity]. simpl.
  destruct (oi_data doc ≫= _) as [btcData|]; [obj_field | reflexivity].
Qed.

Lemma getStablecoinSupply_metric (e : Env) :
  getStablecoinSupply e !! "metric" = Some (VStr "stablecoin_supply").
Proof.
  unfold getStablecoinSupply, stablecoin_try, try_catch.
  destruct (stablecoins e) as [msg|code payload]; [reflexivity|].
  destruct (ok code); [|reflexivity].
  destruct payload as [doc|msg]; [|reflexivity]. simpl. obj_field.
Qed.

Lemma fetcher_metric (m : Metric) (e : Env) :
  fetcher m e !! "metric" = Some (VStr (tag m)).
Proof.
  destruct m; simpl.
  - apply getFearAndGreed_metric.
  - apply getBTCDominance_metric.
  - apply getFundingRates_metric.
  - apply getOpenInterest_metric.
  - apply getStablecoinSupply_metric.
Qed.

Lemma selector_default (d : Z) :
  selector d = stablecoin_supply \/ 1 <= d <= 4.
Proof.
  destruct d as [|p|p]; [left; reflexivity | | left; reflexivity].
  destruct p as [[[|[]|]|[|[]|]|]|[[|[]|]|[|[]|]|]|];
    (left; reflexivity) || (right; lia).
Qed.

End Selector.

(** C5.  The selector is a function on every integer day of the week, with
    Monday to Thursday selecting Fear & Greed, BTC dominance, funding rates
    and open interest, and Friday, Saturday and Sunday (and any other
    integer) selecting the stablecoin supply.  The handler requests the
    upstream of the selected metric and answers with that metric's tag. *)
Theorem daily_metric_selector :
  TheNumber.selector 1 = TheNumber.fear_greed /\
  TheNumber.selector 2 = TheNumber.btc_dominance /\
  TheNumber.selector 3 = TheNumber.funding_rates /\
  TheNumber.selector 4 = TheNumber.open_interest_ /\
  TheNumber.selector 5 = TheNumber.stablecoin_supply /\
  TheNumber.selector 6 = TheNumber.stablecoin_supply /\
  TheNumber.selector 0 = TheNumber.stablecoin_supply /\
  (forall d : Z, TheNumber.selector d = TheNumber.stablecoin_supply
                 \/ 1 <= d <= 4) /\
  (forall (e : TheNumber.Env) (s : unit),
     let m := TheNumber.selector (TheNumber.dayOfWeek e) in
     contacted (TheNumber.handler e s) = [TheNumber.url_of m] /\
     field (response (TheNumber.handler e s)) "metric"
       = Some (VStr (TheNumber.tag m))).
Proof.
  repeat (split; [reflexivity|]).
  split; [exact selector_default|].
  intros e s m. split; [reflexivity|].
  rewrite daily_field by discriminate. apply fetcher_metric.
Qed.

(** ** Lists mapped with a function that may raise *)

Lemma map_exc_succeeded {A B} (f : A -> Exc B) (l : list A) :
  succeeded (map_exc f l) = forallb (fun x => succeeded (f x)) l.
Proof.
  induction l as [|x l IH]; simpl; [reflexivity|].
  destruct (f x) as [y|msg]; simpl; [|reflexivity].
  rewrite <- IH. destruct (map_exc f l); reflexivity.
Qed.

Lemma map_exc_each {A B} (f : A -> Exc B) (l : list A) (ys : list B) :
  map_exc f l = Ok ys -> Forall2 (fun x y => f x = Ok y) l ys.
Proof.
  revert ys. induction l as [|x l IH]; intros ys; simpl.
  - intros [= <-]. constructor.
  - destruct (f x) as [y|msg] eqn:Hx; simpl; [|discriminate].
    destruct (map_exc f l) as [ys'|msg]; simpl; [|discriminate].
    intros [= <-]. constructor; [exact Hx | apply IH; reflexivity].
Qed.



Lemma map_exc_passed {A B} (f : A -> Exc B) (l : list A) :
  forallb (fun x => succeeded (f x)) l = true ->
  exists ys, map_exc f l = Ok ys.
Proof.
  rewrite <- map_exc_succeeded.
  destruct (map_exc f l) as [ys|msg]; [|discriminate]. eauto.
Qed.

(** ** Fear & Greed thresholds *)

Section FearGreed.

Import TheNumber.

Lemma history_point_succeeded (e : Env) (d : FngEntry) :
  succeeded (history_point e d)
  = succeeded (date_of_seconds e (parseInt (timestamp d))).
Proof.
  unfold history_point.
  destruct (date_of_seconds e (parseInt (timestamp d))); reflexivity.
Qed.

Lemma fearGreed_label (v : Z) :
  (fearGreedReading (Some v)).1 =
    if v <=? 20 then "bearish"
    else if v <=? 40 then "cautious"
    else if v <=? 60 then "neutral"
    else if v <=? 80 then "optimistic"
    else "bullish".
Proof.
  unfold fearGreedReading, int_le.
  repeat (destruct (_ <=? _); [reflexivity|]). reflexivity.
Qed.

(** A fresh Fear & Greed payload reports the label of the very value it
    reports. *)
Lemma fearGreed_fresh (e : Env) (o : Obj) :
  fearGreed_try e = Ok o ->
  exists current : option Z,
    o !! "numericValue" = Some (VNum (int_num current)) /\
    o !! "interpretation" = Some (VStr (fearGreedReading current).1) /\
    o !! "context" = Some (VStr (fearGreedReading current).2).
Proof.
  unfold fearGreed_try.
  destruct (fng e) as [msg|code payload]; [discriminate|].
  destruct (negb (ok code)); [discriminate|].
  destruct payload as [doc|msg]; [|discriminate]. simpl.
  destruct (default [] (fng_data doc)) as [|first rest]; [discriminate|].
  destruct (map_exc _ _) as [history|msg]; simpl; [|discriminate].
  intros [= <-]. exists (parseInt (value first)).
  repeat split; obj_field.
Qed.

(** What [getFearAndGreed] builds from a delivered series whose sampled
    timestamps can all be printed: the value it reads is the first entry's. *)
Lemma fearGreed_reads_first
    (e : Env) (code : Z) (doc : Fng) (first : FngEntry) (rest : list FngEntry) :
  fng e = Answered code (Ok doc) -> ok code = true ->
  fng_data doc = Some (first :: rest) ->
  forallb (fun d => succeeded (date_of_seconds e (parseInt (timestamp d))))
          (take 26 (every7 0 (first :: rest))) = true ->
  let current := parseInt (value first) in
  let o := getFearAndGreed e in
  o !! "source" = Some (VStr "alternative.me") /\
  o !! "value" = Some (VStr (int_string current)) /\
  o !! "numericValue" = Some (VNum (int_num current)) /\
  o !! "interpretation" = Some (VStr (fearGreedReading current).1) /\
  o !! "context" = Some (VStr (fearGreedReading current).2).
Proof.
  intros Hreply Hok Hdata Hall current o. subst o.
  unfold getFearAndGreed, fearGreed_try.
  rewrite Hreply, Hok. cbn [negb mbind exc_bind].
  rewrite Hdata. cbn [default from_option id].
  assert (Hdated : forall l,
             forallb (fun d =>
               succeeded (date_of_seconds e (parseInt (timestamp d)))) l
             = forallb (fun d => succeeded (history_point e d)) l).
  { induction l as [|d l IH]; simpl; [reflexivity|].
    rewrite IH, history_point_succeeded. reflexivity. }
  rewrite Hdated in Hall.
  destruct (map_exc_passed _ _ Hall) as (hs & ->).
  cbn [try_catch]. fold current. repeat split; obj_field.
Qed.

End FearGreed.

(** C6.  For every integer value [v] of the index the label is "bearish" up
    to 20, "cautious" up to 40, "neutral" up to 60, "optimistic" up to 80
    and "bullish" above; in particular at 20, 21, 60, 61 and 81.  This is the
    label [getFearAndGreed] puts into its payload: from a delivered series
    the value it reports and labels is [parseInt] of the first entry's
    [value] (a value that is no number is reported as [NaN] and labelled
    "bullish", every comparison with it being false), and on a Monday the
    handler answers with that payload. *)
Theorem fear_greed_thresholds :
  (forall v : Z,
     let label := (TheNumber.fearGreedReading (Some v)).1 in
     (v <= 20 -> label = "bearish") /\
     (20 < v <= 40 -> label = "cautious") /\
     (40 < v <= 60 -> label = "neutral") /\
     (60 < v <= 80 -> label = "optimistic") /\
     (80 < v -> label = "bullish")) /\
  (TheNumber.fearGreedReading (Some 20)).1 = "bearish" /\
  (TheNumber.fearGreedReading (Some 21)).1 = "cautious" /\
  (TheNumber.fearGreedReading (Some 60)).1 = "neutral" /\
  (TheNumber.fearGreedReading (Some 61)).1 = "optimistic" /\
  (TheNumber.fearGreedReading (Some 81)).1 = "bullish" /\
  (forall (e : TheNumber.Env) (code : Z) (doc : TheNumber.Fng)
          (first : TheNumber.FngEntry) (rest : list TheNumber.FngEntry),
     TheNumber.fng e = Answered code (Ok doc) -> ok code = true ->
     TheNumber.fng_data doc = Some (first :: rest) ->
     forallb (fun d =>
                succeeded (TheNumber.date_of_seconds e
                             (TheNumber.parseInt (TheNumber.timestamp d))))
             (take 26 (TheNumber.every7 0 (first :: rest))) = true ->
     let o := TheNumber.getFearAndGreed e in
     o !! "source" = Some (VStr "alternative.me") /\
     (forall v : Z,
        TheNumber.parseInt (TheNumber.value first) = Some v ->
        o !! "value" = Some (VStr (string_of_Z v)) /\
        o !! "numericValue" = Some (VNum (of_Z v)) /\
        (v <= 20 -> o !! "interpretation" = Some (VStr "bearish")) /\
        (20 < v <= 40 -> o !! "interpretation" = Some (VStr "cautious")) /\
        (40 < v <= 60 -> o !! "interpretation" = Some (VStr "neutral")) /\
        (60 < v <= 80 -> o !! "interpretation" = Some (VStr "optimistic")) /\
        (80 < v -> o !! "interpretation" = Some (VStr "bullish"))) /\
     (TheNumber.parseInt (TheNumber.value first) = None ->
        o !! "value" = Some (VStr "NaN") /\
        o !! "numericValue" = Some (VNum NaN) /\
        o !! "interpretation" = Some (VStr "bullish"))) /\
  (forall (e : TheNumber.Env) (k : string),
     TheNumber.dayOfWeek e = 1 -> k <> "updated" -> k <> "dayOfWeek" ->
     field (response (TheNumber.handler e tt)) k
     = TheNumber.getFearAndGreed e !! k).
Proof.
  assert (Hbands : forall v : Z,
     let label := (TheNumber.fearGreedReading (Some v)).1 in
     (v <= 20 -> label = "bearish") /\
     (20 < v <= 40 -> label = "cautious") /\
     (40 < v <= 60 -> label = "neutral") /\
     (60 < v <= 80 -> label = "optimistic") /\
     (80 < v -> label = "bullish")).
  { intros v label. subst label. rewrite fearGreed_label.
    repeat split; intros H;
      destruct (Z.leb_spec v 20), (Z.leb_spec v 40), (Z.leb_spec v 60),
        (Z.leb_spec v 80); try lia; reflexivity. }
  split; [exact Hbands|].
  repeat (split; [reflexivity|]).
  split.
  - intros e code doc first rest Hreply Hok Hdata Hall o.
    destruct (fearGreed_reads_first e code doc first rest Hreply Hok Hdata Hall)
      as (Hsrc & Hval & Hnum & Hlab & _).
    fold o in Hsrc, Hval, Hnum, Hlab.
    split; [exact Hsrc|]. split.
    + intros v Hv. rewrite Hv in Hval, Hnum, Hlab.
      split; [exact Hval|]. split; [exact Hnum|].
      destruct (Hbands v) as (H1 & H2 & H3 & H4 & H5).
      rewrite Hlab.
      split; [intros H; rewrite (H1 H); reflexivity|].
      split; [intros H; rewrite (H2 H); reflexivity|].
      split; [intros H; rewrite (H3 H); reflexivity|].
      split; [intros H; rewrite (H4 H); reflexivity|].
      intros H; rewrite (H5 H); reflexivity.
    + intros Hv. rewrite Hv in Hval, Hnum, Hlab.
      split; [exact Hval|]. split; [exact Hnum | exact Hlab].
  - intros e k Hday Hk1 Hk2.
    rewrite daily_field by assumption. rewrite Hday. reflexivity.
Qed.

(** A Monday on which the index stands at 20, and one on which it stands at
    21. *)
Lemma fear_greed_thresholds_witness :
  field (response (TheNumber.handler
    (Cases.monday (replicate 8 (Cases.fng_entry "20" "1700000000"))) tt))
    "interpretation" = Some (VStr "bearish") /\
  TheNumber.getFearAndGreed
    (Cases.monday (replicate 8 (Cases.fng_entry "21" "1700000000")))
    !! "interpretation" = Some (VStr "cautious").
Proof.
  destruct fear_greed_thresholds as (_ & _ & _ & _ & _ & _ & Hcode & Hday).
  split.
  - rewrite (Hday (Cases.monday (replicate 8 (Cases.fng_entry "20" "1700000000")))
               "interpretation" eq_refl) by discriminate.
    destruct (Hcode
      (Cases.monday (replicate 8 (Cases.fng_entry "20" "1700000000")))
      200 _ (Cases.fng_entry "20" "1700000000")
      (replicate 7 (Cases.fng_entry "20" "1700000000"))
      eq_refl eq_refl eq_refl eq_refl) as (_ & H & _).
    destruct (H 20 eq_refl) as (_ & _ & Hb & _).
    apply Hb. lia.
  - destruct (Hcode
      (Cases.monday (replicate 8 (Cases.fng_entry "21" "1700000000")))
      200 _ (Cases.fng_entry "21" "1700000000")
      (replicate 7 (Cases.fng_entry "21" "1700000000"))
      eq_refl eq_refl eq_refl eq_refl) as (_ & H & _).
    destruct (H 21 eq_refl) as (_ & _ & _ & Hc & _).
    apply Hc. lia.
Defined.

(** ** Funding rates *)

(** C7, evaluated.  At an average 8-hour rate of 0.0001 the code computes
    [annualized = 0.0001 * 3 * 365 = 0.1095], with no factor 100, and the
    subtitle reads "≈ 0% APR".  With the factor 100 the value would be 10.95
    and print as 11, which is what the fallback payload of the same function
    pairs with the value 0.0100. *)
Theorem funding_apr_at_one_basis_point :
  TheNumber.averageRate (Some [ {| TheNumber.rate := Some (1 # 10000) |} ])
    = Fin (1 # 10000) /\
  TheNumber.annualize (Fin (1 # 10000)) = Fin (219 # 2000) /\
  field (response (TheNumber.handler Sample.wednesday tt)) "subtitle"
    = Some (VStr "≈ 0% APR") /\
  field (response (TheNumber.handler Sample.wednesday tt)) "value"
    = Some (VStr "0.0100") /\
  mul (TheNumber.annualize (Fin (1 # 10000))) (of_Z 100) = Fin (219 # 20) /\
  toFixed 0 (Fin (219 # 20)) = "11" /\
  TheNumber.getFallbackFundingRates !! "value" = Some (VStr "0.0100") /\
  TheNumber.getFallbackFundingRates !! "subtitle" = Some (VStr "≈ 11% APR").
Proof. repeat split; vm_compute; reflexivity. Qed.

(** ** The market-cap-to-volume ratio *)

Lemma Qis0_false (q : Q) : (0 < q)%Q -> Qis0 q = false.
Proof.
  intros H. unfold Qis0. destruct (Qeq_bool q 0) eqn:E; [|reflexivity].
  apply Qeq_bool_eq in E. rewrite E in H. exfalso.
  exact (Qlt_irrefl 0 H).
Qed.

Lemma mvRatio_cases (cap vol : num) :
  (gt vol (of_Z 0) = false -> MarketMood.mvRatio cap vol = of_Z 20) /\
  (gt vol (of_Z 0) = true -> MarketMood.mvRatio cap vol = Double.div cap vol).
Proof.
  unfold MarketMood.mvRatio. split; intros ->; reflexivity.
Qed.

(** [vol > 0] for a finite [vol] *)
Lemma gt_zero (v : Q) : gt (Fin v) (of_Z 0) = true <-> (0 < v)%Q.
Proof.
  unfold gt, of_Z. change (inject_Z 0) with 0%Q.
  rewrite negb_true_iff. split.
  - intros E. apply Qnot_le_lt. intros Hle. apply Qle_bool_iff in Hle.
    congruence.
  - intros Hpos. destruct (Qle_bool v 0) eqn:E; [|reflexivity].
    apply Qle_bool_iff in E. exfalso.
    exact (Qlt_irrefl 0 (Qlt_le_trans _ _ _ Hpos E)).
Qed.

Lemma mood_mvRatio24h (e : MarketMood.Env) (doc : CoinGecko.Global)
    (coins : list CoinGecko.Coin) :
  MarketMood.mood e doc coins !! "mvRatio24h" =
    Some (VNum (MarketMood.round1
      (MarketMood.mvRatio (MarketMood.totalMarketCap doc)
                          (MarketMood.totalVolume24h doc)))).
Proof. unfold MarketMood.mood. obj_field. Qed.

(** What the handler answers once both documents are there and usable. *)
Lemma mood_delivered (e : MarketMood.Env) (c1 c2 : Z)
    (doc : CoinGecko.Global) (cs : list CoinGecko.Coin) :
  MarketMood.method e <> "OPTIONS" ->
  MarketMood.global e = Answered c1 (Ok (Doc doc)) -> ok c1 = true ->
  MarketMood.coins e = Answered c2 (Ok (Doc cs)) -> ok c2 = true ->
  MarketMood.history_unusable e = None ->
  response (MarketMood.handler e tt) = json 200 (MarketMood.mood e doc cs).
Proof.
  intros Hm Hg Hc1 Hc Hc2 Hh. unfold MarketMood.handler, MarketMood.request.
  rewrite bool_decide_eq_false_2 by exact Hm.
  rewrite Hg, Hc1, Hc, Hc2. cbn [negb response mbind exc_bind use].
  unfold MarketMood.use_history. rewrite Hh. reflexivity.
Qed.

(** C8.  The market-cap-to-volume ratio of the market mood.  The handler
    divides only under the test [totalVolume24h > 0]: when the test fails,
    which with a volume of zero (or a volume missing from the document) it
    does, the ratio is the constant 20, neither [NaN] nor an infinity; when
    the volume is positive the ratio is [totalMarketCap / totalVolume24h],
    the quotient of the two doubles with a divisor that is not zero.  The
    [mvRatio24h] of the payload is that ratio rounded to one decimal, and it
    is what the handler answers with when both documents are delivered. *)
Theorem mv_ratio_guarded :
  (forall cap vol : num,
     (gt vol (of_Z 0) = false -> MarketMood.mvRatio cap vol = of_Z 20) /\
     (gt vol (of_Z 0) = true ->
        MarketMood.mvRatio cap vol = Double.div cap vol)) /\
  (forall (cap : num) (v : Q),
     ((v <= 0)%Q -> MarketMood.mvRatio cap (Fin v) = of_Z 20) /\
     ((0 < v)%Q ->
        MarketMood.mvRatio cap (Fin v) = Double.div cap (Fin v))) /\
  (forall doc : CoinGecko.Global,
     (CoinGecko.data doc ≫= CoinGecko.total_volume) ≫= (.!! "usd") = None ->
     MarketMood.totalVolume24h doc = Fin 0) /\
  (forall (e : MarketMood.Env) (doc : CoinGecko.Global)
          (coins : list CoinGecko.Coin),
     let cap := MarketMood.totalMarketCap doc in
     let vol := MarketMood.totalVolume24h doc in
     let o := MarketMood.mood e doc coins in
     (gt vol (of_Z 0) = false ->
        o !! "mvRatio24h" = Some (VNum (of_Z 20))) /\
     (gt vol (of_Z 0) = true ->
        o !! "mvRatio24h"
        = Some (VNum (MarketMood.round1 (Double.div cap vol))))) /\
  (forall (e : MarketMood.Env) (c1 c2 : Z) (doc : CoinGecko.Global)
          (cs : list CoinGecko.Coin),
     MarketMood.method e <> "OPTIONS" ->
     MarketMood.global e = Answered c1 (Ok (Doc doc)) -> ok c1 = true ->
     MarketMood.coins e = Answered c2 (Ok (Doc cs)) -> ok c2 = true ->
     MarketMood.history_unusable e = None ->
     field (response (MarketMood.handler e tt)) "mvRatio24h"
     = MarketMood.mood e doc cs !! "mvRatio24h").
Proof.
  split; [exact mvRatio_cases|]. split; [|split; [|split]].
  - intros cap v. destruct (mvRatio_cases cap (Fin v)) as [H0 H1]. split.
    + intros Hle. apply H0. destruct (gt (Fin v) (of_Z 0)) eqn:E;
        [|reflexivity].
      apply gt_zero in E. exfalso.
      exact (Qlt_irrefl 0 (Qlt_le_trans _ _ _ E Hle)).
    + intros Hpos. apply H1, gt_zero. exact Hpos.
  - intros doc H. unfold MarketMood.totalVolume24h. rewrite H. reflexivity.
  - intros e doc coins cap vol o. subst o. rewrite mood_mvRatio24h.
    fold cap vol. destruct (mvRatio_cases cap vol) as [H0 H1].
    split; intros H; [rewrite (H0 H) | rewrite (H1 H)]; reflexivity.
  - intros e c1 c2 doc cs Hm Hg Hc1 Hc Hc2 Hh.
    rewrite (mood_delivered e c1 c2 doc cs Hm Hg Hc1 Hc Hc2 Hh).
    apply field_json.
Qed.

(** A market of 3.4 trillion turning over 140 billion a day has a ratio of
    24.3; the same market with no volume reported has the ratio 20. *)
Lemma mv_ratio_guarded_witness :
  field (response (MarketMood.handler (Cases.mood_up Sample.global_doc) tt))
    "mvRatio24h" = Some (VNum (Double.of_Q (243 # 10))) /\
  MarketMood.mood (Cases.mood_up Cases.global_quiet) Cases.global_quiet
    [Sample.bitcoin] !! "mvRatio24h" = Some (VNum (of_Z 20)).
Proof.
  destruct mv_ratio_guarded as (_ & _ & _ & Hpay & Hans). split.
  - rewrite (Hans (Cases.mood_up Sample.global_doc) 200 200 Sample.global_doc
               [Sample.bitcoin]) by (reflexivity || discriminate).
    destruct (Hpay (Cases.mood_up Sample.global_doc) Sample.global_doc
                [Sample.bitcoin]) as (_ & H).
    rewrite H by (vm_compute; reflexivity).
    vm_compute. reflexivity.
  - destruct (Hpay (Cases.mood_up Cases.global_quiet) Cases.global_quiet
                [Sample.bitcoin]) as (H & _).
    apply H. vm_compute. reflexivity.
Defined.

(** ** The podcast feed: channel metadata *)

(** Tags read with [fromChannel = true] depend only on the text before the
    first [<item>]. *)
Lemma channel_tag_scoped (xml xml' tagName : string) :
  Str.split0 "<item>" xml = Str.split0 "<item>" xml' ->
  Breakdown.extractTag xml tagName true
  = Breakdown.extractTag xml' tagName true.
Proof. intros H. unfold Breakdown.extractTag. rewrite H. reflexivity. Qed.

(** So are the title, the description and the author of the show. *)
Lemma channel_text_scoped (xml xml' k : string) :
  Str.split0 "<item>" xml = Str.split0 "<item>" xml' ->
  k = "title" \/ k = "description" \/ k = "author" ->
  Breakdown.parseShowMetadata xml !! k = Breakdown.parseShowMetadata xml' !! k.
Proof.
  intros H [ -> | [ -> | -> ] ]; unfold Breakdown.parseShowMetadata.
  - transitivity
      (Some (VStr (Str.or_else (Breakdown.extractTag xml "title" true)
                               "The Breakdown")));
      [obj_field | rewrite (channel_tag_scoped _ _ _ H); symmetry; obj_field].
  - transitivity
      (Some (VStr (Str.or_else (Breakdown.extractTag xml "description" true)
                               EmptyString)));
      [obj_field | rewrite (channel_tag_scoped _ _ _ H); symmetry; obj_field].
  - transitivity
      (Some (VStr (Str.or_else (Breakdown.extractTag xml "itunes:author" true)
                               "NLW")));
      [obj_field | rewrite (channel_tag_scoped _ _ _ H); symmetry; obj_field].
Qed.

(** C9, evaluated.  Two feeds with the same text before the first [<item>]:
    the channel has no artwork of its own.  The title is read from the
    channel in both, but the show's [image] is the artwork of the first
    episode when that episode has one, and the default otherwise:
    [extractAttribute] searches the whole document. *)
Theorem channel_image_read_from_item :
  Str.split0 "<item>" Sample.feed_xml = "<rss><channel><title>Show</title>" /\
  Str.split0 "<item>" Sample.feed_xml_plain
    = "<rss><channel><title>Show</title>" /\
  Breakdown.extractAttribute (Str.split0 "<item>" Sample.feed_xml)
    "itunes:image" "href" = None /\
  Breakdown.parseShowMetadata Sample.feed_xml !! "title"
    = Some (VStr "Show") /\
  Breakdown.parseShowMetadata Sample.feed_xml_plain !! "title"
    = Some (VStr "Show") /\
  Breakdown.parseShowMetadata Sample.feed_xml !! "image"
    = Some (VStr "http://e/ep.jpg") /\
  Breakdown.parseShowMetadata Sample.feed_xml_plain !! "image"
    = Some (VStr "https://megaphone.imgix.net/podcasts/bcb63e62-d56f-11eb-9e47-43b3c17dbba3/image/The_Breakdown_Show_Art.jpg").
Proof. repeat split; vm_compute; reflexivity. Qed.

(** ** The podcast feed: episodes *)

Section Episodes.

Import Breakdown.

Lemma episode_has_audio (e : Env) (item : string) (ep : val) :
  episode e item = Ok (Some ep) -> has_audio ep.
Proof.
  unfold episode.
  destruct (extractAttribute (itemContent item) "enclosure" "url")
    as [[|a u]|] eqn:Haudio; cbn [Str.truthy]; try discriminate.
  destruct (Str.truthy (extractTag (itemContent item) "pubDate" false));
    [destruct (dateISO e _) as [date|]|]; simpl; try discriminate;
    intros [= <-]; eexists _, (String a u);
    (split; [reflexivity|]; split; [obj_field | discriminate]).
Qed.

Lemma episode_skipped (e : Env) (item : string) :
  episode e item = Ok None <->
  Str.truthy (extractAttribute (itemContent item) "enclosure" "url") = false.
Proof.
  unfold episode.
  destruct (Str.truthy (extractAttribute _ _ _)); [|split; reflexivity].
  split; [|discriminate].
  destruct (Str.truthy (extractTag (itemContent item) "pubDate" false));
    [destruct (dateISO e _) as [date|]|]; simpl; discriminate.
Qed.

Lemma episodes_have_audio (e : Env) (items : list string) (eps : list val) :
  episodes e items = Ok eps -> Forall has_audio eps.
Proof.
  revert eps. induction items as [|item rest IH]; intros eps; simpl.
  - intros [= <-]. constructor.
  - destruct (episode e item) as [ep|msg] eqn:Hep; simpl; [|discriminate].
    destruct (episodes e rest) as [eps'|msg]; simpl; [|discriminate].
    intros [= <-]. specialize (IH eps' eq_refl).
    destruct ep as [v|]; [|exact IH].
    constructor; [|exact IH]. exact (episode_has_audio e item v Hep).
Qed.

Lemma podcast_success (e : Env) (s : unit) :
  status (response (handler e s)) = 200 ->
  exists (xml : string) (all : list val),
    feed_text e = Ok xml /\ parseRSS e xml = Ok all /\
    field (response (handler e s)) "episodes" = Some (VArr (take 5 all)).
Proof.
  unfold handler. cbn [response].
  destruct (feed_text e) as [xml|msg]; [|discriminate]. simpl.
  destruct (parseRSS e xml) as [all|msg] eqn:Hparse; simpl; [|discriminate].
  intros _. exists xml, all. split; [reflexivity|]. split; [exact Hparse|].
  rewrite field_json. obj_field.
Qed.

End Episodes.

(** C10.  In every success response of the podcast handler the [episodes]
    array has at most 5 entries and each entry has an [audioUrl] that is a
    non-empty string; an item is skipped exactly when its enclosure yields no
    (or an empty) URL. *)
Theorem podcast_episodes :
  (forall (e : Breakdown.Env) (s : unit),
     status (response (Breakdown.handler e s)) = 200 ->
     exists eps : list val,
       field (response (Breakdown.handler e s)) "episodes" = Some (VArr eps) /\
       (length eps <= 5)%nat /\
       Forall Breakdown.has_audio eps) /\
  (forall (e : Breakdown.Env) (item : string),
     Breakdown.episode e item = Ok None <->
     Str.truthy (Breakdown.extractAttribute (Breakdown.itemContent item)
                   "enclosure" "url") = false).
Proof.
  split; [|exact episode_skipped].
  intros e s Hok.
  destruct (podcast_success e s Hok) as (xml & all & _ & Hparse & Hfield).
  exists (take 5 all). split; [exact Hfield|]. split.
  - rewrite length_take. lia.
  - apply Forall_take. exact (episodes_have_audio e _ all Hparse).
Qed.

(** The sample feed: two items, of which the one with an enclosure is
    returned. *)
Lemma podcast_episodes_witness :
  exists eps : list val,
    field (response (Breakdown.handler (Sample.podcast_env Sample.feed_xml) tt))
      "episodes" = Some (VArr eps) /\
    (length eps <= 5)%nat /\
    Forall Breakdown.has_audio eps.
Proof.
  apply (proj1 podcast_episodes). reflexivity.
Defined.

(** * Further properties of the handlers *)

(** ** The cache slot over the life of the process *)

(** [Math.round] of a whole number of milliseconds, in seconds. *)
Lemma cacheAge_seconds (now timestamp : Z) :
  cacheAge now timestamp = VZ ((now - timestamp + 500) / 1000).
Proof.
  unfold cacheAge, Qround_half_up. f_equal.
  unfold Qfloor, Qdiv, Qmult, Qplus, Qinv, inject_Z. simpl.
  change (Z.pos (1 * 1000 * 2)) with (2 * 1000).
  change (1 * Z.pos (1 * 1000)) with 1000.
  replace ((now - timestamp) * 1 * 2 + 1000)
    with (2 * (now - timestamp + 500)) by lia.
  apply Z.div_mul_cancel_l; lia.
Qed.

Lemma coins_failed_keeps (e : CoinsCache.Env) (cache : CoinsCache.Cache) :
  succeeded (CoinsCache.fetchTop100Coins (CoinsCache.coins e)) = false ->
  next (CoinsCache.handler e cache) = cache.
Proof.
  intros Hf. unfold CoinsCache.handler.
  destruct (fresh_data _ _ _ _); [reflexivity|].
  destruct (CoinsCache.fetchTop100Coins _); [discriminate | reflexivity].
Qed.

(** Whatever a call does, a filled slot stays filled. *)
Lemma market_slot_stays (e : MarketCache.Env) (cache : MarketCache.Cache) :
  is_Some (MarketCache.data cache) ->
  is_Some (MarketCache.data (next (MarketCache.handler e cache))).
Proof.
  intros H. unfold MarketCache.handler.
  destruct (fresh_data _ _ _ _); [exact H|].
  destruct (MarketCache.fetchBoth e) as [[p g]|msg]; [eexists; reflexivity|].
  exact H.
Qed.

Lemma coins_slot_stays (e : CoinsCache.Env) (cache : CoinsCache.Cache) :
  is_Some (CoinsCache.data cache) ->
  is_Some (CoinsCache.data (next (CoinsCache.handler e cache))).
Proof.
  intros H. unfold CoinsCache.handler.
  destruct (fresh_data _ _ _ _); [exact H|].
  destruct (CoinsCache.fetchTop100Coins _); [eexists; reflexivity | exact H].
Qed.

Lemma personal_slot_stays (e : PersonalCache.Env) (cache : PersonalCache.Cache) :
  is_Some (PersonalCache.data cache) ->
  is_Some (PersonalCache.data (next (PersonalCache.handler e cache))).
Proof.
  intros H. unfold PersonalCache.handler.
  destruct (PersonalCache.same_day _ _); [exact H|].
  destruct (PersonalCache.fetchBoth e) as [[l g]|msg];
    [eexists; reflexivity | exact H].
Qed.

Lemma slot_stays_along {E S : Type} (step : S -> E -> S) (filled : S -> Prop) :
  (forall (s : S) (e : E), filled s -> filled (step s e)) ->
  forall (es : list E) (s : S), filled s -> filled (foldl step s es).
Proof.
  intros Hstep es. induction es as [|e es IH]; intros s Hs; simpl;
    [exact Hs | apply IH, Hstep, Hs].
Qed.

Lemma differs_at (k : string) (r : Response) (b : Obj) :
  field r k <> b !! k -> body r <> Some b.
Proof. intros H Heq. apply H. unfold field. rewrite Heq. reflexivity. Qed.

(** X1.  Once a call has filled the cache slot, it is never empty again,
    whatever calls follow: the top-100 and the personal-data handlers answer
    200 from then on, and the market snapshot never sends its fallback
    payload again. *)
Theorem no_error_after_first_success :
  (forall (cache : CoinsCache.Cache) (es : list CoinsCache.Env)
          (e : CoinsCache.Env),
     is_Some (CoinsCache.data cache) ->
     status (response (CoinsCache.handler e
       (foldl (fun c e' => next (CoinsCache.handler e' c)) cache es))) = 200) /\
  (forall (cache : PersonalCache.Cache) (es : list PersonalCache.Env)
          (e : PersonalCache.Env),
     is_Some (PersonalCache.data cache) ->
     status (response (PersonalCache.handler e
       (foldl (fun c e' => next (PersonalCache.handler e' c)) cache es)))
     = 200) /\
  (forall (cache : MarketCache.Cache) (es : list MarketCache.Env)
          (e : MarketCache.Env),
     is_Some (MarketCache.data cache) ->
     body (response (MarketCache.handler e
       (foldl (fun c e' => next (MarketCache.handler e' c)) cache es)))
     <> Some (MarketCache.getFallbackData e)).
Proof.
  split; [|split].
  - intros cache es e H.
    pose proof (slot_stays_along
      (fun c e' => next (CoinsCache.handler e' c))
      (fun c => is_Some (CoinsCache.data c))
      (fun s e' => coins_slot_stays e' s) es cache H) as [d Hd].
    rewrite coins_status, Hd. reflexivity.
  - intros cache es e H.
    pose proof (slot_stays_along
      (fun c e' => next (PersonalCache.handler e' c))
      (fun c => is_Some (PersonalCache.data c))
      (fun s e' => personal_slot_stays e' s) es cache H) as [d Hd].
    rewrite personal_status, Hd. reflexivity.
  - intros cache es e H.
    pose proof (slot_stays_along
      (fun c e' => next (MarketCache.handler e' c))
      (fun c => is_Some (MarketCache.data c))
      (fun s e' => market_slot_stays e' s) es cache H) as [d Hd].
    set (slot := foldl _ cache es) in *.
    unfold MarketCache.handler.
    destruct (fresh_data _ _ _ _) as [d'|].
    + apply (differs_at "cacheAge"); cbn [response]; rewrite field_json.
      unfold hit_body. rewrite lookup_insert_eq. discriminate.
    + destruct (MarketCache.fetchBoth e) as [[p g]|msg].
      * apply (differs_at "fallback"); cbn [response].
        rewrite field_json, fresh_payload by discriminate.
        replace (MarketCache.freshData e p g !! "fallback") with (@None val)
          by (symmetry; unfold MarketCache.freshData; obj_field).
        discriminate.
      * apply (differs_at "stale"); cbn [response].
        rewrite Hd, field_json.
        rewrite (proj1 (proj2 (stale_marks _ _))). discriminate.
Qed.

(** A filled slot answers a call that is not a hit with the URLs of its
    fetch. *)
Lemma market_contacted (e : MarketCache.Env) (cache : MarketCache.Cache) :
  contacted (MarketCache.handler e cache) =
    match fresh_data (MarketCache.data cache) (MarketCache.timestamp cache)
            (MarketCache.now e) MarketCache.CACHE_DURATION with
    | Some _ => []
    | None => [MarketCache.prices_url; CoinGecko.global_url]
    end.
Proof.
  unfold MarketCache.handler. destruct (fresh_data _ _ _ _); [reflexivity|].
  destruct (MarketCache.fetchBoth e) as [[p g]|msg]; reflexivity.
Qed.

Lemma coins_contacted (e : CoinsCache.Env) (cache : CoinsCache.Cache) :
  contacted (CoinsCache.handler e cache) =
    match fresh_data (CoinsCache.data cache) (CoinsCache.timestamp cache)
            (CoinsCache.now e) CoinsCache.CACHE_DURATION with
    | Some _ => []
    | None => [CoinsCache.coins_url]
    end.
Proof.
  unfold CoinsCache.handler. destruct (fresh_data _ _ _ _); [reflexivity|].
  destruct (CoinsCache.fetchTop100Coins _); reflexivity.
Qed.

Lemma fresh_data_spec (d : Obj) (timestamp now duration : Z) :
  fresh_data (Some d) timestamp now duration =
    if now - timestamp <? duration then Some d else None.
Proof. reflexivity. Qed.

(** X2.  The freshness test is strict and is the only thing that decides
    whether the upstream is asked: with a filled slot, the market snapshot
    makes no request exactly when fewer than 300000 ms have passed since the
    slot was written, and otherwise requests each of its two URLs once; the
    top-100 handler likewise with 900000 ms and its one URL.  With an empty
    slot the upstream is always asked. *)
Theorem upstream_asked_iff_expired :
  (forall (e : MarketCache.Env) (cache : MarketCache.Cache),
     (is_Some (MarketCache.data cache) ->
        (contacted (MarketCache.handler e cache) = [] <->
           MarketCache.now e - MarketCache.timestamp cache < 300000)) /\
     (contacted (MarketCache.handler e cache) = [] \/
      contacted (MarketCache.handler e cache)
        = [MarketCache.prices_url; CoinGecko.global_url]) /\
     (MarketCache.data cache = None ->
        contacted (MarketCache.handler e cache)
        = [MarketCache.prices_url; CoinGecko.global_url])) /\
  (forall (e : CoinsCache.Env) (cache : CoinsCache.Cache),
     (is_Some (CoinsCache.data cache) ->
        (contacted (CoinsCache.handler e cache) = [] <->
           CoinsCache.now e - CoinsCache.timestamp cache < 900000)) /\
     (contacted (CoinsCache.handler e cache) = [] \/
      contacted (CoinsCache.handler e cache) = [CoinsCache.coins_url]) /\
     (CoinsCache.data cache = None ->
        contacted (CoinsCache.handler e cache) = [CoinsCache.coins_url])).
Proof.
  split; intros e cache.
  - rewrite market_contacted. split; [|split].
    + intros [d Hd]. rewrite Hd, fresh_data_spec.
      change MarketCache.CACHE_DURATION with 300000.
      destruct (Z.ltb_spec (MarketCache.now e - MarketCache.timestamp cache)
                  300000); split; intros H'; try reflexivity;
        try discriminate; lia.
    + destruct (fresh_data _ _ _ _); [left | right]; reflexivity.
    + intros Hd. rewrite Hd. reflexivity.
  - rewrite coins_contacted. split; [|split].
    + intros [d Hd]. rewrite Hd, fresh_data_spec.
      change CoinsCache.CACHE_DURATION with 900000.
      destruct (Z.ltb_spec (CoinsCache.now e - CoinsCache.timestamp cache)
                  900000); split; intros H'; try reflexivity;
        try discriminate; lia.
    + destruct (fresh_data _ _ _ _); [left | right]; reflexivity.
    + intros Hd. rewrite Hd. reflexivity.
Qed.

(** A slot written at t = 0 is still fresh at 299999 ms and expired at
    300000 ms. *)
Lemma upstream_asked_iff_expired_witness :
  let slot := next (MarketCache.handler (Sample.market_up 0)
                      MarketCache.cache0) in
  contacted (MarketCache.handler (Sample.market_up 299999) slot) = [] /\
  contacted (MarketCache.handler (Sample.market_up 300000) slot) <> [].
Proof.
  destruct upstream_asked_iff_expired as (H & _).
  split.
  - destruct (H (Sample.market_up 299999)
               (next (MarketCache.handler (Sample.market_up 0)
                        MarketCache.cache0))) as (Hiff & _).
    apply Hiff; [eexists; reflexivity | simpl; lia].
  - destruct (H (Sample.market_up 300000)
               (next (MarketCache.handler (Sample.market_up 0)
                        MarketCache.cache0))) as (Hiff & _).
    intros Hnil. apply Hiff in Hnil; [|eexists; reflexivity].
    simpl in Hnil. lia.
Defined.

Lemma no_error_after_first_success_witness :
  let slot := next (CoinsCache.handler (Sample.coins_up 0) CoinsCache.cache0) in
  status (response (CoinsCache.handler (Sample.coins_down 2000000)
    (foldl (fun c e' => next (CoinsCache.handler e' c)) slot
       [Sample.coins_down 1000000]))) = 200.
Proof.
  apply (proj1 no_error_after_first_success). eexists. reflexivity.
Defined.

(** X3.  The age reported by a cache hit is the elapsed time in seconds,
    rounded to the nearest second (half a second rounds up); when the clock
    has not gone backwards it lies between 0 and 300 for the market snapshot
    and between 0 and 900 for the top-100 coins. *)
Theorem cache_age_of_a_hit :
  (forall (e : MarketCache.Env) (cache : MarketCache.Cache),
     contacted (MarketCache.handler e cache) = [] ->
     let age := (MarketCache.now e - MarketCache.timestamp cache + 500) / 1000 in
     field (response (MarketCache.handler e cache)) "cacheAge" = Some (VZ age) /\
     (MarketCache.timestamp cache <= MarketCache.now e -> 0 <= age <= 300)) /\
  (forall (e : CoinsCache.Env) (cache : CoinsCache.Cache),
     contacted (CoinsCache.handler e cache) = [] ->
     let age := (CoinsCache.now e - CoinsCache.timestamp cache + 500) / 1000 in
     field (response (CoinsCache.handler e cache)) "cacheAge" = Some (VZ age) /\
     (CoinsCache.timestamp cache <= CoinsCache.now e -> 0 <= age <= 900)).
Proof.
  split; intros e cache Hhit age.
  - rewrite market_contacted in Hhit.
    destruct (fresh_data _ _ _ _) as [d|] eqn:Hslot; [|discriminate].
    rewrite (market_hit _ _ _ Hslot). cbn [response]. rewrite field_json.
    split.
    + unfold hit_body. rewrite lookup_insert_eq, cacheAge_seconds. reflexivity.
    + intros Hmono. unfold fresh_data in Hslot.
      destruct (MarketCache.data cache); [|discriminate]. simpl in Hslot.
      destruct (Z.ltb_spec (MarketCache.now e - MarketCache.timestamp cache)
                  MarketCache.CACHE_DURATION) as [Hlt|]; [|discriminate].
      change MarketCache.CACHE_DURATION with 300000 in Hlt. subst age. split.
      * apply Z.div_pos; lia.
      * apply Z.lt_succ_r, Z.div_lt_upper_bound; lia.
  - rewrite coins_contacted in Hhit.
    destruct (fresh_data _ _ _ _) as [d|] eqn:Hslot; [|discriminate].
    rewrite (coins_hit _ _ _ Hslot). cbn [response]. rewrite field_json.
    split.
    + unfold hit_body. rewrite lookup_insert_eq, cacheAge_seconds. reflexivity.
    + intros Hmono. unfold fresh_data in Hslot.
      destruct (CoinsCache.data cache); [|discriminate]. simpl in Hslot.
      destruct (Z.ltb_spec (CoinsCache.now e - CoinsCache.timestamp cache)
                  CoinsCache.CACHE_DURATION) as [Hlt|]; [|discriminate].
      change CoinsCache.CACHE_DURATION with 900000 in Hlt. subst age. split.
      * apply Z.div_pos; lia.
      * apply Z.lt_succ_r, Z.div_lt_upper_bound; lia.
Qed.

(** Asked again 299.5 s after the fetch, the market snapshot reports an age
    of 300 seconds. *)
Lemma cache_age_of_a_hit_witness :
  let slot := next (MarketCache.handler (Sample.market_up 0)
                      MarketCache.cache0) in
  field (response (MarketCache.handler (Sample.market_down 299500) slot))
    "cacheAge" = Some (VZ 300).
Proof.
  apply (proj1 cache_age_of_a_hit). reflexivity.
Defined.

(** ** The personal-data cache is keyed by the calendar day *)

Section PersonalByDay.

Import PersonalCache.

Lemma personal_hit (e : Env) (cache : Cache) (d : Obj) :
  same_day cache (Str.split0 "T" (iso_entry e)) = Some d ->
  handler e cache =
    {| response := json 200 (hit_body d (cacheAge (now e) (timestamp cache)));
       next := cache;
       contacted := [] |}.
Proof. intros H. unfold handler. rewrite H. reflexivity. Qed.

Lemma personal_contacted (e : Env) (cache : Cache) :
  contacted (handler e cache) =
    match same_day cache (Str.split0 "T" (iso_entry e)) with
    | Some _ => []
    | None => [coins_url; CoinGecko.global_url]
    end.
Proof.
  unfold handler. destruct (same_day _ _); [reflexivity|].
  destruct (fetchBoth e) as [[l g]|msg]; reflexivity.
Qed.

End PersonalByDay.

(** X4.  After a call of the personal-data handler has fetched
    successfully, a later call is answered from the cache exactly when its
    UTC date (the text of the ISO timestamp before "T") is the date of that
    fetch, however much or little time has passed: on the same date it makes
    no request and returns the same payload with [cached = true], on any
    other date it requests both upstream URLs again. *)
Theorem personal_cache_by_day
    (cache : PersonalCache.Cache) (e1 e2 : PersonalCache.Env) :
  contacted (PersonalCache.handler e1 cache) <> [] ->
  succeeded (PersonalCache.fetchBoth e1) = true ->
  let o1 := PersonalCache.handler e1 cache in
  let o2 := PersonalCache.handler e2 (next o1) in
  (contacted o2 = [] <->
     Str.split0 "T" (PersonalCache.iso_entry e2)
     = Str.split0 "T" (PersonalCache.iso_entry e1)) /\
  (contacted o2 = [] \/
   contacted o2 = [PersonalCache.coins_url; CoinGecko.global_url]) /\
  (contacted o2 = [] ->
     field (response o2) "cached" = Some (VBool true) /\
     forall k : string,
       k <> "cacheAge" -> k <> "cached" ->
       field (response o2) k = field (response o1) k).
Proof.
  intros Hwent Hok o1 o2.
  rewrite personal_contacted in Hwent.
  destruct (PersonalCache.same_day cache
              (Str.split0 "T" (PersonalCache.iso_entry e1))) as [d0|] eqn:Hslot;
    [contradiction|].
  destruct (PersonalCache.fetchBoth e1) as [[l g]|msg] eqn:Hfetch;
    [|discriminate].
  assert (Ho1 : o1 = PersonalCache.handler e1 cache) by reflexivity.
  unfold PersonalCache.handler in Ho1. rewrite Hslot, Hfetch in Ho1.
  set (today := Str.split0 "T" (PersonalCache.iso_entry e1)) in *.
  set (fresh := obj _) in Ho1.
  assert (Hday : forall day : string,
            PersonalCache.same_day (next o1) day
            = if bool_decide (Some today = Some day) then Some fresh else None).
  { intros day. rewrite Ho1. reflexivity. }
  subst o2. rewrite personal_contacted.
  split; [|split].
  - rewrite Hday. case_bool_decide as Hd.
    + split; [intros _; congruence | reflexivity].
    + split; [discriminate | intros Heq; exfalso; apply Hd; congruence].
  - destruct (PersonalCache.same_day (next o1)
                (Str.split0 "T" (PersonalCache.iso_entry e2)));
      [left | right]; reflexivity.
  - intros Hhit.
    destruct (PersonalCache.same_day (next o1)
                (Str.split0 "T" (PersonalCache.iso_entry e2))) as [d|] eqn:Hs;
      [|discriminate].
    rewrite (personal_hit _ _ _ Hs). cbn [response]. rewrite field_json.
    rewrite Hday in Hs. case_bool_decide; [|discriminate].
    injection Hs as <-.
    split; [apply hit_cached|].
    intros k H1 H2. rewrite Ho1. cbn [response].
    rewrite !field_json, hit_payload, fresh_payload by assumption.
    reflexivity.
Qed.

(** Fetched one second before midnight: a call two seconds later, on the
    next day, fetches again; a call a week of clock time later but stamped
    with the same date is served from the cache. *)
Lemma personal_cache_by_day_witness :
  let o1 := PersonalCache.handler
              (Cases.personal_up 0 "2025-01-05T23:59:59.000Z")
              PersonalCache.cache0 in
  contacted (PersonalCache.handler
               (Cases.personal_up 2000 "2025-01-06T00:00:01.000Z") (next o1))
    <> [] /\
  contacted (PersonalCache.handler
               (Cases.personal_up 604800000 "2025-01-05T00:00:00.000Z")
               (next o1)) = [].
Proof.
  split.
  - destruct (personal_cache_by_day PersonalCache.cache0
                (Cases.personal_up 0 "2025-01-05T23:59:59.000Z")
                (Cases.personal_up 2000 "2025-01-06T00:00:01.000Z"))
      as (Hiff & _); [discriminate | reflexivity |].
    intros H. apply Hiff in H. vm_compute in H. discriminate.
  - destruct (personal_cache_by_day PersonalCache.cache0
                (Cases.personal_up 0 "2025-01-05T23:59:59.000Z")
                (Cases.personal_up 604800000 "2025-01-05T00:00:00.000Z"))
      as (Hiff & _); [discriminate | reflexivity |].
    apply Hiff. reflexivity.
Defined.

(** ** What makes a fetch fail *)

Lemma standardize_succeeded (c : CoinGecko.Coin) :
  succeeded (CoinsCache.standardize c)
  = bool_decide (is_Some (CoinGecko.symbol c)).
Proof.
  unfold CoinsCache.standardize, CoinsCache.symbol_upper.
  destruct (CoinGecko.symbol c); reflexivity.
Qed.

Lemma standardize_entry (c : CoinGecko.Coin) (v : val) :
  CoinsCache.standardize c = Ok v ->
  exists (m : Obj) (s : string),
    v = VObj m /\ CoinGecko.symbol c = Some s /\
    (Str.all Str.is_ascii s = true ->
       m !! "symbol" = Some (VStr (Str.toUpperCase s))) /\
    m !! "id" = Some (opt_str (CoinGecko.id c)) /\
    m !! "price" = Some (opt_num (CoinGecko.current_price c)).
Proof.
  unfold CoinsCache.standardize, CoinsCache.symbol_upper.
  destruct (CoinGecko.symbol c) as [s|]; simpl; [|discriminate].
  intros [= <-]. eexists _, s. split; [reflexivity|]. split; [reflexivity|].
  split; [intros _|split]; obj_field.
Qed.

Lemma all_symbols (cs : list CoinGecko.Coin) :
  succeeded (map_exc CoinsCache.standardize cs)
  = forallb (fun c => bool_decide (is_Some (CoinGecko.symbol c))) cs.
Proof.
  rewrite map_exc_succeeded.
  induction cs as [|c cs IH]; simpl; [reflexivity|].
  rewrite standardize_succeeded, IH. reflexivity.
Qed.

(** What a successful fetch was given. *)
Lemma fetchTop100Coins_ok_inv
    (r : Reply (Body (list CoinGecko.Coin))) (l : list val) :
  CoinsCache.fetchTop100Coins r = Ok l ->
  exists (code : Z) (cs : list CoinGecko.Coin),
    r = Answered code (Ok (Doc cs)) /\ ok code = true /\
    map_exc CoinsCache.standardize cs = Ok l.
Proof.
  unfold CoinsCache.fetchTop100Coins.
  destruct r as [msg|code [[cs|msg]|msg]]; try discriminate;
    destruct (ok code) eqn:Hok; try discriminate.
  simpl. intros H. exists code, cs.
  split; [reflexivity|]. split; [exact Hok | exact H].
Qed.

(** X5.  The top-100 list is all or nothing.  The fetch succeeds exactly
    when the request is answered with an ok status, the body is an array of
    coin records, and every coin has a symbol.  On success there is one
    entry per coin, in the order of the list, with [id] and [price] as they
    came and the symbol (of ASCII characters) in upper case.  A single coin
    without a symbol fails the whole fetch, and so does a body that is no
    array of records: a cold handler then answers 500 although the
    upstream answered. *)
Theorem coins_list_all_or_nothing :
  (forall r : Reply (Body (list CoinGecko.Coin)),
     succeeded (CoinsCache.fetchTop100Coins r) = true <->
     exists (code : Z) (cs : list CoinGecko.Coin),
       r = Answered code (Ok (Doc cs)) /\ ok code = true /\
       forallb (fun c => bool_decide (is_Some (CoinGecko.symbol c))) cs
       = true) /\
  (forall (r : Reply (Body (list CoinGecko.Coin))) (l : list val),
     CoinsCache.fetchTop100Coins r = Ok l ->
     exists (code : Z) (cs : list CoinGecko.Coin),
       r = Answered code (Ok (Doc cs)) /\
       Forall2
         (fun c v =>
            exists (m : Obj) (s : string),
              v = VObj m /\ CoinGecko.symbol c = Some s /\
              (Str.all Str.is_ascii s = true ->
                 m !! "symbol" = Some (VStr (Str.toUpperCase s))) /\
              m !! "id" = Some (opt_str (CoinGecko.id c)) /\
              m !! "price" = Some (opt_num (CoinGecko.current_price c)))
         cs l) /\
  (forall (e : CoinsCache.Env) (code : Z) (cs : list CoinGecko.Coin)
          (c : CoinGecko.Coin),
     CoinsCache.coins e = Answered code (Ok (Doc cs)) ->
     c ∈ cs -> CoinGecko.symbol c = None ->
     status (response (CoinsCache.handler e CoinsCache.cache0)) = 500) /\
  (forall (e : CoinsCache.Env) (code : Z) (msg : string),
     CoinsCache.coins e = Answered code (Ok (Unusable msg)) ->
     status (response (CoinsCache.handler e CoinsCache.cache0)) = 500).
Proof.
  assert (Hiff : forall r : Reply (Body (list CoinGecko.Coin)),
     succeeded (CoinsCache.fetchTop100Coins r) = true <->
     exists (code : Z) (cs : list CoinGecko.Coin),
       r = Answered code (Ok (Doc cs)) /\ ok code = true /\
       forallb (fun c => bool_decide (is_Some (CoinGecko.symbol c))) cs
       = true).
  { intros r. split.
    - destruct (CoinsCache.fetchTop100Coins r) as [l|msg] eqn:E;
        [intros _ | discriminate].
      destruct (fetchTop100Coins_ok_inv r l E) as (code & cs & -> & Hok & Hm).
      exists code, cs. split; [reflexivity|]. split; [exact Hok|].
      rewrite <- all_symbols, Hm. reflexivity.
    - intros (code & cs & -> & Hok & Hall).
      unfold CoinsCache.fetchTop100Coins. rewrite Hok. simpl.
      rewrite all_symbols. exact Hall. }
  split; [exact Hiff|]. split; [|split].
  - intros r l E.
    destruct (fetchTop100Coins_ok_inv r l E) as (code & cs & -> & Hok & Hm).
    exists code, cs. split; [reflexivity|].
    apply map_exc_each in Hm.
    eapply Forall2_impl; [exact Hm|]. intros c v Hv.
    exact (standardize_entry c v Hv).
  - intros e code cs c Hreply Hin Hnone.
    rewrite coins_status. simpl.
    destruct (CoinsCache.fetchTop100Coins (CoinsCache.coins e)) eqn:E;
      [|reflexivity].
    exfalso.
    assert (Hs : succeeded (CoinsCache.fetchTop100Coins (CoinsCache.coins e))
                 = true) by (rewrite E; reflexivity).
    apply Hiff in Hs as (code' & cs' & Hr & _ & Hall).
    rewrite Hreply in Hr. injection Hr as _ <-.
    rewrite forallb_forall in Hall.
    apply list_elem_of_In in Hin. specialize (Hall c Hin).
    apply bool_decide_eq_true in Hall. rewrite Hnone in Hall.
    destruct Hall as [s Hs]. discriminate.
  - intros e code msg Hreply.
    rewrite coins_status. simpl.
    destruct (CoinsCache.fetchTop100Coins (CoinsCache.coins e)) eqn:E;
      [|reflexivity].
    exfalso.
    assert (Hs : succeeded (CoinsCache.fetchTop100Coins (CoinsCache.coins e))
                 = true) by (rewrite E; reflexivity).
    apply Hiff in Hs as (code' & cs' & Hr & _).
    rewrite Hreply in Hr. discriminate.
Qed.

(** A delivered list of two coins, the second without a symbol. *)
Lemma coins_list_all_or_nothing_witness :
  status (response (CoinsCache.handler (Cases.coins_malformed 0)
                      CoinsCache.cache0)) = 500.
Proof.
  destruct coins_list_all_or_nothing as (_ & _ & H & _).
  apply (H (Cases.coins_malformed 0) 200 [Sample.bitcoin; Cases.nameless]
           Cases.nameless).
  - reflexivity.
  - apply list_elem_of_In. right. left. reflexivity.
  - reflexivity.
Defined.

(** What a successful fetch was given. *)
Lemma fetchPrices_ok_inv
    (r : Reply (Body CoinGecko.SimplePrice)) (p : Obj) :
  MarketCache.fetchPrices r = Ok p ->
  exists (code : Z) (doc : CoinGecko.SimplePrice),
    r = Answered code (Ok (Doc doc)) /\ ok code = true.
Proof.
  unfold MarketCache.fetchPrices.
  destruct r as [msg|code [[doc|msg]|msg]]; try discriminate;
    destruct (ok code) eqn:Hok; try discriminate.
  intros _. exists code, doc. split; [reflexivity | exact Hok].
Qed.

Lemma fetchGlobalData_ok_inv
    (r : Reply (Body CoinGecko.Global)) (g : val) :
  MarketCache.fetchGlobalData r = Ok g ->
  exists (code : Z) (doc : CoinGecko.Global),
    r = Answered code (Ok (Doc doc)) /\ ok code = true.
Proof.
  unfold MarketCache.fetchGlobalData.
  destruct r as [msg|code [[doc|msg]|msg]]; try discriminate;
    destruct (ok code) eqn:Hok; try discriminate.
  intros _. exists code, doc. split; [reflexivity | exact Hok].
Qed.

(** X6.  What fails the market snapshot and what does not.  The fetch
    succeeds exactly when both requests are answered with an ok status and a
    body that is an object; a body on which the code raises (JSON [null])
    fails it like a refused request.  Fields that an object leaves out never
    fail it: every number left out is reported as 0 (a price document
    without the coin gives price, change and market cap 0; a global
    document without [data] gives six zeros). *)
Theorem market_fetch_defaults :
  (forall e : MarketCache.Env,
     succeeded (MarketCache.fetchBoth e) = true <->
     exists (c1 c2 : Z) (p : CoinGecko.SimplePrice) (g : CoinGecko.Global),
       MarketCache.prices e = Answered c1 (Ok (Doc p)) /\ ok c1 = true /\
       MarketCache.global e = Answered c2 (Ok (Doc g)) /\ ok c2 = true) /\
  (forall (code : Z) (doc : CoinGecko.SimplePrice) (p : Obj),
     MarketCache.fetchPrices (Answered code (Ok (Doc doc))) = Ok p ->
     (CoinGecko.bitcoin doc = None ->
        p !! "btc" = Some (VObj (obj [("price", VZ 0); ("change24h", VZ 0);
                                      ("marketCap", VZ 0)]))) /\
     (CoinGecko.ethereum doc = None ->
        p !! "eth" = Some (VObj (obj [("price", VZ 0); ("change24h", VZ 0);
                                      ("marketCap", VZ 0)])))) /\
  (forall (code : Z) (doc : CoinGecko.Global) (g : val),
     MarketCache.fetchGlobalData (Answered code (Ok (Doc doc))) = Ok g ->
     CoinGecko.data doc = None ->
     g = VObj (obj [("totalMarketCap", VZ 0); ("totalVolume24h", VZ 0);
                    ("marketCapChange24h", VZ 0); ("btcDominance", VZ 0);
                    ("ethDominance", VZ 0); ("activeCryptos", VZ 0)])).
Proof.
  split; [|split].
  - intros e. unfold MarketCache.fetchBoth. split.
    + destruct (MarketCache.fetchPrices _) as [p|] eqn:Ep; [|discriminate].
      destruct (MarketCache.fetchGlobalData _) as [g|] eqn:Eg;
        [|discriminate].
      intros _.
      destruct (fetchPrices_ok_inv _ _ Ep) as (c1 & dp & Hp & H1).
      destruct (fetchGlobalData_ok_inv _ _ Eg) as (c2 & dg & Hg & H2).
      exists c1, c2, dp, dg. repeat split; assumption.
    + intros (c1 & c2 & p & g & -> & H1 & -> & H2).
      unfold MarketCache.fetchPrices, MarketCache.fetchGlobalData.
      rewrite H1, H2. reflexivity.
  - intros code doc p. unfold MarketCache.fetchPrices.
    destruct (negb (ok code)); [discriminate|]. simpl. intros [= <-].
    split; intros Hnone; rewrite Hnone.
    + obj_field.
    + obj_field.
  - intros code doc g. unfold MarketCache.fetchGlobalData.
    destruct (negb (ok code)); [discriminate|]. simpl. intros [= <-] Hnone.
    rewrite Hnone. reflexivity.
Qed.

Lemma market_fetch_defaults_witness :
  exists p : Obj,
    MarketCache.fetchPrices
      (Answered 200 (Ok (Doc {| CoinGecko.bitcoin := None;
                                CoinGecko.ethereum := None |}))) = Ok p /\
    p !! "btc" = Some (VObj (obj [("price", VZ 0); ("change24h", VZ 0);
                                  ("marketCap", VZ 0)])).
Proof.
  eexists. split; [reflexivity|].
  apply (proj1 (proj2 market_fetch_defaults) 200
           {| CoinGecko.bitcoin := None; CoinGecko.ethereum := None |} _
           eq_refl).
  reflexivity.
Defined.

(** ** The readings of the daily metrics *)

Lemma Qle_bool_cases (a b : Q) :
  (Qle_bool a b = true /\ (a <= b)%Q) \/ (Qle_bool a b = false /\ (b < a)%Q).
Proof.
  destruct (Qle_bool a b) eqn:E.
  - left. split; [reflexivity | apply Qle_bool_iff; exact E].
  - right. split; [reflexivity|]. apply Qnot_le_lt. intros H.
    apply Qle_bool_iff in H. congruence.
Qed.

Ltac qcases a b :=
  let H := fresh "Hcmp" in
  let E := fresh "Ecmp" in
  destruct (Qle_bool_cases a b) as [[E H]|[E H]]; rewrite ?E; clear E.

Section Readings.

Import TheNumber.



End Readings.



Section Funding.

Import TheNumber.









End Funding.



Section OpenInterestReading.

Import TheNumber.

Lemma openInterest_bands (totalOI : Q) :
  ((20 * billion < totalOI)%Q ->
     (openInterestReading (Fin totalOI)).1 = "elevated-risk") /\
  ((15 * billion < totalOI)%Q /\ (totalOI <= 20 * billion)%Q ->
     (openInterestReading (Fin totalOI)).1 = "normal") /\
  ((totalOI <= 15 * billion)%Q ->
     (openInterestReading (Fin totalOI)).1 = "low-leverage").
Proof.
  unfold openInterestReading, gt.
  qcases totalOI (20 * billion)%Q; qcases totalOI (15 * billion)%Q; simpl;
    repeat split; intros; try reflexivity; exfalso;
    unfold billion in *; lra.
Qed.

Lemma getOpenInterest_delivered (e : Env) (code : Z) (doc : OpenInterest) :
  open_interest e = Answered code (Ok doc) -> ok code = true ->
  getOpenInterest e =
    match oi_data doc ≫=
            List.find (fun d => bool_decide (oi_symbol d = Some "BTC"))
    with
    | Some btcData => openInterestOf btcData
    | None => getFallbackOpenInterest
    end.
Proof.
  intros Hreply Hok. unfold getOpenInterest, openInterest_try.
  rewrite Hreply, Hok. simpl.
  destruct (oi_data doc ≫= _); reflexivity.
Qed.

End OpenInterestReading.

(** X9.  Open interest, when CoinGlass delivers a document.  Without a BTC
    entry the answer is the fallback payload.  With one, the answer has
    source "coinglass"; the figure is divided by 1e9 as doubles are, and
    the quotient (below 1e21) is printed with one decimal; the reading
    looks at the figure itself: "elevated-risk" above 20 billion, "normal"
    above 15 billion, "low-leverage" otherwise.  A BTC entry whose figures
    are [null] counts as 0: shown as 0.0, low-leverage, change +0.0% 24h. *)
Theorem open_interest_payload
    (e : TheNumber.Env) (code : Z) (doc : TheNumber.OpenInterest) :
  TheNumber.open_interest e = Answered code (Ok doc) -> ok code = true ->
  match TheNumber.oi_data doc ≫=
          List.find (fun d => bool_decide (TheNumber.oi_symbol d = Some "BTC"))
  with
  | None => TheNumber.getOpenInterest e = TheNumber.getFallbackOpenInterest
  | Some btcData =>
      let totalOI := Double.read (TheNumber.openInterest btcData) in
      let o := TheNumber.getOpenInterest e in
      o !! "source" = Some (VStr "coinglass") /\
      (forall q : Q,
         Double.div totalOI (Fin TheNumber.billion) = Fin q ->
         (Qabs q < 1000000000000000000000)%Q ->
         o !! "value" = Some (VStr (Q_toFixed 1 q))) /\
      (forall t : Q,
         totalOI = Fin t ->
         ((20 * TheNumber.billion < t)%Q ->
            o !! "interpretation" = Some (VStr "elevated-risk")) /\
         ((15 * TheNumber.billion < t)%Q /\ (t <= 20 * TheNumber.billion)%Q ->
            o !! "interpretation" = Some (VStr "normal")) /\
         ((t <= 15 * TheNumber.billion)%Q ->
            o !! "interpretation" = Some (VStr "low-leverage"))) /\
      (TheNumber.openInterest btcData = None ->
       TheNumber.h24Change btcData = None ->
         o !! "value" = Some (VStr "0.0") /\
         o !! "interpretation" = Some (VStr "low-leverage") /\
         o !! "subtitle" = Some (VStr "+0.0% 24h"))
  end.
Proof.
  intros Hreply Hok.
  rewrite (getOpenInterest_delivered e code doc Hreply Hok).
  destruct (TheNumber.oi_data doc ≫= _) as [btcData|]; [|reflexivity].
  intros totalOI o. subst o. unfold TheNumber.openInterestOf. fold totalOI.
  split; [obj_field|]. split; [|split].
  - intros q Hq _. rewrite Hq. obj_field.
  - intros t Ht. rewrite Ht.
    destruct (openInterest_bands t) as (A & B & C).
    repeat split; intros H.
    + rewrite <- (A H). obj_field.
    + rewrite <- (B H). obj_field.
    + rewrite <- (C H). obj_field.
  - intros H1 H2. subst totalOI. rewrite H1, H2. repeat split; obj_field.
Qed.

(** On a Thursday with a BTC figure of 18450000000: the double nearest to
    18.45 lies below it, and the figure is shown as 18.4. *)
Lemma open_interest_payload_witness :
  TheNumber.getOpenInterest (Cases.thursday (Some 18450000000%Q) None)
    !! "value" = Some (VStr "18.4").
Proof.
  pose proof (open_interest_payload
                (Cases.thursday (Some 18450000000%Q) None) 200 _
                eq_refl eq_refl) as H.
  cbn [TheNumber.oi_data mbind option_bind List.find TheNumber.oi_symbol
       bool_decide] in H.
  destruct H as (_ & H & _).
  apply (H (5193213320311603 # 281474976710656)%Q);
    vm_compute; reflexivity.
Defined.

Section StablecoinReading.

Import TheNumber.

Lemma stablecoin_bands (avg : Q) :
  ((1 # 2 < avg)%Q -> (stablecoinReading (Fin avg)).1 = "accumulating") /\
  ((- (1 # 2) < avg)%Q /\ (avg <= 1 # 2)%Q ->
     (stablecoinReading (Fin avg)).1 = "neutral") /\
  ((avg <= - (1 # 2))%Q -> (stablecoinReading (Fin avg)).1 = "deploying").
Proof.
  unfold stablecoinReading, gt.
  qcases avg (1 # 2)%Q; qcases avg (- 1 # 2)%Q; simpl;
    repeat split; intros; try reflexivity; exfalso; lra.
Qed.

Lemma getStablecoinSupply_delivered
    (e : Env) (code : Z) (coins : list CoinGecko.Coin) :
  stablecoins e = Answered code (Ok coins) -> ok code = true ->
  getStablecoinSupply e = stablecoinOf coins.
Proof.
  intros Hreply Hok. unfold getStablecoinSupply, stablecoin_try.
  rewrite Hreply, Hok. reflexivity.
Qed.

Lemma stablecoinChange_cases (a : Q) :
  ((a == 0)%Q -> stablecoinChange (Fin a) = VNull) /\
  (~ (a == 0)%Q ->
     stablecoinChange (Fin a)
       = VStr ((if Qle_bool 0 a then "+" else EmptyString)
                 +:+ Q_toFixed 2 a +:+ "% 24h")).
Proof.
  unfold stablecoinChange, Qis0. split; intros H.
  - apply Qeq_eq_bool in H. rewrite H. reflexivity.
  - destruct (Qeq_bool a 0) eqn:E; [|reflexivity].
    apply Qeq_bool_eq in E. contradiction.
Qed.

End StablecoinReading.

(** X10.  Stablecoin supply, when CoinGecko delivers a list of coins: the
    answer is built from the list, whatever it holds, with source
    "coingecko".  The 24-hour change is the average of the coins' figures as
    doubles compute it (summed from the left, [null] counting as 0, divided
    by the count); it is read as "accumulating" above 0.5, "neutral" above
    -0.5 and "deploying" otherwise, and it is shown (below 1e21) with two
    decimals and a sign unless it is exactly 0, in which case no change is
    shown.  A
    delivered empty list is not answered with the fallback: the average is
    0/0, so the payload reads "deploying", shows the change as NaN% and
    both named coins as "?". *)
Theorem stablecoin_payload
    (e : TheNumber.Env) (code : Z) (coins : list CoinGecko.Coin) :
  TheNumber.stablecoins e = Answered code (Ok coins) -> ok code = true ->
  let o := TheNumber.getStablecoinSupply e in
  let avgChange := TheNumber.averageChange coins in
  o !! "source" = Some (VStr "coingecko") /\
  (coins = [] ->
     avgChange = NaN /\
     o !! "value" = Some (VStr "0") /\
     o !! "interpretation" = Some (VStr "deploying") /\
     o !! "change" = Some (VStr "NaN% 24h") /\
     o !! "subtitle" = Some (VStr "USDT: $?B · USDC: $?B")) /\
  (forall a : Q,
     avgChange = Fin a ->
     ((1 # 2 < a)%Q -> o !! "interpretation" = Some (VStr "accumulating")) /\
     ((- (1 # 2) < a)%Q /\ (a <= 1 # 2)%Q ->
        o !! "interpretation" = Some (VStr "neutral")) /\
     ((a <= - (1 # 2))%Q -> o !! "interpretation" = Some (VStr "deploying")) /\
     ((a == 0)%Q -> o !! "change" = Some VNull) /\
     (~ (a == 0)%Q -> (Qabs a < 1000000000000000000000)%Q ->
        o !! "change"
          = Some (VStr ((if Qle_bool 0 a then "+" else EmptyString)
                          +:+ Q_toFixed 2 a +:+ "% 24h")))).
Proof.
  intros Hreply Hok o avgChange. subst o.
  rewrite (getStablecoinSupply_delivered e code coins Hreply Hok).
  split; [obj_field|]. split.
  - intros ->. split; [reflexivity|]. repeat split; obj_field.
  - intros a Ha.
    assert (Hi : TheNumber.stablecoinOf coins !! "interpretation"
                 = Some (VStr (TheNumber.stablecoinReading (Fin a)).1)).
    { unfold TheNumber.stablecoinOf. cbv zeta. fold avgChange. rewrite Ha.
      obj_field. }
    assert (Hc : TheNumber.stablecoinOf coins !! "change"
                 = Some (TheNumber.stablecoinChange (Fin a))).
    { unfold TheNumber.stablecoinOf. cbv zeta. fold avgChange. rewrite Ha.
      obj_field. }
    rewrite Hi, Hc.
    destruct (stablecoin_bands a) as (A & B & C).
    destruct (stablecoinChange_cases a) as (Z0 & NZ).
    split; [intros H; rewrite (A H); reflexivity|].
    split; [intros H; rewrite (B H); reflexivity|].
    split; [intros H; rewrite (C H); reflexivity|].
    split; [intros H; rewrite (Z0 H) | intros H _; rewrite (NZ H)];
      reflexivity.
Qed.

(** On a Friday with three coins that moved by 0.1, 0.2 and -0.3 per cent:
    the doubles do not cancel, and a change of +0.00% is shown. *)
Lemma stablecoin_payload_witness :
  TheNumber.getStablecoinSupply
    (Cases.friday [ Cases.stable "usdt" 1 (1 # 10);
                    Cases.stable "usdc" 1 (2 # 10);
                    Cases.stable "dai" 1 (- 3 # 10) ])
    !! "change" = Some (VStr "+0.00% 24h").
Proof.
  pose proof (stablecoin_payload
                (Cases.friday [ Cases.stable "usdt" 1 (1 # 10);
                                Cases.stable "usdc" 1 (2 # 10);
                                Cases.stable "dai" 1 (- 3 # 10) ])
                200 _ eq_refl eq_refl) as H.
  destruct H as (_ & _ & H).
  destruct (H (6004799503160661 # 324518553658426726783156020576256)%Q ltac:(vm_compute; reflexivity))
    as (_ & _ & _ & _ & Hc).
  rewrite Hc; [vm_compute; reflexivity | | reflexivity].
  unfold Qeq. simpl. lia.
Defined.

Section FearGreedHistory.

Import TheNumber.


End FearGreedHistory.



(** ** Doubles: rounding keeps the order *)

Lemma pow2_pos (k : Z) : (0 < Double.pow2 k)%Q.
Proof. apply Qpower_0_lt. reflexivity. Qed.

Lemma pow2_add (a b : Z) : (Double.pow2 (a + b) == Double.pow2 a * Double.pow2 b)%Q.
Proof. apply Qpower_plus. discriminate. Qed.

Lemma pow2_le (a b : Z) : a <= b -> (Double.pow2 a <= Double.pow2 b)%Q.
Proof. intros H. apply Qpower_le_compat_l; [exact H | discriminate]. Qed.

Lemma pow2_lt_inv (a b : Z) : (Double.pow2 a < Double.pow2 b)%Q -> a < b.
Proof. intros H. apply (Qpower_lt_compat_l_inv 2); [exact H | reflexivity]. Qed.

Lemma pow2_Z (k : Z) : 0 <= k -> (Double.pow2 k == inject_Z (2 ^ k))%Q.
Proof. intros H. symmetry. apply (Zpower_Qpower 2 k H). Qed.

Lemma rne_cases (x : Q) : Double.rne x = Qfloor x \/ Double.rne x = Qfloor x + 1.
Proof.
  unfold Double.rne. destruct (Qcompare _ _); [|left; reflexivity|right; reflexivity].
  destruct (Z.even _); [left|right]; reflexivity.
Qed.

Lemma rne_Z (z : Z) : Double.rne (inject_Z z) = z.
Proof.
  unfold Double.rne. rewrite Qfloor_Z.
  assert (H : (inject_Z z - inject_Z z ?= 1 # 2)%Q = Lt).
  { apply (proj1 (Qlt_alt _ _)). lra. }
  rewrite H. reflexivity.
Qed.

Lemma rne_mono (x y : Q) : (x <= y)%Q -> Double.rne x <= Double.rne y.
Proof.
  intros Hxy. pose proof (Qfloor_resp_le x y Hxy) as Hf.
  destruct (Z.eq_dec (Qfloor x) (Qfloor y)) as [E|N].
  - unfold Double.rne. rewrite <- E.
    destruct (Qcompare (x - inject_Z (Qfloor x)) (1 # 2)) eqn:Cx;
      destruct (Qcompare (y - inject_Z (Qfloor x)) (1 # 2)) eqn:Cy;
      try (destruct (Z.even (Qfloor x))); try lia;
      exfalso;
      try apply (proj2 (Qeq_alt _ _)) in Cx; try apply (proj2 (Qlt_alt _ _)) in Cx;
      try apply (proj2 (Qgt_alt _ _)) in Cx;
      try apply (proj2 (Qeq_alt _ _)) in Cy; try apply (proj2 (Qlt_alt _ _)) in Cy;
      try apply (proj2 (Qgt_alt _ _)) in Cy;
      lra.
  - destruct (rne_cases x) as [-> | ->], (rne_cases y) as [-> | ->]; lia.
Qed.

Lemma Q_as_div (q : Q) : (q == inject_Z (Qnum q) / inject_Z (Z.pos (Qden q)))%Q.
Proof. destruct q as [n d]. simpl. apply Qmake_Qdiv. Qed.

Lemma log2_pow2 (n : Z) :
  0 < n ->
  (Double.pow2 (Z.log2 n) <= inject_Z n)%Q /\ (inject_Z n < Double.pow2 (Z.log2 n + 1))%Q.
Proof.
  intros Hn. destruct (Z.log2_spec n Hn) as [H1 H2].
  pose proof (Z.log2_nonneg n) as H0.
  rewrite !pow2_Z by lia. rewrite <- Zle_Qle, <- Zlt_Qlt.
  unfold Z.succ in H2. split; assumption.
Qed.

Lemma ilog2_spec (q : Q) :
  (0 < q)%Q -> (Double.pow2 (Double.ilog2 q) <= q)%Q /\ (q < Double.pow2 (Double.ilog2 q + 1))%Q.
Proof.
  intros Hq.
  assert (Hn : 0 < Qnum q).
  { destruct q as [n d]. unfold Qlt in Hq. simpl in *. lia. }
  destruct (log2_pow2 (Qnum q) Hn) as [Ha1 Ha2].
  destruct (log2_pow2 (Z.pos (Qden q)) ltac:(lia)) as [Hb1 Hb2].
  set (a := Z.log2 (Qnum q)) in *. set (b := Z.log2 (Z.pos (Qden q))) in *.
  assert (HD : (0 < inject_Z (Z.pos (Qden q)))%Q) by (rewrite <- (Zlt_Qlt 0); lia).
  pose proof (Q_as_div q) as Hdiv.
  set (N := inject_Z (Qnum q)) in *. set (D := inject_Z (Z.pos (Qden q))) in *.
  unfold Double.ilog2. fold a b.
  destruct (Qle_bool (Double.pow2 (a - b)) q) eqn:E.
  - split; [apply Qle_bool_iff; exact E|].
    rewrite Hdiv. apply Qlt_shift_div_r; [exact HD|].
    apply Qlt_le_trans with (Double.pow2 (a + 1)); [exact Ha2|].
    replace (a + 1) with ((a - b + 1) + b) by lia. rewrite pow2_add.
    apply Qmult_le_l; [apply pow2_pos | exact Hb1].
  - replace (a - b - 1 + 1) with (a - b) by lia. split.
    + rewrite Hdiv. apply Qle_shift_div_l; [exact HD|].
      apply Qle_trans with (Double.pow2 a); [|exact Ha1].
      replace a with ((a - b - 1) + (b + 1)) at 2 by lia. rewrite pow2_add.
      apply Qmult_le_l; [apply pow2_pos | apply Qlt_le_weak; exact Hb2].
    + apply Qnot_le_lt. intros H. apply Qle_bool_iff in H. congruence.
Qed.

Lemma ilog2_unique (q : Q) (e : Z) :
  (Double.pow2 e <= q)%Q -> (q < Double.pow2 (e + 1))%Q -> Double.ilog2 q = e.
Proof.
  intros H1 H2.
  assert (Hq : (0 < q)%Q) by (pose proof (pow2_pos e); lra).
  destruct (ilog2_spec q Hq) as [H3 H4].
  assert (Double.ilog2 q < e + 1) by (apply pow2_lt_inv; lra).
  assert (e < Double.ilog2 q + 1) by (apply pow2_lt_inv; lra).
  lia.
Qed.

Lemma ilog2_mono (p q : Q) : (0 < p)%Q -> (p <= q)%Q -> Double.ilog2 p <= Double.ilog2 q.
Proof.
  intros Hp Hpq.
  destruct (ilog2_spec p Hp) as [H1 _].
  destruct (ilog2_spec q ltac:(lra)) as [_ H2].
  assert (Double.ilog2 p < Double.ilog2 q + 1) by (apply pow2_lt_inv; lra). lia.
Qed.

Lemma scaled (q : Q) (a s : Z) :
  (q / Double.pow2 s == q * Double.pow2 (- s))%Q.
Proof.
  unfold Double.pow2. rewrite Qpower_opp. reflexivity.
Qed.

Lemma pow2_ratio (a s : Z) : (Double.pow2 a / Double.pow2 s == Double.pow2 (a - s))%Q.
Proof. symmetry. apply Qpower_minus. discriminate. Qed.

Lemma nearest_mono (p q : Q) :
  (0 < p)%Q -> (p <= q)%Q -> (Double.nearest p <= Double.nearest q)%Q.
Proof.
  intros Hp Hpq. assert (Hq : (0 < q)%Q) by lra.
  pose proof (ilog2_mono p q Hp Hpq) as He.
  unfold Double.nearest.
  set (s1 := Double.ulp_exp p). set (s2 := Double.ulp_exp q).
  assert (Hs : s1 <= s2) by (unfold s1, s2, Double.ulp_exp; lia).
  pose proof (pow2_pos s1) as P1. pose proof (pow2_pos s2) as P2.
  destruct (Z.eq_dec s1 s2) as [E|N].
  - rewrite <- E. apply Qmult_le_compat_r; [|lra].
    rewrite <- Zle_Qle. apply rne_mono.
    apply Qmult_le_compat_r; [exact Hpq | apply Qlt_le_weak, Qinv_lt_0_compat, P1].
  - assert (Hs2 : s2 = Double.ilog2 q - 52) by (unfold s1, s2, Double.ulp_exp in *; lia).
    assert (He1 : Double.ilog2 p + 1 <= Double.ilog2 q) by (unfold s1, s2, Double.ulp_exp in *; lia).
    destruct (ilog2_spec p Hp) as [_ Hp2]. destruct (ilog2_spec q Hq) as [Hq1 _].
    apply Qle_trans with (Double.pow2 (Double.ilog2 q)).
    + (* Double.nearest p <= 2^e2 *)
      assert (Hk : 0 <= Double.ilog2 q - s1) by lia.
      assert (Hr : Double.rne (p / Double.pow2 s1) <= 2 ^ (Double.ilog2 q - s1)).
      { rewrite <- (rne_Z (2 ^ (Double.ilog2 q - s1))). apply rne_mono.
        rewrite <- pow2_Z by exact Hk. rewrite <- pow2_ratio.
        apply Qmult_le_compat_r; [|apply Qlt_le_weak, Qinv_lt_0_compat, P1].
        apply Qle_trans with (Double.pow2 (Double.ilog2 p + 1)); [lra | apply pow2_le; lia]. }
      rewrite Zle_Qle in Hr. rewrite <- pow2_Z in Hr by exact Hk.
      apply Qle_trans with (Double.pow2 (Double.ilog2 q - s1) * Double.pow2 s1)%Q.
      * apply Qmult_le_compat_r; [exact Hr | lra].
      * rewrite <- pow2_add. apply pow2_le. lia.
    + (* 2^e2 <= Double.nearest q *)
      assert (Hr : 2 ^ 52 <= Double.rne (q / Double.pow2 s2)).
      { rewrite <- (rne_Z (2 ^ 52)) at 1. apply rne_mono.
        rewrite <- pow2_Z by lia.
        replace 52 with (Double.ilog2 q - s2) by lia. rewrite <- pow2_ratio.
        apply Qmult_le_compat_r; [exact Hq1|apply Qlt_le_weak, Qinv_lt_0_compat, P2]. }
      rewrite Zle_Qle in Hr. rewrite <- pow2_Z in Hr by lia.
      apply Qle_trans with (Double.pow2 52 * Double.pow2 s2)%Q.
      * rewrite <- pow2_add. apply pow2_le. lia.
      * apply Qmult_le_compat_r; [exact Hr | lra].
Qed.

(** A number that is a double already. *)
Lemma Qabs_nonneg_eq (q : Q) : (0 <= q)%Q -> Qabs q = q.
Proof.
  destruct q as [n d]. unfold Qle. cbn [Qnum Qden Qabs]. intros H.
  rewrite Z.abs_eq by lia. reflexivity.
Qed.

Lemma nearest_nonneg (q : Q) : (0 <= q)%Q -> (0 <= Double.nearest q)%Q.
Proof.
  intros Hq. unfold Double.nearest.
  pose proof (pow2_pos (Double.ulp_exp q)) as Hp.
  apply Qmult_le_0_compat; [|lra].
  rewrite <- (Zle_Qle 0). rewrite <- (rne_Z 0). apply rne_mono.
  apply Qmult_le_0_compat; [exact Hq|].
  apply Qlt_le_weak, Qinv_lt_0_compat, Hp.
Qed.

(** Rounding does not cross a double: a result that is at least 0 and at
    most a double [hi] is rounded to a number between 0 and [hi]. *)
Lemma of_Q_within (q hi : Q) :
  (0 <= q)%Q -> (q <= hi)%Q ->
  (Double.nearest hi == hi)%Q -> (hi < Double.pow2 1024)%Q ->
  exists r : Q, Double.of_Q q = Fin r /\ (0 <= r)%Q /\ (r <= hi)%Q.
Proof.
  intros Hq Hhi Hrep Hfin. unfold Double.of_Q.
  destruct (Qis0 q) eqn:E0.
  - exists 0%Q. split; [reflexivity|]. split; lra.
  - assert (Hpos : (0 < q)%Q).
    { apply Qle_lt_or_eq in Hq as [H|H]; [exact H|].
      unfold Qis0 in E0. rewrite (Qeq_eq_bool q 0) in E0; [discriminate|].
      symmetry. exact H. }
    rewrite (Qabs_nonneg_eq q Hq).
    pose proof (nearest_mono q hi Hpos Hhi) as Hm.
    pose proof (nearest_nonneg q Hq) as Hn.
    assert (Hb : Qle_bool (Double.pow2 1024) (Double.nearest q) = false).
    { destruct (Qle_bool _ _) eqn:E; [|reflexivity].
      apply Qle_bool_iff in E. exfalso. lra. }
    rewrite Hb. unfold Qneg. rewrite (proj2 (Qle_bool_iff 0 q) Hq).
    cbn [negb]. eexists. split; [reflexivity|].
    rewrite Qred_correct. split; lra.
Qed.



Lemma dmul_within (x c hi : Q) :
  (0 <= x)%Q -> (0 <= c)%Q -> (x * c <= hi)%Q ->
  (Double.nearest hi == hi)%Q -> (hi < Double.pow2 1024)%Q ->
  exists r : Q,
    Double.mul (Fin x) (Fin c) = Fin r /\ (0 <= r)%Q /\ (r <= hi)%Q.
Proof.
  intros Hx Hc Hle Hrep Hfin. unfold Double.mul, JS.mul, Double.rnd.
  apply of_Q_within; try assumption; rewrite Qred_correct; [|exact Hle].
  apply Qmult_le_0_compat; assumption.
Qed.

Lemma ddiv_within (x c hi : Q) :
  (0 <= x)%Q -> (0 < c)%Q -> (x <= hi * c)%Q ->
  (Double.nearest hi == hi)%Q -> (hi < Double.pow2 1024)%Q ->
  exists r : Q,
    Double.div (Fin x) (Fin c) = Fin r /\ (0 <= r)%Q /\ (r <= hi)%Q.
Proof.
  intros Hx Hc Hle Hrep Hfin. unfold Double.div, JS.div, Double.rnd.
  rewrite (Qis0_false c Hc).
  apply of_Q_within; try assumption; rewrite Qred_correct.
  - apply Qle_shift_div_l; [exact Hc | lra].
  - apply Qle_shift_div_r; [exact Hc | exact Hle].
Qed.

(** ** The market mood *)

Lemma request_succeeded {A} (r : Reply A) (failure : string) :
  succeeded (MarketMood.request r failure) = delivered r.
Proof.
  unfold MarketMood.request, delivered.
  destruct r as [msg|code payload]; [reflexivity|].
  destruct (ok code); reflexivity.
Qed.

Lemma request_ok_inv {A} (r : Reply A) (failure : string) (b : A) :
  MarketMood.request r failure = Ok b <->
  exists c : Z, r = Answered c (Ok b) /\ ok c = true.
Proof.
  unfold MarketMood.request. split.
  - destruct r as [msg|c payload]; [discriminate|].
    destruct (ok c) eqn:Hc; cbn [negb]; [|discriminate].
    intros ->. exists c. split; [reflexivity | exact Hc].
  - intros (c & -> & ->). reflexivity.
Qed.

Lemma mood_success (e : MarketMood.Env) (doc : CoinGecko.Global)
    (cs : list CoinGecko.Coin) :
  field (json 200 (MarketMood.mood e doc cs)) "success" = Some (VBool true).
Proof. rewrite field_json. unfold MarketMood.mood. obj_field. Qed.

Lemma mood_failure (msg : string) :
  field (json 200 (MarketMood.moodFallback msg)) "success"
  = Some (VBool false).
Proof. rewrite field_json. unfold MarketMood.moodFallback. obj_field. Qed.

(** X12.  The market-mood handler asks for the global document first and for
    the coin list only once the first request has been answered with an ok
    status and a body that parses, whatever it parses to: after a failed
    first request the second upstream is not contacted at all.  A preflight
    ([OPTIONS]) request is answered with an empty 200 and contacts nothing.
    The answer says [success: true] exactly when both requests are answered
    with an ok status and a body that the handler can use, and the history
    file, if it can be read, is usable too; in every other case it says
    [success: false]. *)
Theorem mood_requests_in_order (e : MarketMood.Env) :
  let r := MarketMood.handler e tt in
  (MarketMood.method e = "OPTIONS" ->
     response r = {| status := 200; body := None |} /\ contacted r = []) /\
  (MarketMood.method e <> "OPTIONS" ->
     contacted r
       = (if delivered (MarketMood.global e)
          then [CoinGecko.global_url; MarketMood.coins_url]
          else [CoinGecko.global_url]) /\
     (field (response r) "success" = Some (VBool true) \/
      field (response r) "success" = Some (VBool false)) /\
     (field (response r) "success" = Some (VBool true) <->
        exists (c1 c2 : Z) (doc : CoinGecko.Global)
               (cs : list CoinGecko.Coin),
          MarketMood.global e = Answered c1 (Ok (Doc doc)) /\ ok c1 = true /\
          MarketMood.coins e = Answered c2 (Ok (Doc cs)) /\ ok c2 = true /\
          MarketMood.history_unusable e = None)).
Proof.
  intros r. subst r. split.
  - intros H. unfold MarketMood.handler.
    rewrite bool_decide_eq_true_2 by exact H. split; reflexivity.
  - intros H. unfold MarketMood.handler.
    rewrite bool_decide_eq_false_2 by exact H.
    rewrite <- (request_succeeded (MarketMood.global e)
                  "Failed to fetch global data").
    destruct (MarketMood.request (MarketMood.global e) _) as [gb|msg] eqn:Hg;
      cbn [succeeded contacted response].
    2:{ split; [reflexivity|]. split; [right; apply mood_failure|].
        rewrite mood_failure. split; [discriminate|].
        intros (c1 & c2 & doc & cs & Hg' & Hc1 & _).
        assert (Hreq : MarketMood.request (MarketMood.global e)
                         "Failed to fetch global data" = Ok (Doc doc))
          by (apply request_ok_inv; eauto).
        congruence. }
    split; [reflexivity|].
    apply request_ok_inv in Hg as (c1 & Hg & Hc1).
    destruct (MarketMood.request (MarketMood.coins e) _) as [cb|msg] eqn:Hc;
      cbn [mbind exc_bind try_catch].
    2:{ split; [right; apply mood_failure|].
        rewrite mood_failure. split; [discriminate|].
        intros (c1' & c2 & doc & cs & _ & _ & Hc' & Hc2 & _).
        assert (Hreq : MarketMood.request (MarketMood.coins e)
                         "Failed to fetch coins data" = Ok (Doc cs))
          by (apply request_ok_inv; eauto).
        congruence. }
    apply request_ok_inv in Hc as (c2 & Hc & Hc2).
    destruct cb as [cs|msg]; cbn [use mbind exc_bind try_catch].
    2:{ split; [right; apply mood_failure|].
        rewrite mood_failure. split; [discriminate|].
        intros (? & ? & ? & ? & _ & _ & Hc' & _). congruence. }
    destruct gb as [doc|msg]; cbn [use mbind exc_bind try_catch].
    2:{ split; [right; apply mood_failure|].
        rewrite mood_failure. split; [discriminate|].
        intros (? & ? & ? & ? & Hg' & _). congruence. }
    unfold MarketMood.use_history.
    destruct (MarketMood.history_unusable e) as [msg|] eqn:Hh;
      cbn [mbind exc_bind try_catch].
    + split; [right; apply mood_failure|].
      rewrite mood_failure. split; [discriminate|].
      intros (? & ? & ? & ? & _ & _ & _ & _ & Hn). discriminate.
    + split; [left; apply mood_success|].
      rewrite mood_success. split; [intros _; eauto 10 | reflexivity].
Qed.

(** A [GET] whose first request is refused, and one whose coin list is not a
    list. *)
Lemma mood_requests_in_order_witness :
  contacted
    (MarketMood.handler
       {| MarketMood.method := "GET";
          MarketMood.iso := Sample.midnight;
          MarketMood.global := Answered 429 (Throw "Unexpected token");
          MarketMood.coins := Answered 200 (Ok (Doc [Sample.bitcoin]));
          MarketMood.history_file := None;
          MarketMood.history_unusable := None |} tt)
  = [CoinGecko.global_url] /\
  field (response
    (MarketMood.handler
       {| MarketMood.method := "GET";
          MarketMood.iso := Sample.midnight;
          MarketMood.global := Answered 200 (Ok (Doc Sample.global_doc));
          MarketMood.coins :=
            Answered 200 (Ok (Unusable "coins.filter is not a function"));
          MarketMood.history_file := None;
          MarketMood.history_unusable := None |} tt)) "success"
  = Some (VBool false).
Proof.
  split.
  - match goal with
    | |- contacted (MarketMood.handler ?e tt) = _ =>
        destruct (mood_requests_in_order e) as (_ & H)
    end.
    destruct H as (H & _); [discriminate | exact H].
  - match goal with
    | |- field (response (MarketMood.handler ?e tt)) _ = _ =>
        destruct (mood_requests_in_order e) as (_ & H)
    end.
    destruct H as (_ & [H|H] & Hiff); [discriminate| |exact H].
    exfalso. apply Hiff in H.
    destruct H as (? & ? & ? & ? & _ & _ & Hc & _). discriminate.
Defined.

Section Mood.

Import MarketMood.

(** A difference of a number with itself never exceeds one half. *)
Lemma sub_self_small (x : num) : gt (abs (Double.sub x x)) half = false.
Proof.
  destruct x as [|s|q]; [reflexivity| destruct s; reflexivity |].
  unfold Double.sub, sub, neg, add, Double.rnd, Double.of_Q.
  assert (H : Qis0 (Qred (q + Qred (- q))) = true).
  { unfold Qis0. apply Qeq_eq_bool. rewrite !Qred_correct. ring. }
  rewrite H. reflexivity.
Qed.

Lemma whole_is_double :
  (Double.nearest 1 == 1)%Q /\ (Double.nearest 100 == 100)%Q /\
  (Double.nearest 1000 == 1000)%Q /\ (1000 < Double.pow2 1024)%Q.
Proof. repeat split; vm_compute; reflexivity. Qed.

(** Rounding to one decimal keeps a number between 0 and 100. *)
Lemma round1_within (x : Q) :
  (0 <= x)%Q -> (x <= 100)%Q ->
  exists q : Q, round1 (Fin x) = Fin q /\ (0 <= q)%Q /\ (q <= 100)%Q.
Proof.
  intros Hlo Hhi. unfold round1.
  destruct whole_is_double as (_ & H100 & H1000 & Hfin).
  destruct (dmul_within x 10 1000) as (y & Hy & Hy0 & Hy1);
    try assumption; try lra.
  change (of_Z 10) with (Fin 10). rewrite Hy. cbn [round].
  unfold of_Z at 1.
  pose proof (Qfloor_le (y + (1 # 2))) as Hfl.
  pose proof (Qlt_floor (y + (1 # 2))) as Hfu.
  unfold Qround_half_up.
  set (z := Qfloor (y + (1 # 2))) in *.
  assert (Hz : 0 <= z <= 1000).
  { split.
    - apply Z.lt_succ_r. rewrite Zlt_Qlt. unfold Z.succ.
      change (inject_Z 0) with 0%Q. lra.
    - apply Z.lt_succ_r. rewrite Zlt_Qlt. unfold Z.succ.
      rewrite inject_Z_plus in *.
      change (inject_Z 1000) with 1000%Q. change (inject_Z 1) with 1%Q in *.
      lra. }
  destruct Hz as [Hz0 Hz1]. rewrite Zle_Qle in Hz0, Hz1.
  change (inject_Z 0) with 0%Q in Hz0.
  change (inject_Z 1000) with 1000%Q in Hz1.
  apply ddiv_within; try assumption; lra.
Qed.

Lemma green_share (g n : nat) :
  (g <= n)%nat -> (0 < n)%nat ->
  exists b : Q,
    Double.mul (Double.div (of_Z (Z.of_nat g)) (of_Z (Z.of_nat n))) (of_Z 100)
    = Fin b /\
    (0 <= b)%Q /\ (b <= 100)%Q.
Proof.
  intros Hg Hn.
  destruct whole_is_double as (H1 & H100 & _ & Hfin).
  assert (H0 : (0 <= inject_Z (Z.of_nat g))%Q)
    by (rewrite <- (Zle_Qle 0); lia).
  assert (Hgn : (inject_Z (Z.of_nat g) <= inject_Z (Z.of_nat n))%Q)
    by (rewrite <- Zle_Qle; lia).
  assert (H2 : (0 < inject_Z (Z.of_nat n))%Q)
    by (rewrite <- (Zlt_Qlt 0); lia).
  destruct (ddiv_within (inject_Z (Z.of_nat g)) (inject_Z (Z.of_nat n)) 1)
    as (q & Hq & Hq0 & Hq1); try assumption; try lra.
  unfold of_Z at 1 2. rewrite Hq. change (of_Z 100) with (Fin 100).
  apply dmul_within; try assumption; lra.
Qed.

End Mood.

(** X13.  What the market mood reports on success.  With at least one coin
    delivered the breadth is a percentage between 0 and 100; an empty coin
    list gives a breadth that is not a number.  The 24-hour trail is never
    empty: without stored hourly points it is the current point alone, and
    with stored points it is those points, in order, followed by at most the
    current point.  The reported number of hourly data points is the length
    of that trail. *)
Theorem mood_breadth_and_trail
    (e : MarketMood.Env) (doc : CoinGecko.Global)
    (coins : list CoinGecko.Coin) :
  let o := MarketMood.mood e doc coins in
  let history :=
    default {| MarketMood.hourly := []; MarketMood.daily := [] |}
            (MarketMood.history_file e) in
  let stored := MarketMood.of_history <$> MarketMood.hourly history in
  (coins <> [] ->
     exists b : Q,
       o !! "breadth" = Some (VNum (Fin b)) /\ (0 <= b)%Q /\ (b <= 100)%Q) /\
  (coins = [] -> o !! "breadth" = Some (VNum NaN)) /\
  (exists (trail : list (num * num)) (current : num * num),
     o !! "trail" = Some (VArr (MarketMood.point <$> trail)) /\
     o !! "dataPoints"
       = Some (VObj (obj
           [("hourly", VZ (Z.of_nat (length trail)));
            ("daily", VZ (Z.of_nat (length (MarketMood.daily history))))])) /\
     (stored = [] -> trail = [current]) /\
     (stored <> [] -> trail = stored \/ trail = stored ++ [current])).
Proof.
  intros o history stored. subst o stored.
  assert (Hb : MarketMood.mood e doc coins !! "breadth"
    = Some (VNum (MarketMood.round1
        (Double.mul
           (Double.div
              (of_Z (Z.of_nat (length (filter
                 (fun c => gt (Double.read
                    (CoinGecko.price_change_percentage_24h c)) (of_Z 0) = true)
                 coins))))
              (of_Z (Z.of_nat (length coins))))
           (of_Z 100))))).
  { unfold MarketMood.mood. obj_field. }
  split; [|split].
  - intros Hne. rewrite Hb.
    destruct (green_share
                (length (filter
                   (fun c => gt (Double.read
                      (CoinGecko.price_change_percentage_24h c)) (of_Z 0)
                      = true) coins))
                (length coins)) as (b0 & -> & Hlo & Hhi).
    { apply length_filter. }
    { destruct coins; [contradiction | simpl; lia]. }
    destruct (round1_within b0 Hlo Hhi) as (b & -> & Hb0 & Hb1).
    exists b. split; [reflexivity | split; assumption].
  - intros ->. rewrite Hb. reflexivity.
  - unfold MarketMood.mood. cbv zeta. fold history.
    rewrite (length_fmap MarketMood.of_history (MarketMood.daily history)).
    eexists. eexists. split; [obj_field|]. split; [obj_field|].
    destruct (MarketMood.hourly history) as [|p ps].
    + cbn [last]. rewrite !sub_self_small. cbn [orb].
      split; [intros _; reflexivity | intros H; contradiction H; reflexivity].
    + split; [discriminate|]. intros _.
      destruct (last _) as [lastPoint|]; [|right; reflexivity].
      destruct (_ || _); [right | left]; reflexivity.
Qed.

(** One coin delivered and no history file. *)
Lemma mood_breadth_and_trail_witness :
  exists b : Q,
    MarketMood.mood
      {| MarketMood.method := "GET";
         MarketMood.iso := Sample.midnight;
         MarketMood.global := Answered 200 (Ok (Doc Sample.global_doc));
         MarketMood.coins := Answered 200 (Ok (Doc [Sample.bitcoin]));
         MarketMood.history_file := None;
         MarketMood.history_unusable := None |}
      Sample.global_doc [Sample.bitcoin] !! "breadth" = Some (VNum (Fin b)) /\
    (0 <= b)%Q /\ (b <= 100)%Q.
Proof.
  match goal with
  | |- exists b, MarketMood.mood ?e ?d ?c !! _ = _ /\ _ =>
      destruct (mood_breadth_and_trail e d c) as (H & _)
  end.
  apply H. discriminate.
Defined.

(** ** ETF flows *)

Section Etf.

Import EtfFlows.

Lemma transform_week (e : Env) (data : Flows) :
  exists week : list val,
    transformed e data !! "week" = Some (VArr week) /\
    (1 <= length week <= 5)%nat.
Proof.
  unfold transformed. cbv zeta.
  match goal with
  | |- context [zip_with day_obj day_names ?a] =>
      pose proof (length_zip_with day_obj day_names a) as Hlen;
      destruct (zip_with day_obj day_names a) as [|d week] eqn:Hweek
  end.
  - exists mockWeek. split; [obj_field | simpl; lia].
  - exists (d :: week). split; [obj_field|].
    change (length day_names) with 5%nat in Hlen.
    cbn [length] in Hlen |- *. lia.
Qed.

Lemma mock_week (e : Env) :
  getMockData e !! "week" = Some (VArr mockWeek).
Proof. unfold getMockData. obj_field. Qed.

Lemma mock_source (e : Env) :
  getMockData e !! "source" = Some (VStr "mock").
Proof. unfold getMockData. obj_field. Qed.

Lemma transformed_source (e : Env) (data : Flows) :
  transformed e data !! "source" = Some (VStr "sosovalue").
Proof. unfold transformed. obj_field. Qed.

(** The handler answers with the transformed document or with the mock
    data. *)
Lemma etf_cases (e : Env) :
  (exists (code : Z) (data : Flows),
     Str.truthy (apiKey e) = true /\
     flows e = Answered code (Ok (Doc data)) /\ ok code = true /\
     response (handler e tt) = json 200 (transformed e data)) \/
  ((~ exists (code : Z) (data : Flows),
      Str.truthy (apiKey e) = true /\
      flows e = Answered code (Ok (Doc data)) /\ ok code = true) /\
   response (handler e tt) = json 200 (getMockData e)).
Proof.
  unfold handler.
  destruct (Str.truthy (apiKey e)) eqn:Hkey; cbn [negb response].
  2:{ right. split; [|reflexivity]. intros (c & d & H & _). discriminate. }
  destruct (flows e) as [msg|code [[data|msg]|msg]] eqn:Hf.
  - right. split; [|reflexivity]. intros (c & d & _ & H & _). discriminate.
  - destruct (ok code) eqn:Hok; cbn [negb].
    + left. exists code, data. repeat split; try reflexivity; assumption.
    + right. split; [|reflexivity]. intros (c & d & _ & H & Hc).
      injection H as H1 H2. subst c. congruence.
  - right. split; [|destruct (negb (ok code)); reflexivity].
    intros (c & d & _ & H & _). discriminate.
  - right. split; [|destruct (negb (ok code)); reflexivity].
    intros (c & d & _ & H & _). discriminate.
Qed.

End Etf.

(** X14.  The ETF-flows handler.  Without an API key (unset or empty) it
    answers with the mock data and contacts no upstream; with a key it asks
    SoSoValue once.  The status is always 200.  The answer is marked
    [source: "sosovalue"] exactly when a key is configured, the upstream
    answered with an ok status, and the body is an object with the days, if
    any, in an array of objects; in every other case (also when the
    transformation raises on the body and catches its own exception) the
    body is the mock data.  Whatever the upstream sends, the week in the
    answer has between one and five days. *)
Theorem etf_source_and_week (e : EtfFlows.Env) :
  let r := EtfFlows.handler e tt in
  let live :=
    exists (code : Z) (data : EtfFlows.Flows),
      Str.truthy (EtfFlows.apiKey e) = true /\
      EtfFlows.flows e = Answered code (Ok (Doc data)) /\ ok code = true in
  contacted r
    = (if Str.truthy (EtfFlows.apiKey e) then [EtfFlows.flows_url] else []) /\
  status (response r) = 200 /\
  (field (response r) "source" = Some (VStr "sosovalue") <-> live) /\
  (~ live -> body (response r) = Some (EtfFlows.getMockData e)) /\
  (exists week : list val,
     field (response r) "week" = Some (VArr week) /\
     (1 <= length week <= 5)%nat).
Proof.
  intros r live. subst r live.
  split.
  { unfold EtfFlows.handler.
    destruct (Str.truthy (EtfFlows.apiKey e)); reflexivity. }
  destruct (etf_cases e) as [(code & data & Hkey & Hf & Hok & Hr)|[Hno Hr]];
    rewrite Hr.
  - split; [reflexivity|]. split; [|split].
    + rewrite field_json, transformed_source.
      split; [intros _; exists code, data; auto | reflexivity].
    + intros H. exfalso. apply H. exists code, data. auto.
    + rewrite field_json. apply transform_week.
  - split; [reflexivity|]. split; [|split].
    + rewrite field_json, mock_source. split; [discriminate|].
      intros H. contradiction.
    + intros _. reflexivity.
    + rewrite field_json. exists EtfFlows.mockWeek.
      split; [apply mock_week | simpl; lia].
Qed.

Section Consecutive.

Import EtfFlows.

(** [(amount || 0) > 0] is [amount > 0]. *)
Lemma inflow_or0 (a : Q) :
  negb (Qle_bool (or0 (Some a)) 0) = negb (Qle_bool a 0).
Proof.
  unfold or0, Qis0. destruct (Qeq_bool a 0) eqn:E; [|reflexivity].
  apply Qeq_bool_eq in E. f_equal. symmetry.
  change (Qle_bool 0 0) with true. apply Qle_bool_iff. rewrite E.
  discriminate.
Qed.

Lemma countConsecutive_from_prefix (l : list Q) (isInflow : bool) :
  let n := countConsecutive_from l isInflow in
  (n <= length l)%nat /\
  Forall (fun a => negb (Qle_bool a 0) = isInflow) (take n l) /\
  (forall a, l !! n = Some a -> negb (Qle_bool a 0) <> isInflow).
Proof.
  induction l as [|a l IH]; cbn [countConsecutive_from length].
  - split; [lia|]. split; [constructor | intros a; discriminate].
  - cbv zeta in IH |- *. rewrite inflow_or0.
    destruct (Bool.eqb (negb (Qle_bool a 0)) isInflow) eqn:E.
    + apply Bool.eqb_prop in E. destruct IH as (IH1 & IH2 & IH3).
      split; [lia|]. split; [constructor; assumption | exact IH3].
    + split; [lia|]. split; [constructor|].
      intros b [= <-] H. rewrite H, Bool.eqb_reflx in E. discriminate.
Qed.

End Consecutive.

(** X15.  [countConsecutive] measures the run of days at the end of the week
    that go the same way as yesterday: the last [n] days of the week all
    agree with [isInflow] (inflow meaning an amount above 0), and the day
    just before them, if there is one, does not. *)
Theorem countConsecutive_is_the_final_run (week : list Q) (isInflow : bool) :
  let agrees (a : Q) := negb (Qle_bool a 0) = isInflow in
  let n := EtfFlows.countConsecutive week isInflow in
  (n <= length week)%nat /\
  Forall agrees (drop (length week - n) week) /\
  (forall a : Q,
     (n < length week)%nat ->
     week !! (length week - S n)%nat = Some a -> ~ agrees a).
Proof.
  intros agrees n. subst n. unfold EtfFlows.countConsecutive.
  destruct (countConsecutive_from_prefix (reverse week) isInflow)
    as (H1 & H2 & H3).
  cbv zeta in H1, H2, H3. rewrite length_reverse in H1.
  split; [exact H1|]. split.
  - rewrite take_reverse, Forall_reverse in H2. exact H2.
  - intros a Hlt Ha. apply H3.
    rewrite reverse_lookup by exact Hlt. exact Ha.
Qed.

(** A week ending in two days of inflows after a day of outflows. *)
Lemma countConsecutive_is_the_final_run_witness :
  EtfFlows.countConsecutive [215; 380; -120; 290; 438]%Q true = 2%nat /\
  ~ (negb (Qle_bool (-120) 0) = true).
Proof.
  split; [reflexivity|].
  destruct (countConsecutive_is_the_final_run
              [215; 380; -120; 290; 438]%Q true) as (_ & _ & H).
  apply (H (-120)%Q); [vm_compute; lia | reflexivity].
Defined.

(** A key is configured and SoSoValue answers 200 with the body [null]. *)
Lemma etf_source_and_week_witness :
  body (response (EtfFlows.handler (Cases.etf_null "key") tt))
  = Some (EtfFlows.getMockData (Cases.etf_null "key")).
Proof.
  destruct (etf_source_and_week (Cases.etf_null "key")) as (_ & _ & _ & H & _).
  apply H. intros (code & data & _ & Hf & _). discriminate.
Defined.

(** ** The podcast feed: dates and identifiers *)

Section FeedDates.

Import Breakdown.

Variable e : Env.

Lemma episode_outcome (item : string) :
  if Feed.dated e item then succeeded (episode e item) = true
  else episode e item = Throw "Invalid time value".
Proof.
  unfold Feed.dated, episode. cbv zeta.
  destruct (Str.truthy (extractAttribute (itemContent item) "enclosure" "url"));
    cbn [negb orb]; [|reflexivity].
  destruct (Str.truthy (extractTag (itemContent item) "pubDate" false));
    cbn [negb orb]; [|reflexivity].
  destruct (dateISO e _) as [date|]; reflexivity.
Qed.

Lemma episodes_outcome (items : list string) :
  if forallb (Feed.dated e) items then succeeded (episodes e items) = true
  else episodes e items = Throw "Invalid time value".
Proof.
  induction items as [|item rest IH]; cbn [forallb episodes]; [reflexivity|].
  pose proof (episode_outcome item) as Hitem.
  destruct (Feed.dated e item); cbn [andb].
  - destruct (episode e item) as [ep|msg]; [|discriminate].
    cbn [mbind exc_bind].
    destruct (forallb (Feed.dated e) rest).
    + destruct (episodes e rest) as [eps|msg]; [reflexivity | discriminate].
    + rewrite IH. reflexivity.
  - rewrite Hitem. reflexivity.
Qed.

End FeedDates.

(** X16.  One unreadable date loses the whole feed.  With the feed
    delivered, the answer is 200 exactly when every item that has an audio
    URL and a publication date has a date that can be printed; a single item
    that fails this, wherever it stands in the feed, turns the answer into a
    500 with the message of the date error.  Items without an audio URL are
    skipped before their date is looked at. *)
Theorem one_bad_date_fails_the_feed
    (e : Breakdown.Env) (code : Z) (xml : string) :
  Breakdown.feed e = Answered code (Ok xml) -> ok code = true ->
  let items := tail (Str.split "<item>" xml) in
  let r := response (Breakdown.handler e tt) in
  status r = (if forallb (Feed.dated e) items then 200 else 500) /\
  (forallb (Feed.dated e) items = false ->
     field r "message" = Some (VStr "Invalid time value")).
Proof.
  intros Hfeed Hok items r. subst r.
  unfold Breakdown.handler, Breakdown.feed_text. cbn [response].
  rewrite Hfeed, Hok. cbn [negb mbind exc_bind].
  unfold Breakdown.parseRSS. fold items.
  pose proof (episodes_outcome e items) as H.
  destruct (forallb (Feed.dated e) items).
  - destruct (Breakdown.episodes e items) as [eps|msg]; [|discriminate].
    split; [reflexivity | discriminate].
  - rewrite H. split; [reflexivity|]. intros _.
    cbn [mbind exc_bind try_catch]. rewrite field_json. obj_field.
Qed.

(** A feed whose only episode carries a date that cannot be read. *)
Lemma one_bad_date_fails_the_feed_witness :
  status (response (Breakdown.handler
    (Sample.podcast_env
       "<rss><channel><title>Show</title><item><title>Ep</title><pubDate>soon</pubDate><enclosure url='http://e/a.mp3'/></item></channel></rss>")
    tt)) = 500.
Proof.
  destruct (one_bad_date_fails_the_feed
    (Sample.podcast_env
       "<rss><channel><title>Show</title><item><title>Ep</title><pubDate>soon</pubDate><enclosure url='http://e/a.mp3'/></item></channel></rss>")
    200 _ eq_refl eq_refl) as (H & _).
  exact H.
Defined.

Section Identifiers.

Import Regex.

(** A run of the class never fails to match. *)
Lemma many_then_end (ic : bool) (c : cls) (s start : string)
    (cap : option string) :
  is_Some (run ic [Many c] s start cap).
Proof.
  induction s as [|a s IH]; cbn [run]; [eexists; reflexivity|].
  destruct (in_cls c a); [|eexists; reflexivity].
  cbn [run] in IH. destruct IH as [m ->]. eexists; reflexivity.
Qed.

(** What a run of the class leaves is not longer than what it was given. *)
Lemma many_rest (ic : bool) (c : cls) (s start rest : string)
    (cap cap' : option string) :
  run ic [Many c] s start cap = Some (cap', rest) ->
  (String.length rest <= String.length s)%nat.
Proof.
  revert rest cap'. induction s as [|a s IH]; intros rest cap'; cbn [run].
  - intros [= _ <-]. reflexivity.
  - cbn [run] in IH. destruct (in_cls c a).
    + match goal with
      | |- context [match ?m with Some _ => _ | None => _ end] =>
          destruct m as [[cap1 rest1]|] eqn:Hm
      end.
      * intros [= _ <-]. specialize (IH _ _ eq_refl). cbn [String.length]. lia.
      * intros [= _ <-]. reflexivity.
    + intros [= _ <-]. reflexivity.
Qed.

Lemma all_app (P : ascii -> bool) (s t : string) :
  Str.all P (s +:+ t) = Str.all P s && Str.all P t.
Proof.
  induction s as [|a s IH]; simpl; [reflexivity|].
  rewrite IH. apply andb_assoc.
Qed.

(** Replacing every run of a class, [s.replace(/c+/g, rep)]. *)
Section Runs.

Variable c : cls.
Variable rep : string.
Variables P Q : ascii -> bool.

Hypothesis rep_fits : Str.all P rep = true.
Hypothesis kept_fits :
  forall a : ascii, in_cls c a = false -> Q a = true -> P a = true.

(** Where [/c+/] does not match, a character outside the class stands. *)
Lemma no_match_here (a : ascii) (s : string) :
  match_here {| icase := false; atoms := [One c; Many c] |} (String a s) = None -> in_cls c a = false.
Proof.
  unfold match_here. cbn [icase atoms].
  cbn [run]. destruct (in_cls c a); [|reflexivity].
  intros H. destruct (many_then_end false c s EmptyString None) as [m Hm].
  cbn [run] in Hm. rewrite Hm in H. discriminate.
Qed.

(** A match of [/c+/] takes at least one character. *)
Lemma match_here_takes (a : ascii) (s rest : string) (cap : option string) :
  match_here {| icase := false; atoms := [One c; Many c] |} (String a s)
  = Some (cap, rest) ->
  (String.length rest <= String.length s)%nat.
Proof.
  unfold match_here. cbn [icase atoms].
  change (run false [One c; Many c] (String a s) EmptyString None)
    with (if in_cls c a
          then run false [Many c] s EmptyString None
          else None).
  destruct (in_cls c a); [|discriminate].
  apply many_rest.
Qed.

Lemma replace_runs (s : string) (skip : nat) :
  Str.all Q s = true ->
  Str.all P (replace_go {| icase := false; atoms := [One c; Many c] |} rep skip s)
  = true.
Proof.
  revert skip. induction s as [|a s IH]; intros skip HQ; cbn [replace_go].
  - destruct skip; [|reflexivity].
    destruct (match_here _ _); [exact rep_fits | reflexivity].
  - cbn [Str.all] in HQ. apply andb_true_iff in HQ as [Ha Hs].
    destruct skip as [|k]; [|apply IH; exact Hs].
    destruct (match_here {| icase := false; atoms := [One c; Many c] |}
                (String a s)) as [[cap rest]|] eqn:Hm.
    + apply match_here_takes in Hm.
      destruct (String.length (String a s) - String.length rest)%nat eqn:Hlen.
      * cbn [String.length] in Hlen. lia.
      * rewrite all_app, rep_fits, IH by exact Hs. reflexivity.
    + apply no_match_here in Hm. cbn [Str.all].
      rewrite IH by exact Hs. rewrite (kept_fits a Hm Ha). reflexivity.
Qed.

End Runs.

Lemma all_true (s : string) : Str.all (fun _ => true) s = true.
Proof. induction s as [|a s IH]; [reflexivity | exact IH]. Qed.

Lemma replace_go_id_chars (s : string) (skip : nat) :
  Str.all Feed.id_char (replace_go Breakdown.notLowerAlnums "-" skip s) = true.
Proof.
  apply (replace_runs NotLowerAlnum "-" Feed.id_char (fun _ => true));
    [reflexivity | | apply all_true].
  intros a Hm _. unfold Feed.id_char. cbn [in_cls] in Hm.
  apply negb_false_iff in Hm. rewrite Hm. reflexivity.
Qed.

End Identifiers.

Lemma take_length (n : nat) (s : string) :
  (String.length (Str.take n s) <= n)%nat.
Proof.
  unfold Str.take. revert s. induction n as [|n IH]; intros [|a s]; simpl;
    try lia.
  specialize (IH s). lia.
Qed.

Lemma take_all (P : ascii -> bool) (n : nat) (s : string) :
  Str.all P s = true -> Str.all P (Str.take n s) = true.
Proof.
  unfold Str.take. revert s. induction n as [|n IH]; intros [|a s]; simpl;
    try reflexivity.
  intros H. apply andb_true_iff in H as [Ha Hs].
  rewrite Ha. exact (IH s Hs).
Qed.

Lemma generateId_shape (title : string) :
  Str.all Feed.id_char (Breakdown.generateId title) = true /\
  (String.length (Breakdown.generateId title) <= 50)%nat.
Proof.
  unfold Breakdown.generateId. split; [|apply take_length].
  apply take_all. apply replace_go_id_chars.
Qed.

(** X17.  Identifier and summary of an episode.  The summary is cut to at
    most 300 characters.  The identifier is the item's guid; when the guid
    is missing or empty it is made from the title by [generateId], and is
    then at most 50 characters long and consists of lower-case letters,
    digits and hyphens only. *)
Theorem episode_id_and_summary
    (e : Breakdown.Env) (item : string) (ep : val) :
  Breakdown.episode e item = Ok (Some ep) ->
  exists (m : Obj) (id summary : string),
    ep = VObj m /\
    m !! "id" = Some (VStr id) /\
    m !! "summary" = Some (VStr summary) /\
    (String.length summary <= 300)%nat /\
    (forall guid : string,
       Breakdown.extractTag (Breakdown.itemContent item) "guid" false
         = Some guid -> guid <> EmptyString -> id = guid) /\
    (Str.truthy (Breakdown.extractTag (Breakdown.itemContent item) "guid" false)
       = false ->
     Str.all Feed.id_char id = true /\ (String.length id <= 50)%nat).
Proof.
  unfold Breakdown.episode. cbv zeta.
  destruct (Str.truthy (Breakdown.extractAttribute _ "enclosure" "url"));
    [|discriminate].
  match goal with
  | |- context [mbind _ ?d] => destruct d as [pubDateISO|msg]
  end; cbn [mbind exc_bind]; [|discriminate].
  intros [= <-]. eexists _, _, _.
  split; [reflexivity|]. split; [obj_field|]. split; [obj_field|].
  split; [apply take_length|]. split.
  - intros guid -> Hne. destruct guid; [contradiction | reflexivity].
  - intros Hguid.
    destruct (Breakdown.extractTag _ "guid" false) as [[|a g]|];
      try discriminate; cbn [Str.or_else]; apply generateId_shape.
Qed.

(** The episode of the plain sample feed, which has no guid. *)
Lemma episode_id_and_summary_witness :
  exists id : string,
    Str.all Feed.id_char id = true /\ (String.length id <= 50)%nat.
Proof.
  destruct (episode_id_and_summary
              (Sample.podcast_env Sample.feed_xml_plain)
              "<title>Ep 1</title><enclosure url='http://e/a.mp3'/></item></channel></rss>"
              _ eq_refl) as (m & id & summary & _ & _ & _ & _ & _ & H).
  exists id. apply H. reflexivity.
Defined.

(** ** The client's formatting helpers *)

Section Chart.

Import Client.

Lemma percentToX_cases (pct : Q) :
  ((pct <= - (94 # 5))%Q /\ (percentToX pct == 2)%Q) \/
  ((- (94 # 5) <= pct)%Q /\ (pct <= 194 # 5)%Q /\
   (percentToX pct == (pct + 20) * (5 # 3))%Q) \/
  ((194 # 5 <= pct)%Q /\ (percentToX pct == 98)%Q).
Proof.
  unfold percentToX. cbv zeta.
  set (x := ((pct - - 20) / (40 - - 20) * 100)%Q).
  assert (Hx : (x == (pct + 20) * (5 # 3))%Q) by (unfold x; field).
  destruct (Q.min_spec 98 x) as [[H1 ->]|[H1 ->]];
    [destruct (Q.max_spec 2 98) as [[_ ->]|[H2 _]]; [|exfalso; lra]
    |destruct (Q.max_spec 2 x) as [[H2 ->]|[H2 ->]]].
  - right. right. split; [lra | reflexivity].
  - right. left. split; [lra|]. split; [lra | exact Hx].
  - left. split; [lra | reflexivity].
Qed.

End Chart.

(** X18.  [percentToX] of the portfolio chart stays between 2 and 98 and
    never decreases with the percentage.  It is the line (pct + 20) * 5 / 3
    from -18.8 to 38.8 and flat outside: the ends of the documented range,
    -20 and +40, are drawn at 2 and 98. *)
Theorem percentToX_clamped :
  (forall pct : Q,
     (2 <= Client.percentToX pct)%Q /\ (Client.percentToX pct <= 98)%Q) /\
  (forall pct : Q,
     (- (94 # 5) <= pct)%Q -> (pct <= 194 # 5)%Q ->
     (Client.percentToX pct == (pct + 20) * (5 # 3))%Q) /\
  (forall pct : Q, (pct <= - (94 # 5))%Q -> (Client.percentToX pct == 2)%Q) /\
  (forall pct : Q, (194 # 5 <= pct)%Q -> (Client.percentToX pct == 98)%Q) /\
  (forall p1 p2 : Q,
     (p1 <= p2)%Q -> (Client.percentToX p1 <= Client.percentToX p2)%Q).
Proof.
  split; [|split; [|split; [|split]]].
  - intros pct.
    destruct (percentToX_cases pct) as [[H E]|[(H1 & H2 & E)|[H E]]];
      rewrite E; lra.
  - intros pct Hlo Hhi.
    destruct (percentToX_cases pct) as [[H E]|[(H1 & H2 & E)|[H E]]];
      rewrite E; lra.
  - intros pct Hlo.
    destruct (percentToX_cases pct) as [[H E]|[(H1 & H2 & E)|[H E]]];
      rewrite E; lra.
  - intros pct Hhi.
    destruct (percentToX_cases pct) as [[H E]|[(H1 & H2 & E)|[H E]]];
      rewrite E; lra.
  - intros p1 p2 Hle.
    destruct (percentToX_cases p1) as [[H E]|[(H1 & H2 & E)|[H E]]];
      destruct (percentToX_cases p2) as [[H' E']|[(H1' & H2' & E')|[H' E']]];
      rewrite E, E'; lra.
Qed.

(** X19.  [getRelativeTime] by the age of the date in milliseconds: under
    two minutes, and for every date in the future, "just now"; then whole
    minutes up to an hour, whole hours up to a day, "yesterday" for the
    second day, whole days up to a week, and the calendar date from then
    on. *)
Theorem getRelativeTime_bands (now date : Z) (localeDate : string) :
  let age := now - date in
  let shown := Client.getRelativeTime now date localeDate in
  (age < 120000 -> shown = "just now") /\
  (120000 <= age < 3600000 ->
     shown = string_of_Z (age / 60000) +:+ " m ago") /\
  (3600000 <= age < 86400000 ->
     shown = string_of_Z (age / 3600000) +:+ " h ago") /\
  (86400000 <= age < 172800000 -> shown = "yesterday") /\
  (172800000 <= age < 604800000 ->
     shown = string_of_Z (age / 86400000) +:+ " d ago") /\
  (604800000 <= age -> shown = localeDate).
Proof.
  intros age shown. subst shown. unfold Client.getRelativeTime. fold age.
  cbv zeta.
  rewrite !Z.div_div by lia.
  change (60000 * 60) with 3600000. change (3600000 * 24) with 86400000.
  assert (Hm : forall k n, 0 < k -> (age / k <? n) = (age <? k * n)).
  { intros k n Hk. apply Bool.eq_true_iff_eq.
    rewrite !Z.ltb_lt. split; intros Hlt.
    - destruct (Z.lt_ge_cases age (k * n)) as [Hc|Hc]; [exact Hc|].
      apply Z.div_le_lower_bound in Hc; lia.
    - apply Z.div_lt_upper_bound; lia. }
  rewrite !Hm by lia.
  change (60000 * 2) with 120000. change (60000 * 60) with 3600000.
  change (3600000 * 24) with 86400000. change (86400000 * 7) with 604800000.
  assert (Hd : (age / 86400000 =? 1) = (86400000 <=? age) && (age <? 172800000)).
  { apply Bool.eq_true_iff_eq.
    rewrite andb_true_iff, Z.eqb_eq, Z.leb_le, Z.ltb_lt.
    pose proof (Z.div_mod age 86400000 ltac:(lia)).
    pose proof (Z.mod_pos_bound age 86400000 ltac:(lia)). lia. }
  rewrite Hd.
  repeat split; intros Hage;
    repeat match goal with
    | |- context [?a <? ?b] =>
        first [rewrite (proj2 (Z.ltb_lt a b)) by lia
              |rewrite (proj2 (Z.ltb_ge a b)) by lia]
    | |- context [?a <=? ?b] =>
        first [rewrite (proj2 (Z.leb_le a b)) by lia
              |rewrite (proj2 (Z.leb_gt a b)) by lia]
    end; reflexivity.
Qed.

(** Two hours after the date. *)
Lemma getRelativeTime_bands_witness :
  Client.getRelativeTime 7200000 0 "Jan 1" = "2 h ago".
Proof.
  destruct (getRelativeTime_bands 7200000 0 "Jan 1") as (_ & _ & H & _).
  apply H. lia.
Defined.

(** A loss of 50% is drawn at the left edge, a gain of 10% on the line. *)
Lemma percentToX_clamped_witness :
  (Client.percentToX (-50) == 2)%Q /\ (Client.percentToX 10 == 50)%Q.
Proof.
  destruct percentToX_clamped as (_ & Hline & Hleft & _).
  split.
  - apply Hleft. discriminate.
  - rewrite Hline; [reflexivity | discriminate | discriminate].
Defined.

Section Truncate.

Lemma append_length (s t : string) :
  String.length (s +:+ t) = (String.length s + String.length t)%nat.
Proof.
  induction s as [|a s IH]; [reflexivity|].
  change (String a s +:+ t) with (String a (s +:+ t)).
  cbn [String.length]. rewrite IH. reflexivity.
Qed.

Lemma append_assoc (s t u : string) : (s +:+ t) +:+ u = s +:+ (t +:+ u).
Proof.
  induction s as [|a s IH]; [reflexivity|].
  change (String a ((s +:+ t) +:+ u) = String a (s +:+ (t +:+ u))).
  rewrite IH. reflexivity.
Qed.

Lemma append_empty (s : string) : s +:+ EmptyString = s.
Proof.
  induction s as [|a s IH]; [reflexivity|].
  change (String a (s +:+ EmptyString) = String a s). rewrite IH. reflexivity.
Qed.

Lemma rev_app_spec (s acc : string) :
  String.rev_app s acc = String.rev s +:+ acc.
Proof.
  unfold String.rev. revert acc.
  induction s as [|a s IH]; intros acc; cbn [String.rev_app]; [reflexivity|].
  rewrite IH, (IH (String a EmptyString)), append_assoc. reflexivity.
Qed.

Lemma rev_cons (a : ascii) (s : string) :
  String.rev (String a s) = String.rev s +:+ String a EmptyString.
Proof. unfold String.rev at 1. cbn [String.rev_app]. apply rev_app_spec. Qed.

Lemma rev_append (s t : string) :
  String.rev (s +:+ t) = String.rev t +:+ String.rev s.
Proof.
  induction s as [|a s IH].
  - change (EmptyString +:+ t) with t. symmetry. apply append_empty.
  - change (String a s +:+ t) with (String a (s +:+ t)).
    rewrite !rev_cons, IH, append_assoc. reflexivity.
Qed.

Lemma rev_rev (s : string) : String.rev (String.rev s) = s.
Proof.
  induction s as [|a s IH]; [reflexivity|].
  rewrite rev_cons, rev_append, IH. reflexivity.
Qed.

Lemma rev_length (s : string) : String.length (String.rev s) = String.length s.
Proof.
  induction s as [|a s IH]; [reflexivity|].
  rewrite rev_cons, append_length, IH. cbn [String.length]. lia.
Qed.

Lemma rev_all (P : ascii -> bool) (s : string) :
  Str.all P (String.rev s) = Str.all P s.
Proof.
  induction s as [|a s IH]; [reflexivity|].
  rewrite rev_cons, all_app, IH. cbn [Str.all].
  rewrite andb_true_r. apply andb_comm.
Qed.

(** [trimStart] takes a run of white space off the front, all of it. *)
Lemma trimStart_spec (s : string) :
  exists l : string,
    s = l +:+ Str.trimStart s /\ Str.all Str.is_ws l = true /\
    Str.trimStart (Str.trimStart s) = Str.trimStart s.
Proof.
  induction s as [|a s (l & Hs & Hl & Hi)].
  - exists EmptyString. repeat split.
  - cbn [Str.trimStart]. destruct (Str.is_ws a) eqn:Ha.
    + exists (String a l). split; [|split; [|exact Hi]].
      * change (String a s = String a (l +:+ Str.trimStart s)).
        rewrite <- Hs. reflexivity.
      * cbn [Str.all]. rewrite Ha, Hl. reflexivity.
    + exists EmptyString. split; [reflexivity|]. split; [reflexivity|].
      cbn [Str.trimStart]. rewrite Ha. reflexivity.
Qed.

Lemma trimStart_length (s : string) :
  (String.length (Str.trimStart s) <= String.length s)%nat.
Proof.
  induction s as [|a s IH]; simpl; [lia|].
  destruct (Str.is_ws a); simpl; lia.
Qed.

Lemma trimStart_prefix (s t : string) :
  Str.trimStart s = s -> s <> EmptyString -> Str.trimStart (s +:+ t) = s +:+ t.
Proof.
  destruct s as [|a s]; [contradiction|]. intros H _.
  change (String a s +:+ t) with (String a (s +:+ t)).
  cbn [Str.trimStart] in H |- *.
  destruct (Str.is_ws a); [|reflexivity].
  exfalso. pose proof (trimStart_length s) as Hlen. rewrite H in Hlen.
  cbn [String.length] in Hlen. lia.
Qed.

(** [trim] takes white space off both ends, all of it. *)
Lemma trim_spec (s : string) :
  exists l r : string,
    s = l +:+ Str.trim s +:+ r /\
    Str.all Str.is_ws l = true /\ Str.all Str.is_ws r = true /\
    Str.trimStart (Str.trim s) = Str.trim s /\
    Str.trimStart (String.rev (Str.trim s)) = String.rev (Str.trim s).
Proof.
  unfold Str.trim.
  destruct (trimStart_spec s) as (l & Hs & Hl & Hi).
  destruct (trimStart_spec (String.rev (Str.trimStart s)))
    as (l' & Hu & Hl' & Hi').
  set (u := Str.trimStart s) in *.
  set (v := Str.trimStart (String.rev u)) in *.
  assert (Hu' : u = String.rev v +:+ String.rev l').
  { rewrite <- (rev_rev u), Hu, rev_append. reflexivity. }
  exists l, (String.rev l').
  split; [rewrite Hs at 1; rewrite Hu' at 1; reflexivity|].
  split; [exact Hl|]. split; [rewrite rev_all; exact Hl'|].
  split; [|rewrite rev_rev; exact Hi'].
  destruct (String.rev v) as [|a k] eqn:Hk; [reflexivity|].
  cbn [Str.trimStart]. destruct (Str.is_ws a) eqn:Ha; [|reflexivity].
  exfalso. assert (Hi2 : Str.trimStart u = u) by exact Hi.
  rewrite Hu' in Hi2.
  change (String a k +:+ String.rev l')
    with (String a (k +:+ String.rev l')) in Hi2.
  cbn [Str.trimStart] in Hi2. rewrite Ha in Hi2.
  pose proof (trimStart_length (k +:+ String.rev l')) as Hlen.
  rewrite Hi2 in Hlen. cbn [String.length] in Hlen. lia.
Qed.

Lemma trim_length (s : string) :
  (String.length (Str.trim s) <= String.length s)%nat.
Proof.
  destruct (trim_spec s) as (l & r & Hs & _).
  rewrite Hs at 2. rewrite !append_length. lia.
Qed.

(** [substring(0, n)] is the first [n] characters. *)
Lemma take_prefix (n : nat) (s : string) :
  (n <= String.length s)%nat ->
  exists rest : string,
    s = Str.take n s +:+ rest /\ String.length (Str.take n s) = n.
Proof.
  unfold Str.take. revert s.
  induction n as [|n IH]; intros s Hn.
  - exists s. destruct s; split; reflexivity.
  - destruct s as [|a s]; [cbn [String.length] in Hn; lia|].
    cbn [String.length] in Hn.
    destruct (IH s ltac:(lia)) as (rest & Hs & Hlen).
    exists rest. cbn [substring]. split.
    + change (String a s = String a (substring 0 n s +:+ rest)).
      rewrite <- Hs. reflexivity.
    + cbn [String.length]. rewrite Hlen. reflexivity.
Qed.

End Truncate.

(** X20.  [truncate]: a missing or empty text gives the empty string; a text
    of at most [maxLength] characters is returned unchanged; a longer text
    is cut to its first [maxLength] characters, the white space at both ends
    of that cut is taken off, all of it, and three dots are added.  The
    result is never longer than [maxLength + 3]. *)
Theorem truncate_bound (text : option string) (maxLength : nat) :
  (text = None \/ text = Some EmptyString ->
     Client.truncate text maxLength = EmptyString) /\
  (forall t : string,
     text = Some t -> (String.length t <= maxLength)%nat ->
     Client.truncate text maxLength = t) /\
  (forall t : string,
     text = Some t -> (maxLength < String.length t)%nat ->
     exists cut rest l kept r : string,
       t = cut +:+ rest /\ String.length cut = maxLength /\
       cut = l +:+ kept +:+ r /\
       Str.all Str.is_ws l = true /\ Str.all Str.is_ws r = true /\
       Str.trimStart kept = kept /\
       Str.trimStart (String.rev kept) = String.rev kept /\
       Client.truncate text maxLength = kept +:+ "...") /\
  (String.length (Client.truncate text maxLength) <= maxLength + 3)%nat.
Proof.
  unfold Client.truncate. split; [|split; [|split]].
  - intros [ -> | -> ]; reflexivity.
  - intros t -> Hshort. destruct t as [|a t]; [reflexivity|].
    rewrite (proj2 (Nat.leb_le _ _) Hshort). reflexivity.
  - intros t -> Hlong. destruct t as [|a t]; [simpl in Hlong; lia|].
    rewrite (proj2 (Nat.leb_gt _ _) Hlong).
    destruct (take_prefix maxLength (String a t) ltac:(lia))
      as (rest & Ht & Hlen).
    destruct (trim_spec (Str.take maxLength (String a t)))
      as (l & r & Hcut & Hl & Hr & Hfront & Hback).
    exists (Str.take maxLength (String a t)), rest, l,
      (Str.trim (Str.take maxLength (String a t))), r.
    repeat split; assumption || reflexivity.
  - destruct text as [[|a t]|]; try (cbn [String.length]; lia).
    destruct (String.length (String a t) <=? maxLength)%nat eqn:E.
    + apply Nat.leb_le in E. lia.
    + rewrite append_length.
      pose proof (trim_length (Str.take maxLength (String a t))).
      pose proof (take_length maxLength (String a t)).
      change (String.length "...") with 3%nat. lia.
Qed.

(** A headline cut after ten characters loses the blanks it was cut at. *)
Lemma truncate_bound_witness :
  Client.truncate (Some "Bitcoin   rallies") 10 = "Bitcoin..." /\
  exists cut rest l kept r : string,
    "Bitcoin   rallies" = cut +:+ rest /\ String.length cut = 10%nat /\
    cut = l +:+ kept +:+ r /\
    Str.all Str.is_ws l = true /\ Str.all Str.is_ws r = true /\
    Str.trimStart kept = kept /\
    Str.trimStart (String.rev kept) = String.rev kept /\
    Client.truncate (Some "Bitcoin   rallies") 10 = kept +:+ "...".
Proof.
  split; [reflexivity|].
  destruct (truncate_bound (Some "Bitcoin   rallies") 10) as (_ & _ & H & _).
  apply (H "Bitcoin   rallies"); [reflexivity | simpl; lia].
Defined.




Section ZoneKeys.

Import Regex.

Lemma lower_not_upper (a : ascii) : Str.is_upper (Str.lower a) = false.
Proof. destruct a as [[] [] [] [] [] [] [] []]; reflexivity. Qed.

Lemma toLowerCase_no_upper (s : string) :
  Str.all (fun a => negb (Str.is_upper a)) (Str.toLowerCase s) = true.
Proof.
  induction s as [|a s IH]; [reflexivity|].
  cbn [Str.toLowerCase Str.map Str.all].
  rewrite lower_not_upper. exact IH.
Qed.

Lemma toLowerCase_fixed (s : string) :
  Str.all (fun a => negb (Str.is_upper a)) s = true ->
  Str.toLowerCase s = s.
Proof.
  induction s as [|a s IH]; [reflexivity|].
  cbn [Str.all]. intros H.
  apply andb_true_iff in H as [Ha Hs].
  change (Str.toLowerCase (String a s))
    with (String (Str.lower a) (Str.toLowerCase s)).
  rewrite (IH Hs). unfold Str.lower. apply negb_true_iff in Ha. rewrite Ha. reflexivity.
Qed.

(** Without a character of the class there is nothing to replace. *)
Lemma replace_nothing (c : cls) (rep s : string) :
  Str.all (fun a => negb (in_cls c a)) s = true ->
  replace_go {| icase := false; atoms := [One c; Many c] |} rep 0 s = s.
Proof.
  induction s as [|a s IH]; [reflexivity|].
  cbn [Str.all]. intros H. apply andb_true_iff in H as [Ha Hs].
  apply negb_true_iff in Ha.
  cbn [replace_go]. unfold match_here. cbn [icase atoms run].
  rewrite Ha. fold (match_here {| icase := false; atoms := [One c; Many c] |}).
  rewrite (IH Hs). reflexivity.
Qed.

Lemma all_impl (P Q : ascii -> bool) (s : string) :
  (forall a, P a = true -> Q a = true) ->
  Str.all P s = true -> Str.all Q s = true.
Proof.
  intros HPQ. induction s as [|a s IH]; [reflexivity|].
  cbn [Str.all]. intros H. apply andb_true_iff in H as [Ha Hs].
  rewrite (HPQ a Ha), (IH Hs). reflexivity.
Qed.

End ZoneKeys.

(** X22.  The zone key made from a title by [getZoneFromTitle] contains no
    white space and no upper-case letter, and making a key from a key
    changes nothing. *)
Theorem zone_key_shape (title : option string) :
  let key := Client.getZoneFromTitle title in
  Str.all (fun a => negb (Str.is_ws a) && negb (Str.is_upper a)) key = true /\
  Client.getZoneFromTitle (Some key) = key.
Proof.
  intros key.
  assert (Hshape :
    Str.all (fun a => negb (Str.is_ws a) && negb (Str.is_upper a)) key = true).
  { subst key. unfold Client.getZoneFromTitle.
    destruct title as [[|a t]|]; try reflexivity.
    apply (replace_runs Regex.Space "-"
             (fun a => negb (Str.is_ws a) && negb (Str.is_upper a))
             (fun a => negb (Str.is_upper a)));
      [reflexivity | | apply toLowerCase_no_upper].
    intros b Hb Hu. cbn [Regex.in_cls] in Hb. rewrite Hb, Hu. reflexivity. }
  split; [exact Hshape|].
  unfold Client.getZoneFromTitle at 1.
  destruct key as [|a k] eqn:Hkey; [reflexivity|]. rewrite <- Hkey in *.
  rewrite toLowerCase_fixed.
  - apply replace_nothing.
    revert Hshape. apply all_impl. intros b Hb.
    apply andb_true_iff in Hb as [Hb _]. exact Hb.
  - revert Hshape. apply all_impl. intros b Hb.
    apply andb_true_iff in Hb as [_ Hb]. exact Hb.
Qed.

(** ** The personal data: what is fetched *)

Section PersonalFetch.

Import PersonalCache.

Lemma extend_succeeded (c : CoinGecko.Coin) :
  succeeded (extend c) = bool_decide (is_Some (CoinGecko.symbol c)).
Proof.
  unfold extend, CoinsCache.symbol_upper.
  destruct (CoinGecko.symbol c); reflexivity.
Qed.

Lemma all_extended (cs : list CoinGecko.Coin) :
  succeeded (map_exc extend cs)
  = forallb (fun c => bool_decide (is_Some (CoinGecko.symbol c))) cs.
Proof.
  rewrite map_exc_succeeded.
  induction cs as [|c cs IH]; simpl; [reflexivity|].
  rewrite extend_succeeded, IH. reflexivity.
Qed.

Lemma fetchMarketHistory_ok_inv
    (r : Reply (Body CoinGecko.Global)) (v : val) :
  fetchMarketHistory r = Ok v ->
  exists (code : Z) (doc : CoinGecko.Global),
    r = Answered code (Ok (Doc doc)) /\ ok code = true /\
    fetchMarketHistory (Answered 200 (Ok (Doc doc))) = Ok v.
Proof.
  unfold fetchMarketHistory.
  destruct r as [msg|code [[doc|msg]|msg]]; try discriminate;
    destruct (ok code) eqn:Hok; try discriminate.
  intros H. exists code, doc.
  split; [reflexivity|]. split; [exact Hok | exact H].
Qed.

Lemma fetchCoinsWithHistory_ok_inv
    (r : Reply (Body (list CoinGecko.Coin))) (l : list val) :
  fetchCoinsWithHistory r = Ok l ->
  exists (code : Z) (cs : list CoinGecko.Coin),
    r = Answered code (Ok (Doc cs)) /\ ok code = true /\
    map_exc extend cs = Ok l.
Proof.
  unfold fetchCoinsWithHistory.
  destruct r as [msg|code [[cs|msg]|msg]]; try discriminate;
    destruct (ok code) eqn:Hok; try discriminate.
  simpl. intros H. exists code, cs.
  split; [reflexivity|]. split; [exact Hok | exact H].
Qed.

End PersonalFetch.

(** X23.  What the personal-data handler fetches.  The market summary
    succeeds exactly when the global request is answered with an ok status
    and a body that is an object.  Whatever the object holds, the two
    headline dominance figures are those of the dominance table, and an
    object without [data] gives 0 for each of the seven figures.  The coin
    list succeeds exactly when the request is answered with an ok status,
    the body is an array of coin records, and every coin has a symbol.  The
    fetch as a whole succeeds only if both do. *)
Theorem personal_fetch_shape :
  (forall r : Reply (Body CoinGecko.Global),
     succeeded (PersonalCache.fetchMarketHistory r) = true <->
     exists (code : Z) (doc : CoinGecko.Global),
       r = Answered code (Ok (Doc doc)) /\ ok code = true) /\
  (forall (r : Reply (Body CoinGecko.Global)) (v : val),
     PersonalCache.fetchMarketHistory r = Ok v ->
     exists (code : Z) (doc : CoinGecko.Global) (m dom : Obj),
       r = Answered code (Ok (Doc doc)) /\
       v = VObj m /\
       m !! "dominance" = Some (VObj dom) /\
       m !! "btcDominance" = dom !! "btc" /\
       m !! "ethDominance" = dom !! "eth" /\
       (CoinGecko.data doc = None ->
        forall k : string,
          k ∈ ["totalMarketCap"; "totalVolume24h"; "marketCapChange24h";
               "btcDominance"; "ethDominance"; "activeCryptos"; "markets"] ->
          m !! k = Some (VZ 0))) /\
  (forall r : Reply (Body (list CoinGecko.Coin)),
     succeeded (PersonalCache.fetchCoinsWithHistory r) = true <->
     exists (code : Z) (cs : list CoinGecko.Coin),
       r = Answered code (Ok (Doc cs)) /\ ok code = true /\
       forallb (fun c => bool_decide (is_Some (CoinGecko.symbol c))) cs
       = true) /\
  (forall e : PersonalCache.Env,
     succeeded (PersonalCache.fetchBoth e)
     = succeeded (PersonalCache.fetchCoinsWithHistory (PersonalCache.coins e))
       && succeeded (PersonalCache.fetchMarketHistory (PersonalCache.global e))).
Proof.
  split; [|split; [|split]].
  - intros r. split.
    + destruct (PersonalCache.fetchMarketHistory r) as [v|] eqn:E;
        [intros _ | discriminate].
      destruct (fetchMarketHistory_ok_inv r v E) as (code & doc & -> & Hok & _).
      exists code, doc. split; [reflexivity | exact Hok].
    + intros (code & doc & -> & Hok).
      unfold PersonalCache.fetchMarketHistory. rewrite Hok. reflexivity.
  - intros r v E.
    destruct (fetchMarketHistory_ok_inv r v E) as (code & doc & -> & Hok & Hv).
    exists code, doc. revert Hv. unfold PersonalCache.fetchMarketHistory.
    cbn [ok Z.leb Z.compare Pos.compare Pos.compare_cont andb negb
         mbind exc_bind use]. cbv zeta. intros [= <-].
    eexists _, _. split; [reflexivity|]. split; [reflexivity|].
    split; [obj_field|]. split; [obj_field; symmetry; obj_field|].
    split; [obj_field; symmetry; obj_field|].
    intros Hnone k Hk. rewrite Hnone.
    rewrite !elem_of_cons, elem_of_nil in Hk.
    destruct Hk as [ -> | [ -> | [ -> | [ -> | [ -> | [ -> | [ -> | [] ] ] ] ] ] ] ];
      obj_field.
  - intros r. split.
    + destruct (PersonalCache.fetchCoinsWithHistory r) as [l|] eqn:E;
        [intros _ | discriminate].
      destruct (fetchCoinsWithHistory_ok_inv r l E)
        as (code & cs & -> & Hok & Hm).
      exists code, cs. split; [reflexivity|]. split; [exact Hok|].
      rewrite <- all_extended, Hm. reflexivity.
    + intros (code & cs & -> & Hok & Hall).
      unfold PersonalCache.fetchCoinsWithHistory. rewrite Hok. simpl.
      rewrite all_extended. exact Hall.
  - intros e. unfold PersonalCache.fetchBoth.
    destruct (PersonalCache.fetchCoinsWithHistory _); [|reflexivity].
    destruct (PersonalCache.fetchMarketHistory _); reflexivity.
Qed.

(** A global document without a [data] member reports no markets. *)
Lemma personal_fetch_shape_witness :
  exists m : Obj,
    PersonalCache.fetchMarketHistory
      (Answered 200 (Ok (Doc {| CoinGecko.data := None |}))) = Ok (VObj m) /\
    m !! "markets" = Some (VZ 0).
Proof.
  destruct personal_fetch_shape as (_ & H & _).
  destruct (H (Answered 200 (Ok (Doc {| CoinGecko.data := None |}))) _ eq_refl)
    as (code & doc & m & dom & Hr & Hv & _ & _ & _ & Hz).
  injection Hr as _ <-.
  exists m. split; [rewrite <- Hv; reflexivity|].
  apply Hz; [reflexivity|]. rewrite !elem_of_cons. tauto.
Defined.

Section AudioTime.



End AudioTime.

